(** * Multicopter attitude / rate / UDE controller (mc_att_control_main.cpp)

    A shallow embedding of the control-law pipeline of the multicopter
    attitude controller: the thrust/throttle curves and the mixer, the
    quaternion attitude law [control_attitude], the rate PID
    [control_attitude_rates], the three UDE variants and the per-sample body
    of [run].

    C [float] is IEEE-754 binary32.  It is modelled exactly, with the
    standard library's executable specification of floating-point numbers
    ([spec_float], precision 24, emax 128): signed zeros, infinities and NaN
    are values, every operation rounds to nearest-even, and a comparison
    with NaN is false. *)

From Stdlib Require Import ZArith Bool List Lia.
From Stdlib Require Import Floats.SpecFloat.
From coqutil Require Import Datatypes.RecordSetters.
Import ListNotations.
Import RecordSetters.TriangleBracketNotations.

Local Open Scope Z_scope.

(** Field updates [r <| f := v |>] go through one setter per field, built
    from the eta-expansion [etaR] of the record: the setter rebuilds the
    record with the one field changed. *)
Ltac field_setter etaR :=
  lazymatch goal with
  | |- @Setter ?R ?E ?g =>
    let h := head g in
    exact (fun (u : E -> E) (r : R) => ltac:(
      let b := eval cbv beta delta [etaR] in (etaR r) in
      let g' := eval cbv beta delta [h] in (g r) in
      lazymatch eval pattern g' in b with
      | ?F _ => let res := eval cbv beta in (F (u g')) in exact res
      end))
  end.

(* ================================================================== *)
(** ** Single-precision arithmetic *)

Definition float : Type := spec_float.

Module F32.

Definition prec : Z := 24.
Definition emax : Z := 128.

Definition add : float -> float -> float := SFadd prec emax.
Definition sub : float -> float -> float := SFsub prec emax.
Definition mul : float -> float -> float := SFmul prec emax.
Definition div : float -> float -> float := SFdiv prec emax.
Definition opp : float -> float := SFopp.
Definition sqrt : float -> float := SFsqrt prec emax.

(** C's [<], [>], [<=], [>=] and [==]: false as soon as an operand is NaN. *)
Definition ltb (x y : float) : bool := SFltb x y.
Definition gtb (x y : float) : bool := ltb y x.
Definition leb (x y : float) : bool := SFleb x y.
Definition geb (x y : float) : bool := leb y x.
Definition eqb (x y : float) : bool := SFeqb x y.

(** Conversion of an [int] to [float]. *)
Definition of_Z (z : Z) : float := binary_normalize prec emax z 0 false.

(** A decimal literal [n / d] with [n], [d] below [2^24]: both are exact
    in binary32, so the one correctly rounded division is the float
    nearest to the decimal, which is what the compiler stores for the
    literal. *)
Definition lit (n d : Z) : float := div (of_Z n) (of_Z d).

Definition zero : float := S754_zero false.
Definition one : float := of_Z 1.
Definition nan : float := S754_nan.

(** [PX4_ISFINITE], i.e. [std::isfinite]. *)
Definition PX4_ISFINITE (x : float) : bool :=
  match x with
  | S754_zero _ | S754_finite _ _ _ => true
  | S754_infinity _ | S754_nan => false
  end.

Definition is_nan (x : float) : bool :=
  match x with S754_nan => true | _ => false end.

(** libm's [fabsf], [fminf] and [fmaxf] (IEEE [minNum]/[maxNum]: a NaN
    operand is ignored when the other operand is a number). *)
Definition fabsf (x : float) : float := SFabs x.
Definition fminf (x y : float) : float :=
  if is_nan x then y else if is_nan y then x else if ltb y x then y else x.
Definition fmaxf (x y : float) : float :=
  if is_nan x then y else if is_nan y then x else if ltb x y then y else x.

End F32.

(** The arithmetic stays folded when a goal is simplified. *)
Arguments F32.add : simpl never.
Arguments F32.sub : simpl never.
Arguments F32.mul : simpl never.
Arguments F32.div : simpl never.
Arguments F32.opp : simpl never.
Arguments F32.sqrt : simpl never.
Arguments F32.ltb : simpl never.
Arguments F32.gtb : simpl never.
Arguments F32.leb : simpl never.
Arguments F32.geb : simpl never.
Arguments F32.of_Z : simpl never.
Arguments F32.lit : simpl never.
Arguments F32.PX4_ISFINITE : simpl never.
Arguments F32.fabsf : simpl never.
Arguments F32.fminf : simpl never.
Arguments F32.fmaxf : simpl never.

Declare Scope f32_scope.
Delimit Scope f32_scope with f32.
Bind Scope f32_scope with float.
Infix "+" := F32.add : f32_scope.
Infix "-" := F32.sub : f32_scope.
Infix "*" := F32.mul : f32_scope.
Infix "/" := F32.div : f32_scope.
Notation "- x" := (F32.opp x) : f32_scope.
Infix "<?" := F32.ltb : f32_scope.
Infix ">?" := F32.gtb (at level 70) : f32_scope.
Infix "<=?" := F32.leb : f32_scope.
Infix ">=?" := F32.geb (at level 70) : f32_scope.

(* ================================================================== *)
(** ** Double precision, for [pow] *)

Module F64.

Definition prec : Z := 53.
Definition emax : Z := 1024.

(** Promotion of a [float] argument to [double] is exact. *)
Definition of_float (x : float) : spec_float := x.

(** The cast [(float)d] rounds the double to the nearest binary32. *)
Definition to_float (d : spec_float) : float :=
  match d with
  | S754_finite s m e => binary_round F32.prec F32.emax s m e
  | _ => d
  end.

(** [pow(x, n)] for the exponents the thrust curves use (2, 3 and 4),
    taken as the correctly rounded power: the exact [x^n] rounded once to
    binary64, and exact whenever [x^n] is representable. *)
Definition pow (x : spec_float) (n : positive) : spec_float :=
  let sign (s : bool) := if Z.even (Zpos n) then false else s in
  match x with
  | S754_finite s m e => binary_round prec emax (sign s) (Pos.pow m n) (e * Zpos n)
  | S754_zero s => S754_zero (sign s)
  | S754_infinity s => S754_infinity (sign s)
  | S754_nan => S754_nan
  end.

End F64.

(** [(float)pow(x, n)] as the thrust curves write it. *)
Definition powf_cast (x : float) (n : positive) : float :=
  F64.to_float (F64.pow (F64.of_float x) n).

(* ================================================================== *)
(** ** mathlib helpers (math/Limits.hpp, math/Functions.hpp) *)

Module math.

(** Modelled from the spec: [math::constrain] of mathlib's Limits.hpp,
    whose text is not among the sources; the spec's "clamp"/"bounded to
    the configured limit", as the comparison chain
    [(val < min) ? min : ((val > max) ? max : val)]. *)
Definition constrain (val min_val max_val : float) : float :=
  if (val <? min_val)%f32 then min_val
  else if (val >? max_val)%f32 then max_val
  else val.

(** Modelled from the spec: [math::min] of mathlib's Limits.hpp (not among
    the sources), [(a < b) ? a : b]; the spec's "clamp error to <= 0". *)
Definition min (a b : float) : float := if (a <? b)%f32 then a else b.

(** Modelled from the spec: [math::max] of mathlib's Limits.hpp (not among
    the sources), [(a > b) ? a : b]; the spec's "clamp to >= 0". *)
Definition max (a b : float) : float := if (a >? b)%f32 then a else b.

(** Modelled from the spec: [math::signNoZero] of mathlib's Functions.hpp
    (not among the sources), the sign used to resolve the quaternion
    double cover: [(0 <= val) - (val < 0)], an [int]. *)
Definition signNoZero (val : float) : Z :=
  Z.b2z (F32.zero <=? val)%f32 - Z.b2z (val <? F32.zero)%f32.

End math.

Arguments math.constrain : simpl never.
Arguments math.min : simpl never.
Arguments math.max : simpl never.
Arguments math.signNoZero : simpl never.

(* ================================================================== *)
(** ** Vectors, quaternions and matrices of the matrix library *)

(** The loops of the controller run over the axis indices 0, 1, 2. *)
Inductive axis : Type := AXIS_INDEX_ROLL | AXIS_INDEX_PITCH | AXIS_INDEX_YAW.

(** [for (i = 0; i < 3; i++)] and [for (i = 0; i < 2; i++)]. *)
Definition axes3 : list axis := [AXIS_INDEX_ROLL; AXIS_INDEX_PITCH; AXIS_INDEX_YAW].
Definition axes2 : list axis := [AXIS_INDEX_ROLL; AXIS_INDEX_PITCH].

(** [Vector3f], and the [float[3]] arrays of the uORB messages. *)
#[projections(primitive)] Record Vector3f : Type := mkVector3f { v0 : float; v1 : float; v2 : float }.

Module Vector3f.

Definition get (v : Vector3f) (i : axis) : float :=
  match i with
  | AXIS_INDEX_ROLL => v0 v
  | AXIS_INDEX_PITCH => v1 v
  | AXIS_INDEX_YAW => v2 v
  end.

Definition set (v : Vector3f) (i : axis) (x : float) : Vector3f :=
  match i with
  | AXIS_INDEX_ROLL => mkVector3f x (v1 v) (v2 v)
  | AXIS_INDEX_PITCH => mkVector3f (v0 v) x (v2 v)
  | AXIS_INDEX_YAW => mkVector3f (v0 v) (v1 v) x
  end.

Definition zero : Vector3f := mkVector3f F32.zero F32.zero F32.zero.

Definition map2 (f : float -> float -> float) (a b : Vector3f) : Vector3f :=
  mkVector3f (f (v0 a) (v0 b)) (f (v1 a) (v1 b)) (f (v2 a) (v2 b)).

Definition add : Vector3f -> Vector3f -> Vector3f := map2 F32.add.
Definition sub : Vector3f -> Vector3f -> Vector3f := map2 F32.sub.
Definition emult : Vector3f -> Vector3f -> Vector3f := map2 F32.mul.

(** [v * scalar], also written [scalar * v] and [v *= scalar]. *)
Definition scale (v : Vector3f) (k : float) : Vector3f :=
  mkVector3f (v0 v * k)%f32 (v1 v * k)%f32 (v2 v * k)%f32.

End Vector3f.

(** [Quatf]: [q(0)] is the scalar part. *)
#[projections(primitive)] Record Quatf : Type := mkQuatf { q0 : float; q1 : float; q2 : float; q3 : float }.
Definition eta_Quatf := ltac:(let e := eta Quatf in exact e).
#[global] Instance set_q0 : Setter q0 := ltac:(field_setter eta_Quatf).
#[global] Instance set_q3 : Setter q3 := ltac:(field_setter eta_Quatf).

Module Quatf.

Definition imag (q : Quatf) : Vector3f := mkVector3f (q1 q) (q2 q) (q3 q).

(** [q *= scalar]. *)
Definition scale (q : Quatf) (k : float) : Quatf :=
  mkQuatf (q0 q * k)%f32 (q1 q * k)%f32 (q2 q * k)%f32 (q3 q * k)%f32.

End Quatf.

(** [Dcmf], by rows. *)
#[projections(primitive)] Record Dcmf : Type := mkDcmf { row0 : Vector3f; row1 : Vector3f; row2 : Vector3f }.

(* ================================================================== *)
(** ** What the controller takes from libraries

    The source calls into libm, into the matrix library (quaternion
    algebra) and into the filter classes.  Their text is not part of the
    controller, so they are an interface here, and every theorem below holds
    for every implementation of it. *)

Class Lib : Type := {
  (* libm *)
  cosf : float -> float;
  sinf : float -> float;
  acosf : float -> float;
  asinf : float -> float;
  cos : float -> float;
  sin : float -> float;
  (** the unqualified [abs] of the thrust-axis test *)
  abs : float -> float;
  (* matrix library *)
  Quatf_normalize : Quatf -> Quatf;
  Quatf_dcm_z : Quatf -> Vector3f;
  (** [Quatf(src, dst)]: the rotation taking [src] to [dst] *)
  Quatf_from_vectors : Vector3f -> Vector3f -> Quatf;
  Quatf_mul : Quatf -> Quatf -> Quatf;
  Quatf_inversed : Quatf -> Quatf;
  Eulerf_of_Quatf : Quatf -> Vector3f;
  Quatf_of_Eulerf : Vector3f -> Quatf;
  Dcmf_mul : Dcmf -> Vector3f -> Vector3f;
  Vector3f_div : Vector3f -> float -> Vector3f;
  (* mathlib *)
  superexpo : float -> float -> float -> float;
  (* filters: a state and its update *)
  LowPassFilter2p : Type;
  LowPassFilter2p_apply : LowPassFilter2p -> float -> LowPassFilter2p * float;
  LowPassFilter2p_set_cutoff_frequency : LowPassFilter2p -> float -> float -> LowPassFilter2p;
  LPFwithDelay : Type;
  LPFwithDelay_update : LPFwithDelay -> float -> float -> LPFwithDelay * float;
  LPFwithDelay_get_delay_output : LPFwithDelay -> float;
  Filter : Type;
  (** [update(input, dt)] of the first- and second-order filters
      [LPF], [HPF], [HPF2], [BPF] and [HPF_td] *)
  LPF_update : Filter -> float -> float -> Filter * float;
  HPF_update : Filter -> float -> float -> Filter * float;
  HPF2_update : Filter -> float -> float -> Filter * float;
  BPF_update : Filter -> float -> float -> Filter * float;
  HPF_td_update : Filter -> float -> float -> Filter * float
}.

(* ================================================================== *)
(** ** uORB messages (the fields the controller reads or writes) *)

(** The two-element arrays ([LPF[2]], [HPF[2]], ...) and the index of the
    roll/pitch loops [for (i = 0; i < 2; i++)]. *)
Inductive idx2 : Type := I0 | I1.

Definition ax (i : idx2) : axis :=
  match i with I0 => AXIS_INDEX_ROLL | I1 => AXIS_INDEX_PITCH end.
Coercion ax : idx2 >-> axis.

#[projections(primitive)] Record Arr2 (A : Type) : Type := mkArr2 { a0 : A; a1 : A }.
Arguments mkArr2 {A} _ _.
Arguments a0 {A} _.
Arguments a1 {A} _.

Module Arr2.
Definition get {A} (a : Arr2 A) (i : idx2) : A :=
  match i with I0 => a0 a | I1 => a1 a end.
Definition set {A} (a : Arr2 A) (i : idx2) (x : A) : Arr2 A :=
  match i with I0 => mkArr2 x (a1 a) | I1 => mkArr2 (a0 a) x end.
End Arr2.

Module vehicle_attitude_s.
#[projections(primitive)] Record t : Type := mk { q : Quatf }.
End vehicle_attitude_s.

Module vehicle_attitude_setpoint_s.
#[projections(primitive)] Record t : Type := mk {
  q_d : Quatf;
  thrust : float;
  yaw_sp_move_rate : float;
  disable_mc_yaw_control : bool;
  landing_gear : float }.
Definition eta := ltac:(let e := eta t in exact e).
#[global] Instance set_q_d : Setter q_d := ltac:(field_setter eta).
#[global] Instance set_thrust : Setter thrust := ltac:(field_setter eta).
#[global] Instance set_yaw_sp_move_rate : Setter yaw_sp_move_rate := ltac:(field_setter eta).
#[global] Instance set_disable_mc_yaw_control : Setter disable_mc_yaw_control := ltac:(field_setter eta).
#[global] Instance set_landing_gear : Setter landing_gear := ltac:(field_setter eta).
End vehicle_attitude_setpoint_s.

Module vehicle_rates_setpoint_s.
#[projections(primitive)] Record t : Type := mk { roll : float; pitch : float; yaw : float; thrust : float }.
Definition eta := ltac:(let e := eta t in exact e).
#[global] Instance set_roll : Setter roll := ltac:(field_setter eta).
#[global] Instance set_pitch : Setter pitch := ltac:(field_setter eta).
#[global] Instance set_yaw : Setter yaw := ltac:(field_setter eta).
#[global] Instance set_thrust : Setter thrust := ltac:(field_setter eta).
End vehicle_rates_setpoint_s.

Module vehicle_control_mode_s.
#[projections(primitive)] Record t : Type := mk {
  flag_armed : bool;
  flag_control_manual_enabled : bool;
  flag_control_auto_enabled : bool;
  flag_control_rates_enabled : bool;
  flag_control_attitude_enabled : bool;
  flag_control_rattitude_enabled : bool;
  flag_control_velocity_enabled : bool;
  flag_control_termination_enabled : bool }.
Definition eta := ltac:(let e := eta t in exact e).
#[global] Instance set_flag_armed : Setter flag_armed := ltac:(field_setter eta).
#[global] Instance set_flag_control_manual_enabled : Setter flag_control_manual_enabled := ltac:(field_setter eta).
#[global] Instance set_flag_control_auto_enabled : Setter flag_control_auto_enabled := ltac:(field_setter eta).
#[global] Instance set_flag_control_rates_enabled : Setter flag_control_rates_enabled := ltac:(field_setter eta).
#[global] Instance set_flag_control_attitude_enabled : Setter flag_control_attitude_enabled := ltac:(field_setter eta).
#[global] Instance set_flag_control_rattitude_enabled : Setter flag_control_rattitude_enabled := ltac:(field_setter eta).
#[global] Instance set_flag_control_velocity_enabled : Setter flag_control_velocity_enabled := ltac:(field_setter eta).
#[global] Instance set_flag_control_termination_enabled : Setter flag_control_termination_enabled := ltac:(field_setter eta).
End vehicle_control_mode_s.

Module vehicle_status_s.
#[projections(primitive)] Record t : Type := mk { is_rotary_wing : bool; is_vtol : bool }.
End vehicle_status_s.

Module manual_control_setpoint_s.
#[projections(primitive)] Record t : Type := mk { x : float; y : float; z : float; r : float }.
End manual_control_setpoint_s.

Module sensor_gyro_s.
#[projections(primitive)] Record t : Type := mk { x : float; y : float; z : float }.
End sensor_gyro_s.

Module sensor_correction_s.
#[projections(primitive)] Record t : Type := mk {
  gyro_offset_0 : Vector3f; gyro_scale_0 : Vector3f;
  gyro_offset_1 : Vector3f; gyro_scale_1 : Vector3f;
  gyro_offset_2 : Vector3f; gyro_scale_2 : Vector3f }.
End sensor_correction_s.

Module sensor_bias_s.
#[projections(primitive)] Record t : Type := mk { gyro_x_bias : float; gyro_y_bias : float; gyro_z_bias : float }.
End sensor_bias_s.

(** [_saturation_status.flags]. *)
Module saturation_status.
#[projections(primitive)] Record t : Type := mk {
  roll_pos : bool; roll_neg : bool;
  pitch_pos : bool; pitch_neg : bool;
  yaw_pos : bool; yaw_neg : bool }.
End saturation_status.

Module battery_status_s.
#[projections(primitive)] Record t : Type := mk { scale : float }.
End battery_status_s.

(** [actuator_controls_s]: the eight control channels [control[0..7]]. *)
Module actuator_controls_s.
#[projections(primitive)] Record t : Type := mk {
  c0 : float; c1 : float; c2 : float; c3 : float;
  c4 : float; c5 : float; c6 : float; c7 : float }.

(** [control[i]], for the constant indices the controller uses. *)
Definition get (a : t) (i : nat) : float :=
  match i with
  | 0 => c0 a | 1 => c1 a | 2 => c2 a | 3 => c3 a
  | 4 => c4 a | 5 => c5 a | 6 => c6 a | _ => c7 a
  end%nat.

Definition set (a : t) (i : nat) (x : float) : t :=
  match i with
  | 0 => mk x (c1 a) (c2 a) (c3 a) (c4 a) (c5 a) (c6 a) (c7 a)
  | 1 => mk (c0 a) x (c2 a) (c3 a) (c4 a) (c5 a) (c6 a) (c7 a)
  | 2 => mk (c0 a) (c1 a) x (c3 a) (c4 a) (c5 a) (c6 a) (c7 a)
  | 3 => mk (c0 a) (c1 a) (c2 a) x (c4 a) (c5 a) (c6 a) (c7 a)
  | 4 => mk (c0 a) (c1 a) (c2 a) (c3 a) x (c5 a) (c6 a) (c7 a)
  | 5 => mk (c0 a) (c1 a) (c2 a) (c3 a) (c4 a) x (c6 a) (c7 a)
  | 6 => mk (c0 a) (c1 a) (c2 a) (c3 a) (c4 a) (c5 a) x (c7 a)
  | _ => mk (c0 a) (c1 a) (c2 a) (c3 a) (c4 a) (c5 a) (c6 a) x
  end%nat.
End actuator_controls_s.

(** The telemetry of the mixer. *)
Module mixer_s.
#[projections(primitive)] Record t : Type := mk {
  input_roll : float; input_pitch : float; input_yaw : float; input_thrust : float;
  F1 : float; F2 : float; F3 : float; F4 : float;
  throttle1 : float; throttle2 : float; throttle3 : float; throttle4 : float;
  output_roll : float; output_pitch : float; output_yaw : float; output_thrust : float }.
Definition eta := ltac:(let e := eta t in exact e).
#[global] Instance set_input_roll : Setter input_roll := ltac:(field_setter eta).
#[global] Instance set_input_pitch : Setter input_pitch := ltac:(field_setter eta).
#[global] Instance set_input_yaw : Setter input_yaw := ltac:(field_setter eta).
#[global] Instance set_input_thrust : Setter input_thrust := ltac:(field_setter eta).
#[global] Instance set_F1 : Setter F1 := ltac:(field_setter eta).
#[global] Instance set_F2 : Setter F2 := ltac:(field_setter eta).
#[global] Instance set_F3 : Setter F3 := ltac:(field_setter eta).
#[global] Instance set_F4 : Setter F4 := ltac:(field_setter eta).
#[global] Instance set_throttle1 : Setter throttle1 := ltac:(field_setter eta).
#[global] Instance set_throttle2 : Setter throttle2 := ltac:(field_setter eta).
#[global] Instance set_throttle3 : Setter throttle3 := ltac:(field_setter eta).
#[global] Instance set_throttle4 : Setter throttle4 := ltac:(field_setter eta).
#[global] Instance set_output_roll : Setter output_roll := ltac:(field_setter eta).
#[global] Instance set_output_pitch : Setter output_pitch := ltac:(field_setter eta).
#[global] Instance set_output_yaw : Setter output_yaw := ltac:(field_setter eta).
#[global] Instance set_output_thrust : Setter output_thrust := ltac:(field_setter eta).
End mixer_s.

(** The UDE status bundle [_ude]. *)
Module ude_s.
#[projections(primitive)] Record t : Type := mk {
  start_time : float;
  input_time : float;
  thrust_sp : float;
  attitude_ref : Vector3f;
  attitude_dot_ref : Vector3f;
  attitude_dot_ref_hpf : Vector3f;
  attitude_ddot_ref : Vector3f;
  attitude_dddot_ref : Vector3f;
  attitude_now : Vector3f;
  attitude_rate_now : Vector3f;
  error_attitude : Vector3f;
  error_attitude_rate : Vector3f;
  torque_ref : Vector3f;
  torque_est : Vector3f;
  f1_est : Vector3f;
  f1_dot_est : Vector3f;
  f2_est : Vector3f;
  f2 : Vector3f;
  f_est : Vector3f;
  feedforward : Vector3f;
  u_l_kp : Vector3f;
  u_l_kd : Vector3f;
  u_l_km : Vector3f;
  u_d : Vector3f;
  u_total : Vector3f }.
Definition eta := ltac:(let e := eta t in exact e).
#[global] Instance set_start_time : Setter start_time := ltac:(field_setter eta).
#[global] Instance set_input_time : Setter input_time := ltac:(field_setter eta).
#[global] Instance set_thrust_sp : Setter thrust_sp := ltac:(field_setter eta).
#[global] Instance set_attitude_ref : Setter attitude_ref := ltac:(field_setter eta).
#[global] Instance set_attitude_dot_ref : Setter attitude_dot_ref := ltac:(field_setter eta).
#[global] Instance set_attitude_dot_ref_hpf : Setter attitude_dot_ref_hpf := ltac:(field_setter eta).
#[global] Instance set_attitude_ddot_ref : Setter attitude_ddot_ref := ltac:(field_setter eta).
#[global] Instance set_attitude_dddot_ref : Setter attitude_dddot_ref := ltac:(field_setter eta).
#[global] Instance set_attitude_now : Setter attitude_now := ltac:(field_setter eta).
#[global] Instance set_attitude_rate_now : Setter attitude_rate_now := ltac:(field_setter eta).
#[global] Instance set_error_attitude : Setter error_attitude := ltac:(field_setter eta).
#[global] Instance set_error_attitude_rate : Setter error_attitude_rate := ltac:(field_setter eta).
#[global] Instance set_torque_ref : Setter torque_ref := ltac:(field_setter eta).
#[global] Instance set_torque_est : Setter torque_est := ltac:(field_setter eta).
#[global] Instance set_f1_est : Setter f1_est := ltac:(field_setter eta).
#[global] Instance set_f1_dot_est : Setter f1_dot_est := ltac:(field_setter eta).
#[global] Instance set_f2_est : Setter f2_est := ltac:(field_setter eta).
#[global] Instance set_f2 : Setter f2 := ltac:(field_setter eta).
#[global] Instance set_f_est : Setter f_est := ltac:(field_setter eta).
#[global] Instance set_feedforward : Setter feedforward := ltac:(field_setter eta).
#[global] Instance set_u_l_kp : Setter u_l_kp := ltac:(field_setter eta).
#[global] Instance set_u_l_kd : Setter u_l_kd := ltac:(field_setter eta).
#[global] Instance set_u_l_km : Setter u_l_km := ltac:(field_setter eta).
#[global] Instance set_u_d : Setter u_d := ltac:(field_setter eta).
#[global] Instance set_u_total : Setter u_total := ltac:(field_setter eta).
End ude_s.

(** What one pass of the loop hands to the message bus. *)
Inductive orb_msg : Type :=
| pub_actuators (a : actuator_controls_s.t)
| pub_rates_sp (r : vehicle_rates_setpoint_s.t)
| pub_mixer (m : mixer_s.t)
| pub_ude (u : ude_s.t)
| pub_rate_ctrl_status (rates : Vector3f) (integ : Vector3f).

(* ================================================================== *)
(** ** The controller object *)

#[projections(primitive)] Record Arr3 (A : Type) : Type := mkArr3 { b0 : A; b1 : A; b2 : A }.
Arguments mkArr3 {A} _ _ _.
Arguments b0 {A} _.
Arguments b1 {A} _.
Arguments b2 {A} _.

Section Controller.

Context {L : Lib}.

(** The members of [MulticopterAttitudeControl] that the control laws read
    or write.  Parameters ([_roll_p.get()] and the like) are held as the
    values their getters return; uORB subscriptions are held as the last
    message copied from them. *)
#[projections(primitive)] Record MulticopterAttitudeControl : Type := mkMulticopterAttitudeControl {
  (* switches and UDE parameters, as [parameters_updated] stores them *)
  input_source : Z;
  use_platform : Z;
  switch_ude : Z;
  switch_mixer : Z;
  switch_td : Z;
  T_filter_ude : float;
  T_torque : float;
  Kp_ude : Vector3f;
  Kd_ude : Vector3f;
  Km_ude : Vector3f;
  T_ude : Vector3f;
  I_quadrotor : Vector3f;
  integral_limit_ude : Vector3f;
  (* gains and limits *)
  _attitude_p : Vector3f;
  _rate_p : Vector3f;
  _rate_i : Vector3f;
  _rate_int_lim : Vector3f;
  _rate_d : Vector3f;
  _rate_ff : Vector3f;
  _mc_rate_max : Vector3f;
  _auto_rate_max : Vector3f;
  _acro_rate_max : Vector3f;
  _yaw_ff : float;
  _vtol_wv_yaw_rate_scale : float;
  _tpa_breakpoint_p : float;
  _tpa_breakpoint_i : float;
  _tpa_breakpoint_d : float;
  _tpa_rate_p : float;
  _tpa_rate_i : float;
  _tpa_rate_d : float;
  _rattitude_thres : float;
  _acro_expo_rp : float;
  _acro_superexpo_rp : float;
  _acro_expo_y : float;
  _acro_superexpo_y : float;
  _bat_scale_en : Z;
  _d_term_cutoff_freq : float;
  _actuators_0_circuit_breaker_enabled : bool;
  _board_rotation : Dcmf;
  (* subscriptions *)
  _v_att : vehicle_attitude_s.t;
  _v_att_sp : vehicle_attitude_setpoint_s.t;
  _v_rates_sp : vehicle_rates_setpoint_s.t;
  _v_control_mode : vehicle_control_mode_s.t;
  _vehicle_status : vehicle_status_s.t;
  _manual_control_sp : manual_control_setpoint_s.t;
  _sensor_gyro : sensor_gyro_s.t;
  _sensor_correction : sensor_correction_s.t;
  _selected_gyro : Z;
  _sensor_bias : sensor_bias_s.t;
  _saturation_status : saturation_status.t;
  _battery_status : battery_status_s.t;
  (* publications: whether the handle, and the topic id, are set *)
  _actuators_0_pub : bool;
  _actuators_id : bool;
  _v_rates_sp_pub : bool;
  _rates_sp_id : bool;
  (* controller state *)
  _rates_prev : Vector3f;
  _rates_prev_filtered : Vector3f;
  _rates_sp : Vector3f;
  _rates_int : Vector3f;
  _thrust_sp : float;
  _att_control : Vector3f;
  integral_ude : Vector3f;
  attitude_sp_last : Vector3f;
  attitude_dot_sp_last : Vector3f;
  input_source_time : float;
  print_time : float;
  last_print_time : float;
  _loop_update_rate_hz : float;
  dt_accumulator : float;
  loop_counter : Z;
  _ude : ude_s.t;
  _mixer : mixer_s.t;
  _actuators : actuator_controls_s.t;
  (* filters *)
  _lp_filters_d : Arr3 LowPassFilter2p;
  LPFdelay : Arr2 LPFwithDelay;
  LPF : Arr2 Filter;
  HPF : Arr2 Filter;
  HPF2 : Arr2 Filter;
  BPF : Arr2 Filter;
  HPF_td : Arr2 Filter
}.

Definition eta_MulticopterAttitudeControl :=
  ltac:(let e := eta MulticopterAttitudeControl in exact e).

#[global] Instance set_input_source : Setter input_source := ltac:(field_setter eta_MulticopterAttitudeControl).
#[global] Instance set_use_platform : Setter use_platform := ltac:(field_setter eta_MulticopterAttitudeControl).
#[global] Instance set_switch_ude : Setter switch_ude := ltac:(field_setter eta_MulticopterAttitudeControl).
#[global] Instance set_switch_mixer : Setter switch_mixer := ltac:(field_setter eta_MulticopterAttitudeControl).
#[global] Instance set_switch_td : Setter switch_td := ltac:(field_setter eta_MulticopterAttitudeControl).
#[global] Instance set_T_filter_ude : Setter T_filter_ude := ltac:(field_setter eta_MulticopterAttitudeControl).
#[global] Instance set_T_torque : Setter T_torque := ltac:(field_setter eta_MulticopterAttitudeControl).
#[global] Instance set_Kp_ude : Setter Kp_ude := ltac:(field_setter eta_MulticopterAttitudeControl).
#[global] Instance set_Kd_ude : Setter Kd_ude := ltac:(field_setter eta_MulticopterAttitudeControl).
#[global] Instance set_Km_ude : Setter Km_ude := ltac:(field_setter eta_MulticopterAttitudeControl).
#[global] Instance set_T_ude : Setter T_ude := ltac:(field_setter eta_MulticopterAttitudeControl).
#[global] Instance set_I_quadrotor : Setter I_quadrotor := ltac:(field_setter eta_MulticopterAttitudeControl).
#[global] Instance set_integral_limit_ude : Setter integral_limit_ude := ltac:(field_setter eta_MulticopterAttitudeControl).
#[global] Instance set__attitude_p : Setter _attitude_p := ltac:(field_setter eta_MulticopterAttitudeControl).
#[global] Instance set__rate_p : Setter _rate_p := ltac:(field_setter eta_MulticopterAttitudeControl).
#[global] Instance set__rate_i : Setter _rate_i := ltac:(field_setter eta_MulticopterAttitudeControl).
#[global] Instance set__rate_int_lim : Setter _rate_int_lim := ltac:(field_setter eta_MulticopterAttitudeControl).
#[global] Instance set__rate_d : Setter _rate_d := ltac:(field_setter eta_MulticopterAttitudeControl).
#[global] Instance set__rate_ff : Setter _rate_ff := ltac:(field_setter eta_MulticopterAttitudeControl).
#[global] Instance set__mc_rate_max : Setter _mc_rate_max := ltac:(field_setter eta_MulticopterAttitudeControl).
#[global] Instance set__auto_rate_max : Setter _auto_rate_max := ltac:(field_setter eta_MulticopterAttitudeControl).
#[global] Instance set__acro_rate_max : Setter _acro_rate_max := ltac:(field_setter eta_MulticopterAttitudeControl).
#[global] Instance set__yaw_ff : Setter _yaw_ff := ltac:(field_setter eta_MulticopterAttitudeControl).
#[global] Instance set__vtol_wv_yaw_rate_scale : Setter _vtol_wv_yaw_rate_scale := ltac:(field_setter eta_MulticopterAttitudeControl).
#[global] Instance set__tpa_breakpoint_p : Setter _tpa_breakpoint_p := ltac:(field_setter eta_MulticopterAttitudeControl).
#[global] Instance set__tpa_breakpoint_i : Setter _tpa_breakpoint_i := ltac:(field_setter eta_MulticopterAttitudeControl).
#[global] Instance set__tpa_breakpoint_d : Setter _tpa_breakpoint_d := ltac:(field_setter eta_MulticopterAttitudeControl).
#[global] Instance set__tpa_rate_p : Setter _tpa_rate_p := ltac:(field_setter eta_MulticopterAttitudeControl).
#[global] Instance set__tpa_rate_i : Setter _tpa_rate_i := ltac:(field_setter eta_MulticopterAttitudeControl).
#[global] Instance set__tpa_rate_d : Setter _tpa_rate_d := ltac:(field_setter eta_MulticopterAttitudeControl).
#[global] Instance set__rattitude_thres : Setter _rattitude_thres := ltac:(field_setter eta_MulticopterAttitudeControl).
#[global] Instance set__acro_expo_rp : Setter _acro_expo_rp := ltac:(field_setter eta_MulticopterAttitudeControl).
#[global] Instance set__acro_superexpo_rp : Setter _acro_superexpo_rp := ltac:(field_setter eta_MulticopterAttitudeControl).
#[global] Instance set__acro_expo_y : Setter _acro_expo_y := ltac:(field_setter eta_MulticopterAttitudeControl).
#[global] Instance set__acro_superexpo_y : Setter _acro_superexpo_y := ltac:(field_setter eta_MulticopterAttitudeControl).
#[global] Instance set__bat_scale_en : Setter _bat_scale_en := ltac:(field_setter eta_MulticopterAttitudeControl).
#[global] Instance set__d_term_cutoff_freq : Setter _d_term_cutoff_freq := ltac:(field_setter eta_MulticopterAttitudeControl).
#[global] Instance set__actuators_0_circuit_breaker_enabled : Setter _actuators_0_circuit_breaker_enabled := ltac:(field_setter eta_MulticopterAttitudeControl).
#[global] Instance set__board_rotation : Setter _board_rotation := ltac:(field_setter eta_MulticopterAttitudeControl).
#[global] Instance set__v_att : Setter _v_att := ltac:(field_setter eta_MulticopterAttitudeControl).
#[global] Instance set__v_att_sp : Setter _v_att_sp := ltac:(field_setter eta_MulticopterAttitudeControl).
#[global] Instance set__v_rates_sp : Setter _v_rates_sp := ltac:(field_setter eta_MulticopterAttitudeControl).
#[global] Instance set__v_control_mode : Setter _v_control_mode := ltac:(field_setter eta_MulticopterAttitudeControl).
#[global] Instance set__vehicle_status : Setter _vehicle_status := ltac:(field_setter eta_MulticopterAttitudeControl).
#[global] Instance set__manual_control_sp : Setter _manual_control_sp := ltac:(field_setter eta_MulticopterAttitudeControl).
#[global] Instance set__sensor_gyro : Setter _sensor_gyro := ltac:(field_setter eta_MulticopterAttitudeControl).
#[global] Instance set__sensor_correction : Setter _sensor_correction := ltac:(field_setter eta_MulticopterAttitudeControl).
#[global] Instance set__selected_gyro : Setter _selected_gyro := ltac:(field_setter eta_MulticopterAttitudeControl).
#[global] Instance set__sensor_bias : Setter _sensor_bias := ltac:(field_setter eta_MulticopterAttitudeControl).
#[global] Instance set__saturation_status : Setter _saturation_status := ltac:(field_setter eta_MulticopterAttitudeControl).
#[global] Instance set__battery_status : Setter _battery_status := ltac:(field_setter eta_MulticopterAttitudeControl).
#[global] Instance set__actuators_0_pub : Setter _actuators_0_pub := ltac:(field_setter eta_MulticopterAttitudeControl).
#[global] Instance set__actuators_id : Setter _actuators_id := ltac:(field_setter eta_MulticopterAttitudeControl).
#[global] Instance set__v_rates_sp_pub : Setter _v_rates_sp_pub := ltac:(field_setter eta_MulticopterAttitudeControl).
#[global] Instance set__rates_sp_id : Setter _rates_sp_id := ltac:(field_setter eta_MulticopterAttitudeControl).
#[global] Instance set__rates_prev : Setter _rates_prev := ltac:(field_setter eta_MulticopterAttitudeControl).
#[global] Instance set__rates_prev_filtered : Setter _rates_prev_filtered := ltac:(field_setter eta_MulticopterAttitudeControl).
#[global] Instance set__rates_sp : Setter _rates_sp := ltac:(field_setter eta_MulticopterAttitudeControl).
#[global] Instance set__rates_int : Setter _rates_int := ltac:(field_setter eta_MulticopterAttitudeControl).
#[global] Instance set__thrust_sp : Setter _thrust_sp := ltac:(field_setter eta_MulticopterAttitudeControl).
#[global] Instance set__att_control : Setter _att_control := ltac:(field_setter eta_MulticopterAttitudeControl).
#[global] Instance set_integral_ude : Setter integral_ude := ltac:(field_setter eta_MulticopterAttitudeControl).
#[global] Instance set_attitude_sp_last : Setter attitude_sp_last := ltac:(field_setter eta_MulticopterAttitudeControl).
#[global] Instance set_attitude_dot_sp_last : Setter attitude_dot_sp_last := ltac:(field_setter eta_MulticopterAttitudeControl).
#[global] Instance set_input_source_time : Setter input_source_time := ltac:(field_setter eta_MulticopterAttitudeControl).
#[global] Instance set_print_time : Setter print_time := ltac:(field_setter eta_MulticopterAttitudeControl).
#[global] Instance set_last_print_time : Setter last_print_time := ltac:(field_setter eta_MulticopterAttitudeControl).
#[global] Instance set__loop_update_rate_hz : Setter _loop_update_rate_hz := ltac:(field_setter eta_MulticopterAttitudeControl).
#[global] Instance set_dt_accumulator : Setter dt_accumulator := ltac:(field_setter eta_MulticopterAttitudeControl).
#[global] Instance set_loop_counter : Setter loop_counter := ltac:(field_setter eta_MulticopterAttitudeControl).
#[global] Instance set__ude : Setter _ude := ltac:(field_setter eta_MulticopterAttitudeControl).
#[global] Instance set__mixer : Setter _mixer := ltac:(field_setter eta_MulticopterAttitudeControl).
#[global] Instance set__actuators : Setter _actuators := ltac:(field_setter eta_MulticopterAttitudeControl).
#[global] Instance set__lp_filters_d : Setter _lp_filters_d := ltac:(field_setter eta_MulticopterAttitudeControl).
#[global] Instance set_LPFdelay : Setter LPFdelay := ltac:(field_setter eta_MulticopterAttitudeControl).
#[global] Instance set_LPF : Setter LPF := ltac:(field_setter eta_MulticopterAttitudeControl).
#[global] Instance set_HPF : Setter HPF := ltac:(field_setter eta_MulticopterAttitudeControl).
#[global] Instance set_HPF2 : Setter HPF2 := ltac:(field_setter eta_MulticopterAttitudeControl).
#[global] Instance set_BPF : Setter BPF := ltac:(field_setter eta_MulticopterAttitudeControl).
#[global] Instance set_HPF_td : Setter HPF_td := ltac:(field_setter eta_MulticopterAttitudeControl).

Local Notation "'state'" := MulticopterAttitudeControl.

(** *** Constants *)

Definition MIN_TAKEOFF_THRUST : float := F32.lit 1 10.
Definition TPA_RATE_LOWER_LIMIT : float := F32.lit 5 100.
Definition MOTOR_ALPHA : float := F32.lit 4 100.
Definition Ixx : float := F32.lit 1 100.
Definition Iyy : float := F32.lit 1 100.
Definition Izz : float := F32.lit 15 1000.
Definition INT_LIMIT : float := F32.of_Z 1.
Definition omega : float := F32.of_Z 4.

(* ------------------------------------------------------------------ *)
(** *** Actuator mixer *)

Definition thrust_to_throttle (thrust : float) : float :=
  let thrust := math.constrain thrust (F32.of_Z 0) (F32.of_Z 7) in
  let MOTOR_P1 := (- F32.lit 6892 10000000)%f32 in
  let MOTOR_P2 := F32.lit 1271 100000 in
  let MOTOR_P3 := (- F32.lit 7948 100000)%f32 in
  let MOTOR_P4 := F32.lit 3052 10000 in
  let MOTOR_P5 := F32.lit 8775 1000000 in
  (MOTOR_P1 * powf_cast thrust 4 + MOTOR_P2 * powf_cast thrust 3
   + MOTOR_P3 * powf_cast thrust 2 + MOTOR_P4 * thrust + MOTOR_P5)%f32.

Definition throttle_to_thrust (throttle : float) : float :=
  let throttle := math.constrain throttle (F32.of_Z 0) (F32.of_Z 1) in
  let MOTOR_P1 := F32.lit 2052 1000 in
  let MOTOR_P2 := (- F32.lit 1111 100)%f32 in
  let MOTOR_P3 := F32.lit 1565 100 in
  let MOTOR_P4 := F32.lit 7379 10000 in
  let MOTOR_P5 := F32.lit 2543 100000 in
  (MOTOR_P1 * powf_cast throttle 4 + MOTOR_P2 * powf_cast throttle 3
   + MOTOR_P3 * powf_cast throttle 2 + MOTOR_P4 * throttle + MOTOR_P5)%f32.

(** [mixer(roll, pitch, yaw, throttle)]: fills [_mixer] and publishes it. *)
Definition mixer (roll pitch yaw throttle : float) (s : state) : state * list orb_msg :=
  let thrust := (F32.of_Z 4 * throttle_to_thrust throttle)%f32 in
  let a := F32.lit 2143 1000 in
  let b := F32.lit 1427 100 in
  let c := F32.lit 25 100 in
  let F1 := (- a * roll + a * pitch + b * yaw + c * thrust)%f32 in
  let F2 := (a * roll - a * pitch + b * yaw + c * thrust)%f32 in
  let F3 := (a * roll + a * pitch - b * yaw + c * thrust)%f32 in
  let F4 := (- a * roll - a * pitch - b * yaw + c * thrust)%f32 in
  let throttle1 := thrust_to_throttle F1 in
  let throttle2 := thrust_to_throttle F2 in
  let throttle3 := thrust_to_throttle F3 in
  let throttle4 := thrust_to_throttle F4 in
  let d := F32.lit 354 1000 in
  let m := {|
    mixer_s.input_roll := roll; mixer_s.input_pitch := pitch;
    mixer_s.input_yaw := yaw; mixer_s.input_thrust := throttle;
    mixer_s.F1 := F1; mixer_s.F2 := F2; mixer_s.F3 := F3; mixer_s.F4 := F4;
    mixer_s.throttle1 := throttle1; mixer_s.throttle2 := throttle2;
    mixer_s.throttle3 := throttle3; mixer_s.throttle4 := throttle4;
    mixer_s.output_roll :=
      (- d * throttle1 + d * throttle2 + d * throttle3 - d * throttle4)%f32;
    mixer_s.output_pitch :=
      (d * throttle1 - d * throttle2 + d * throttle3 - d * throttle4)%f32;
    mixer_s.output_yaw := (c * (throttle1 + throttle2 - throttle3 - throttle4))%f32;
    mixer_s.output_thrust := (c * (throttle1 + throttle2 + throttle3 + throttle4))%f32
  |} in
  (s <| _mixer := m |>, [pub_mixer m]).

(* ------------------------------------------------------------------ *)
(** *** Attitude law *)

(** The locals of [control_attitude] that the platform block rewrites. *)
#[projections(primitive)] Record reference : Type := mkReference {
  att_ref : Vector3f;      (* Eulerf att_ref *)
  qd_ref : Quatf;          (* Quatf qd *)
  att_dot_ref : Vector3f;
  att_ddot_ref : Vector3f;
  att_dddot_ref : Vector3f
}.

Definition eta_reference := ltac:(let e := eta reference in exact e).

#[global] Instance set_att_ref : Setter att_ref := ltac:(field_setter eta_reference).
#[global] Instance set_qd_ref : Setter qd_ref := ltac:(field_setter eta_reference).
#[global] Instance set_att_dot_ref : Setter att_dot_ref := ltac:(field_setter eta_reference).
#[global] Instance set_att_ddot_ref : Setter att_ddot_ref := ltac:(field_setter eta_reference).
#[global] Instance set_att_dddot_ref : Setter att_dddot_ref := ltac:(field_setter eta_reference).

Definition pitch_ref (r : reference) (x : float) : reference :=
  r <| att_ref := Vector3f.set (att_ref r) AXIS_INDEX_PITCH x |>.

(** [qd = att_ref]. *)
Definition qd_from_att_ref (r : reference) : reference :=
  r <| qd_ref := Quatf_of_Eulerf (att_ref r) |>.

Definition deg (n : Z) : float := (F32.of_Z n / F32.lit 573 10)%f32.

(** The body of [if (use_platform == 1)]: the bench trajectory selected by
    [input_source].  [_attitude_now] is the Euler attitude of the vehicle. *)
Definition platform_reference (dt : float) (_attitude_now : Vector3f)
    (s : state) (r : reference) : state * reference :=
  let s := s <| _thrust_sp := F32.lit 4 10 |> in
  let Kp_att := F32.of_Z 4 in
  let t := input_source_time s in
  let lt (n : Z) := (t <? F32.of_Z n)%f32 in
  let sinusoid (phase : float) (r : reference) :=
    let cos_angle := (deg 30 * cos (omega * phase))%f32 in
    let sin_angle := (deg 30 * sin (omega * phase))%f32 in
    let r := pitch_ref r sin_angle in
    let r := r <| att_dot_ref :=
      Vector3f.set (att_dot_ref r) AXIS_INDEX_PITCH (omega * cos_angle)%f32 |> in
    let r := r <| att_ddot_ref :=
      Vector3f.set (att_ddot_ref r) AXIS_INDEX_PITCH (- omega * omega * sin_angle)%f32 |> in
    r <| att_dddot_ref :=
      Vector3f.set (att_dddot_ref r) AXIS_INDEX_PITCH
        (- omega * omega * omega * cos_angle)%f32 |> in
  let advance (s : state) :=
    s <| input_source_time := (input_source_time s + dt)%f32 |> in
  let tick (s : state) :=
    s <| _ude -> ude_s.input_time := (ude_s.input_time (_ude s) + dt)%f32 |> in
  if input_source s =? 0 then
    let s := s <| input_source_time := F32.zero |> in
    let r := r <| att_ref := Vector3f.set (att_ref r) AXIS_INDEX_ROLL F32.zero |> in
    let r := pitch_ref r F32.zero in
    let r := qd_from_att_ref r in
    (s <| _ude -> ude_s.input_time := F32.zero |>, r)
  else if input_source s =? 1 then
    let s := tick s in
    let r :=
      if lt 5 then pitch_ref r F32.zero
      else if lt 15 then pitch_ref r (deg 20)
      else if lt 25 then pitch_ref r (F32.opp (F32.of_Z 20) / F32.lit 573 10)%f32
      else pitch_ref r F32.zero in
    let d1 := (Kp_att * (Vector3f.get (att_ref r) AXIS_INDEX_PITCH
                         - Vector3f.get _attitude_now AXIS_INDEX_PITCH))%f32 in
    let d1 := math.constrain d1 (- F32.of_Z 4)%f32 (F32.of_Z 4) in
    let '(h0, d2) := HPF_td_update (Arr2.get (HPF_td s) I0) d1 dt in
    let d2 := math.constrain d2 (- F32.of_Z 50)%f32 (F32.of_Z 50) in
    let '(h1, d3) := HPF_td_update (Arr2.get (HPF_td s) I1) d2 dt in
    let d3 := math.constrain d3 (- F32.of_Z 100)%f32 (F32.of_Z 100) in
    let s := s <| HPF_td := mkArr2 h0 h1 |> in
    let r := r <| att_dot_ref := Vector3f.set (att_dot_ref r) AXIS_INDEX_PITCH d1 |> in
    let r := r <| att_ddot_ref := Vector3f.set (att_ddot_ref r) AXIS_INDEX_PITCH d2 |> in
    let r := r <| att_dddot_ref := Vector3f.set (att_dddot_ref r) AXIS_INDEX_PITCH d3 |> in
    (advance s, qd_from_att_ref r)
  else if input_source s =? 2 then
    let s := tick s in
    let r := sinusoid t r in
    (advance s, qd_from_att_ref r)
  else if input_source s =? 3 then
    let s := tick s in
    let r :=
      if lt 5 then pitch_ref r F32.zero
      else if lt 10 then pitch_ref r (deg 30)
      else if lt 15 then pitch_ref r (F32.opp (F32.of_Z 30) / F32.lit 573 10)%f32
      else if lt 20 then pitch_ref r F32.zero
      else if lt 30 then sinusoid (t - F32.of_Z 20)%f32 r
      else if lt 40 then pitch_ref r F32.zero
      else r in
    (advance s, qd_from_att_ref r)
  else (s, r).

(** [orb_check] / [orb_copy]: a fresh message, when there is one, replaces
    the cached copy. *)
Definition vehicle_attitude_setpoint_poll
    (fresh : option vehicle_attitude_setpoint_s.t) (s : state) : state :=
  match fresh with
  | Some m => s <| _v_att_sp := m |>
  | None => s
  end.

(** The yaw weight and the gain vector ([attitude_gain] after its yaw entry
    is overwritten). *)
Definition roll_pitch_gain (s : state) : float :=
  ((Vector3f.get (_attitude_p s) AXIS_INDEX_ROLL
    + Vector3f.get (_attitude_p s) AXIS_INDEX_PITCH) / F32.of_Z 2)%f32.

Definition yaw_w (s : state) : float :=
  math.constrain (Vector3f.get (_attitude_p s) AXIS_INDEX_YAW / roll_pitch_gain s)%f32
    F32.zero F32.one.

Definition attitude_gain (s : state) : Vector3f :=
  Vector3f.set (_attitude_p s) AXIS_INDEX_YAW (roll_pitch_gain s).

(** The test of the corner case on the rotation [qd_red] between the two
    thrust axes. *)
Definition thrust_axes_opposite (qd_red : Quatf) : bool :=
  (abs (q1 qd_red) >? F32.one - F32.lit 1 100000)%f32
  || (abs (q2 qd_red) >? F32.one - F32.lit 1 100000)%f32.

(** The reduced desired attitude: [qd_red] after the [if]/[else]
    on the corner case.  [q] and [qd] are normalized. *)
Definition reduced_attitude (q qd : Quatf) : Quatf :=
  let e_z := Quatf_dcm_z q in
  let e_z_d := Quatf_dcm_z qd in
  let qd_red := Quatf_from_vectors e_z e_z_d in
  if thrust_axes_opposite qd_red then qd else Quatf_mul qd_red q.

(** From the reduced attitude to the attitude error [eq]: the mix of full
    and reduced attitude by the yaw weight, and the error quaternion. *)
Definition attitude_error (w : float) (q qd qd_red : Quatf) : Vector3f :=
  let q_mix := Quatf_mul (Quatf_inversed qd_red) qd in
  let q_mix := Quatf.scale q_mix (F32.of_Z (math.signNoZero (q0 q_mix))) in
  let q_mix := q_mix <| q0 := math.constrain (q0 q_mix) (- F32.one)%f32 F32.one |> in
  let q_mix := q_mix <| q3 := math.constrain (q3 q_mix) (- F32.one)%f32 F32.one |> in
  let qd := Quatf_mul qd_red
              (mkQuatf (cosf (w * acosf (q0 q_mix))%f32) F32.zero F32.zero
                       (sinf (w * asinf (q3 q_mix))%f32)) in
  let qe := Quatf_mul (Quatf_inversed q) qd in
  Vector3f.scale (Quatf.imag qe)
    (F32.of_Z 2 * F32.of_Z (math.signNoZero (q0 qe)))%f32.

(** The rate setpoint before the limits: [eq.emult(attitude_gain)] plus the
    yaw feed-forward. *)
Definition rates_sp_unlimited (s : state) (q qd : Quatf) : Vector3f :=
  let eq := attitude_error (yaw_w s) q qd (reduced_attitude q qd) in
  let rates := Vector3f.emult eq (attitude_gain s) in
  let yaw_feedforward_rate := Quatf_dcm_z (Quatf_inversed q) in
  let yaw_feedforward_rate :=
    Vector3f.scale yaw_feedforward_rate
      (vehicle_attitude_setpoint_s.yaw_sp_move_rate (_v_att_sp s) * _yaw_ff s)%f32 in
  Vector3f.add rates yaw_feedforward_rate.

(** Whether the automatic limits [_auto_rate_max] apply. *)
Definition auto_limits (s : state) : bool :=
  (vehicle_control_mode_s.flag_control_velocity_enabled (_v_control_mode s)
   || vehicle_control_mode_s.flag_control_auto_enabled (_v_control_mode s))
  && negb (vehicle_control_mode_s.flag_control_manual_enabled (_v_control_mode s)).

Definition rate_limit (s : state) (i : axis) : float :=
  if auto_limits s then Vector3f.get (_auto_rate_max s) i
  else Vector3f.get (_mc_rate_max s) i.

(** The loop [limit rates]. *)
Definition limit_rates (s : state) : state :=
  fold_left
    (fun s i =>
       s <| _rates_sp :=
         Vector3f.set (_rates_sp s) i
           (math.constrain (Vector3f.get (_rates_sp s) i)
              (- rate_limit s i)%f32 (rate_limit s i)) |>)
    axes3 s.

(** VTOL weather-vane mode. *)
Definition weather_vane (s : state) : state :=
  if vehicle_status_s.is_vtol (_vehicle_status s)
     && vehicle_attitude_setpoint_s.disable_mc_yaw_control (_v_att_sp s)
  then
    if vehicle_control_mode_s.flag_control_velocity_enabled (_v_control_mode s)
       || vehicle_control_mode_s.flag_control_auto_enabled (_v_control_mode s)
    then
      let wv_yaw_rate_max :=
        (Vector3f.get (_auto_rate_max s) AXIS_INDEX_YAW * _vtol_wv_yaw_rate_scale s)%f32 in
      let s := s <| _rates_sp :=
        Vector3f.set (_rates_sp s) AXIS_INDEX_YAW
          (math.constrain (Vector3f.get (_rates_sp s) AXIS_INDEX_YAW)
             (- wv_yaw_rate_max)%f32 wv_yaw_rate_max) |> in
      s <| _rates_int := Vector3f.set (_rates_int s) AXIS_INDEX_YAW F32.zero |>
    else s
  else s.

(** The log block at the end: the reference and the attitude into [_ude]. *)
Definition log_reference (r : reference) (_attitude_now : Vector3f) (s : state) : state :=
  let s := s <| _ude -> ude_s.thrust_sp := _thrust_sp s |> in
  fold_left
    (fun s i =>
       let s := s <| _ude -> ude_s.attitude_ref :=
         Vector3f.set (ude_s.attitude_ref (_ude s)) i (Vector3f.get (att_ref r) i) |> in
       let s := s <| _ude -> ude_s.attitude_dot_ref :=
         Vector3f.set (ude_s.attitude_dot_ref (_ude s)) i (Vector3f.get (_rates_sp s) i) |> in
       let s := s <| _ude -> ude_s.attitude_ddot_ref :=
         Vector3f.set (ude_s.attitude_ddot_ref (_ude s)) i
           (Vector3f.get (att_ddot_ref r) i) |> in
       let s := s <| _ude -> ude_s.attitude_dddot_ref :=
         Vector3f.set (ude_s.attitude_dddot_ref (_ude s)) i
           (Vector3f.get (att_dddot_ref r) i) |> in
       let s := s <| _ude -> ude_s.attitude_now :=
         Vector3f.set (ude_s.attitude_now (_ude s)) i (Vector3f.get _attitude_now i) |> in
       s <| _ude -> ude_s.error_attitude :=
         Vector3f.set (ude_s.error_attitude (_ude s)) i
           (Vector3f.get (ude_s.attitude_ref (_ude s)) i
            - Vector3f.get (ude_s.attitude_now (_ude s)) i)%f32 |>)
    axes3 s.

(** [control_attitude(dt)].  [fresh] is what the attitude-setpoint
    subscription delivers on this call. *)
Definition control_attitude (fresh : option vehicle_attitude_setpoint_s.t)
    (dt : float) (s : state) : state :=
  let s := vehicle_attitude_setpoint_poll fresh s in
  let s := s <| _thrust_sp := vehicle_attitude_setpoint_s.thrust (_v_att_sp s) |> in
  let q := vehicle_attitude_s.q (_v_att s) in
  let qd := vehicle_attitude_setpoint_s.q_d (_v_att_sp s) in
  let _attitude_now := Eulerf_of_Quatf q in
  let r := mkReference (Eulerf_of_Quatf qd) qd Vector3f.zero Vector3f.zero Vector3f.zero in
  let '(s, r) :=
    if use_platform s =? 1 then platform_reference dt _attitude_now s r else (s, r) in
  let q := Quatf_normalize q in
  let qd := Quatf_normalize (qd_ref r) in
  let s := s <| _rates_sp := rates_sp_unlimited s q qd |> in
  let s := limit_rates s in
  let s := weather_vane s in
  let s :=
    if (use_platform s =? 1) && negb (switch_ude s =? 0) then
      fold_left
        (fun s i =>
           s <| _rates_sp :=
             Vector3f.set (_rates_sp s) i (Vector3f.get (att_dot_ref r) i) |>)
        axes3 s
    else s in
  log_reference r _attitude_now s.

(* ------------------------------------------------------------------ *)
(** *** Rate controller *)

(** [pid_attenuations(tpa_breakpoint, tpa_rate)]. *)
Definition pid_attenuations (tpa_breakpoint tpa_rate : float) (s : state) : Vector3f :=
  let tpa :=
    (F32.one - tpa_rate * (F32.fabsf (vehicle_rates_setpoint_s.thrust (_v_rates_sp s))
                           - tpa_breakpoint) / (F32.one - tpa_breakpoint))%f32 in
  let tpa := F32.fmaxf TPA_RATE_LOWER_LIMIT (F32.fminf F32.one tpa) in
  mkVector3f tpa tpa F32.one.

(** The gyro sample, corrected for thermal errors, rotated into the body
    frame and corrected for the in-run bias. *)
Definition corrected_rates (s : state) : Vector3f :=
  let g := _sensor_gyro s in
  let c := _sensor_correction s in
  let raw := mkVector3f (sensor_gyro_s.x g) (sensor_gyro_s.y g) (sensor_gyro_s.z g) in
  let correct (offset scale : Vector3f) :=
    Vector3f.emult (Vector3f.sub raw offset) scale in
  let rates :=
    if _selected_gyro s =? 0 then
      correct (sensor_correction_s.gyro_offset_0 c) (sensor_correction_s.gyro_scale_0 c)
    else if _selected_gyro s =? 1 then
      correct (sensor_correction_s.gyro_offset_1 c) (sensor_correction_s.gyro_scale_1 c)
    else if _selected_gyro s =? 2 then
      correct (sensor_correction_s.gyro_offset_2 c) (sensor_correction_s.gyro_scale_2 c)
    else raw in
  let rates := Dcmf_mul (_board_rotation s) rates in
  let b := _sensor_bias s in
  Vector3f.sub rates
    (mkVector3f (sensor_bias_s.gyro_x_bias b) (sensor_bias_s.gyro_y_bias b)
                (sensor_bias_s.gyro_z_bias b)).

Definition positive_saturation (s : state) (i : axis) : bool :=
  match i with
  | AXIS_INDEX_ROLL => saturation_status.roll_pos (_saturation_status s)
  | AXIS_INDEX_PITCH => saturation_status.pitch_pos (_saturation_status s)
  | AXIS_INDEX_YAW => saturation_status.yaw_pos (_saturation_status s)
  end.

Definition negative_saturation (s : state) (i : axis) : bool :=
  match i with
  | AXIS_INDEX_ROLL => saturation_status.roll_neg (_saturation_status s)
  | AXIS_INDEX_PITCH => saturation_status.pitch_neg (_saturation_status s)
  | AXIS_INDEX_YAW => saturation_status.yaw_neg (_saturation_status s)
  end.

(** The error of axis [i] that enters the integral: clamped against further
    saturation. *)
Definition anti_windup_error (s : state) (i : axis) (err : float) : float :=
  let err := if positive_saturation s i then math.min err F32.zero else err in
  if negative_saturation s i then math.max err F32.zero else err.

(** One pass of the integration loop, for axis [i]. *)
Definition integrate_rate (dt : float) (rates_i_scaled rates_err : Vector3f)
    (s : state) (i : axis) : state :=
  let err := anti_windup_error s i (Vector3f.get rates_err i) in
  let rate_i :=
    (Vector3f.get (_rates_int s) i + Vector3f.get rates_i_scaled i * err * dt)%f32 in
  if F32.PX4_ISFINITE rate_i
     && (rate_i >? - Vector3f.get (_rate_int_lim s) i)%f32
     && (rate_i <? Vector3f.get (_rate_int_lim s) i)%f32
  then s <| _rates_int := Vector3f.set (_rates_int s) i rate_i |>
  else s.

(** The loop [explicitly limit the integrator state]. *)
Definition limit_integrator (s : state) : state :=
  fold_left
    (fun s i =>
       s <| _rates_int :=
         Vector3f.set (_rates_int s) i
           (math.constrain (Vector3f.get (_rates_int s) i)
              (- Vector3f.get (_rate_int_lim s) i)%f32
              (Vector3f.get (_rate_int_lim s) i)) |>)
    axes3 s.

(** [reset integral if disarmed]. *)
Definition disarmed (s : state) : bool :=
  negb (vehicle_control_mode_s.flag_armed (_v_control_mode s))
  || negb (vehicle_status_s.is_rotary_wing (_vehicle_status s)).

(** [control_attitude_rates(dt)]. *)
Definition control_attitude_rates (dt : float) (s : state) : state :=
  let s := if disarmed s then s <| _rates_int := Vector3f.zero |> else s in
  let rates := corrected_rates s in
  let rates_p_scaled :=
    Vector3f.emult (_rate_p s) (pid_attenuations (_tpa_breakpoint_p s) (_tpa_rate_p s) s) in
  let rates_i_scaled :=
    Vector3f.emult (_rate_i s) (pid_attenuations (_tpa_breakpoint_i s) (_tpa_rate_i s) s) in
  let rates_d_scaled :=
    Vector3f.emult (_rate_d s) (pid_attenuations (_tpa_breakpoint_d s) (_tpa_rate_d s) s) in
  let rates_err := Vector3f.sub (_rates_sp s) rates in
  let '(f0, r0) := LowPassFilter2p_apply (b0 (_lp_filters_d s)) (v0 rates) in
  let '(f1, r1) := LowPassFilter2p_apply (b1 (_lp_filters_d s)) (v1 rates) in
  let '(f2, r2) := LowPassFilter2p_apply (b2 (_lp_filters_d s)) (v2 rates) in
  let s := s <| _lp_filters_d := mkArr3 f0 f1 f2 |> in
  let rates_filtered := mkVector3f r0 r1 r2 in
  let s := s <| _att_control :=
    Vector3f.add
      (Vector3f.sub
         (Vector3f.add (Vector3f.emult rates_p_scaled rates_err) (_rates_int s))
         (Vector3f_div
            (Vector3f.emult rates_d_scaled
               (Vector3f.sub rates_filtered (_rates_prev_filtered s)))
            dt))
      (Vector3f.emult (_rate_ff s) (_rates_sp s)) |> in
  let s := s <| _rates_prev := rates |> in
  let s := s <| _rates_prev_filtered := rates_filtered |> in
  let s :=
    if (_thrust_sp s >? MIN_TAKEOFF_THRUST)%f32
    then fold_left (integrate_rate dt rates_i_scaled rates_err) axes3 s
    else s in
  let s := limit_integrator s in
  let s :=
    fold_left
      (fun s i =>
         s <| _ude -> ude_s.attitude_rate_now :=
           Vector3f.set (ude_s.attitude_rate_now (_ude s)) i (Vector3f.get rates i) |>)
      axes3 s in
  s <| _ude -> ude_s.u_total :=
    Vector3f.set (ude_s.u_total (_ude s)) AXIS_INDEX_YAW
      (Vector3f.get (_att_control s) AXIS_INDEX_YAW) |>.

(* ------------------------------------------------------------------ *)
(** *** UDE controllers *)

(** A [for] loop over an index list, threading the controller. *)
Definition for_each {I : Type} (l : list I) (body : state -> I -> state) (s : state) : state :=
  fold_left body l s.

(** Assignments [_ude.field[i] = x]. *)
Definition set_at (v : Vector3f) (i : axis) (x : float) : Vector3f := Vector3f.set v i x.

(** The integral update the three variants share: the candidate is kept
    only when finite and strictly inside the limit. *)
Definition commit_integral_ude (i : idx2) (integral : float) (s : state) : state :=
  if F32.PX4_ISFINITE integral
     && (integral >? - Vector3f.get (integral_limit_ude s) i)%f32
     && (integral <? Vector3f.get (integral_limit_ude s) i)%f32
  then s <| integral_ude := Vector3f.set (integral_ude s) i integral |>
  else s.

(** [_ude.error_attitude_rate[i] = _ude.attitude_dot_ref[i] - _ude.attitude_rate_now[i]]
    for the three axes. *)
Definition error_for_attitude_rate (s : state) : state :=
  for_each axes3
    (fun s i =>
       s <| _ude -> ude_s.error_attitude_rate :=
         set_at (ude_s.error_attitude_rate (_ude s)) i
           (Vector3f.get (ude_s.attitude_dot_ref (_ude s)) i
            - Vector3f.get (ude_s.attitude_rate_now (_ude s)) i)%f32 |>) s.

(** [control_attitude_cascade_ude(dt)]. *)
Definition control_attitude_cascade_ude (fresh : option vehicle_attitude_setpoint_s.t)
    (dt : float) (s : state) : state :=
  let s := if disarmed s then s <| integral_ude := Vector3f.zero |> else s in
  let s := control_attitude fresh dt s in
  let s := control_attitude_rates dt s in
  let s := error_for_attitude_rate s in
  let s := for_each [I0; I1]
    (fun s (i : idx2) =>
       let u := _ude s in
       let s := s <| _ude -> ude_s.feedforward :=
         set_at (ude_s.feedforward u) i
           (Vector3f.get (I_quadrotor s) i * Vector3f.get (ude_s.attitude_ddot_ref u) i)%f32 |> in
       let s := s <| _ude -> ude_s.u_l_kp :=
         set_at (ude_s.u_l_kp u) i
           (Vector3f.get (Kp_ude s) i * Vector3f.get (ude_s.error_attitude_rate u) i)%f32 |> in
       s <| _ude -> ude_s.u_d :=
         set_at (ude_s.u_d u) i
           (Vector3f.get (I_quadrotor s) i / Vector3f.get (T_ude s) i
              * Vector3f.get (ude_s.error_attitude_rate u) i
            + F32.one / Vector3f.get (T_ude s) i * Vector3f.get (integral_ude s) i)%f32 |>) s in
  let s :=
    if (ude_s.thrust_sp (_ude s) >? MIN_TAKEOFF_THRUST)%f32 then
      for_each [I0; I1]
        (fun s (i : idx2) =>
           let integral :=
             (Vector3f.get (integral_ude s) i
              - Vector3f.get (Kp_ude s) i
                * Vector3f.get (ude_s.error_attitude_rate (_ude s)) i * dt)%f32 in
           commit_integral_ude i integral s) s
    else s in
  let s := for_each [I0; I1]
    (fun s (i : idx2) =>
       s <| _ude -> ude_s.u_d :=
         set_at (ude_s.u_d (_ude s)) i
           (math.constrain (Vector3f.get (ude_s.u_d (_ude s)) i)
              (- Vector3f.get (integral_limit_ude s) i)%f32
              (Vector3f.get (integral_limit_ude s) i)) |>) s in
  for_each [I0; I1]
    (fun s (i : idx2) =>
       let u := _ude s in
       s <| _ude -> ude_s.u_total :=
         set_at (ude_s.u_total u) i
           (Vector3f.get (ude_s.feedforward u) i + Vector3f.get (ude_s.u_l_kp u) i
            - Vector3f.get (ude_s.u_d u) i)%f32 |>) s.

(** [control_attitude_ude(dt)]: PD + UDE. *)
Definition control_attitude_ude (fresh : option vehicle_attitude_setpoint_s.t)
    (dt : float) (s : state) : state :=
  let s := if disarmed s then s <| integral_ude := Vector3f.zero |> else s in
  let s := control_attitude fresh dt s in
  let s := control_attitude_rates dt s in
  (* high-pass filter for attitude_dot_ref *)
  let s := for_each [I0; I1]
    (fun s (i : idx2) =>
       s <| _ude -> ude_s.attitude_dot_ref_hpf :=
         set_at (ude_s.attitude_dot_ref_hpf (_ude s)) i
           (F32.one / (T_filter_ude s + dt)
            * (T_filter_ude s * Vector3f.get (attitude_dot_sp_last s) i
               + Vector3f.get (ude_s.attitude_ref (_ude s)) i
               - Vector3f.get (attitude_sp_last s) i))%f32 |>) s in
  let s := for_each [I0; I1]
    (fun s (i : idx2) =>
       s <| _ude -> ude_s.attitude_dot_ref_hpf :=
         set_at (ude_s.attitude_dot_ref_hpf (_ude s)) i
           (math.constrain (Vector3f.get (ude_s.attitude_dot_ref_hpf (_ude s)) i)
              (- F32.of_Z 4)%f32 (F32.of_Z 4)) |>) s in
  let s := s <| attitude_sp_last :=
    set_at (attitude_sp_last s) AXIS_INDEX_ROLL
      (Vector3f.get (ude_s.attitude_ref (_ude s)) AXIS_INDEX_ROLL) |> in
  let s := s <| attitude_sp_last :=
    set_at (attitude_sp_last s) AXIS_INDEX_PITCH
      (Vector3f.get (ude_s.attitude_ref (_ude s)) AXIS_INDEX_PITCH) |> in
  let s := s <| attitude_dot_sp_last := ude_s.attitude_dot_ref_hpf (_ude s) |> in
  let s := for_each axes3
    (fun s i =>
       let u := _ude s in
       if switch_td s =? 0 then
         s <| _ude -> ude_s.error_attitude_rate :=
           set_at (ude_s.error_attitude_rate u) i
             (Vector3f.get (ude_s.attitude_dot_ref u) i
              - Vector3f.get (ude_s.attitude_rate_now u) i)%f32 |>
       else if switch_td s =? 1 then
         s <| _ude -> ude_s.error_attitude_rate :=
           set_at (ude_s.error_attitude_rate u) i
             (Vector3f.get (ude_s.attitude_dot_ref_hpf u) i
              - Vector3f.get (ude_s.attitude_rate_now u) i)%f32 |>
       else s) s in
  let s := for_each [I0; I1]
    (fun s (i : idx2) =>
       let u := _ude s in
       let s := s <| _ude -> ude_s.feedforward :=
         set_at (ude_s.feedforward u) i
           (Vector3f.get (I_quadrotor s) i * Vector3f.get (ude_s.attitude_ddot_ref u) i)%f32 |> in
       let s := s <| _ude -> ude_s.u_l_kp :=
         set_at (ude_s.u_l_kp u) i
           (Vector3f.get (Kp_ude s) i * Vector3f.get (ude_s.error_attitude u) i)%f32 |> in
       let s := s <| _ude -> ude_s.u_l_kd :=
         set_at (ude_s.u_l_kd u) i
           (Vector3f.get (Kd_ude s) i * Vector3f.get (ude_s.error_attitude_rate u) i)%f32 |> in
       s <| _ude -> ude_s.u_d :=
         set_at (ude_s.u_d u) i
           (Vector3f.get (I_quadrotor s) i / Vector3f.get (T_ude s) i
              * Vector3f.get (ude_s.error_attitude_rate u) i
            + F32.one / Vector3f.get (T_ude s) i * Vector3f.get (integral_ude s) i)%f32 |>) s in
  let s :=
    if (ude_s.thrust_sp (_ude s) >? MIN_TAKEOFF_THRUST)%f32 then
      for_each [I0; I1]
        (fun s (i : idx2) =>
           let u := _ude s in
           let integral :=
             (Vector3f.get (integral_ude s) i
              - dt * (Vector3f.get (ude_s.feedforward u) i
                      + Vector3f.get (Kp_ude s) i * Vector3f.get (ude_s.error_attitude u) i
                      + Vector3f.get (Kd_ude s) i
                        * Vector3f.get (ude_s.error_attitude_rate u) i))%f32 in
           commit_integral_ude i integral s) s
    else s in
  let s := for_each [I0; I1]
    (fun s (i : idx2) =>
       s <| _ude -> ude_s.u_d :=
         set_at (ude_s.u_d (_ude s)) i
           (math.constrain (Vector3f.get (ude_s.u_d (_ude s)) i)
              (- Vector3f.get (integral_limit_ude s) i)%f32
              (Vector3f.get (integral_limit_ude s) i)) |>) s in
  for_each [I0; I1]
    (fun s (i : idx2) =>
       let u := _ude s in
       s <| _ude -> ude_s.u_total :=
         set_at (ude_s.u_total u) i
           (Vector3f.get (ude_s.feedforward u) i + Vector3f.get (ude_s.u_l_kp u) i
            + Vector3f.get (ude_s.u_l_kd u) i - Vector3f.get (ude_s.u_d u) i)%f32 |>) s.

(** The reset at the head of [control_attitude_m_ude]. *)
Definition reset_ude_estimate (s : state) : state :=
  let s := s <| integral_ude := Vector3f.zero |> in
  let s := s <| _ude -> ude_s.torque_est := Vector3f.zero |> in
  let s := s <| _ude -> ude_s.f1_est := Vector3f.zero |> in
  let s := s <| _ude -> ude_s.f1_dot_est := Vector3f.zero |> in
  let s := s <| _ude -> ude_s.f2_est := Vector3f.zero |> in
  s <| _ude -> ude_s.f_est := Vector3f.zero |>.

(** [control_attitude_m_ude(dt)]: UDE with motor dynamics. *)
Definition control_attitude_m_ude (fresh : option vehicle_attitude_setpoint_s.t)
    (dt : float) (s : state) : state :=
  let s :=
    if (ude_s.thrust_sp (_ude s) <? MIN_TAKEOFF_THRUST)%f32 || disarmed s
    then reset_ude_estimate s else s in
  let s := control_attitude fresh dt s in
  let s := control_attitude_rates dt s in
  let s := error_for_attitude_rate s in
  (* update the torque reference *)
  let s := for_each [I0; I1]
    (fun s (i : idx2) =>
       s <| _ude -> ude_s.torque_ref :=
         set_at (ude_s.torque_ref (_ude s)) i
           (Vector3f.get (I_quadrotor s) i
            * Vector3f.get (ude_s.attitude_ddot_ref (_ude s)) i)%f32 |>) s in
  let s := for_each [I0; I1]
    (fun s (i : idx2) =>
       let '(f, y) :=
         LPFwithDelay_update (Arr2.get (LPFdelay s) i)
           (Vector3f.get (ude_s.u_total (_ude s)) i) dt in
       let s := s <| LPFdelay := Arr2.set (LPFdelay s) i f |> in
       s <| _ude -> ude_s.torque_est := set_at (ude_s.torque_est (_ude s)) i y |>) s in
  (* update the disturbance estimation *)
  let s := for_each [I0; I1]
    (fun s (i : idx2) =>
       let rate_now := Vector3f.get (ude_s.attitude_rate_now (_ude s)) i in
       let torque_est := Vector3f.get (ude_s.torque_est (_ude s)) i in
       let '(hpf, h) := HPF_update (Arr2.get (HPF s) i) rate_now dt in
       let '(lpf, l) := LPF_update (Arr2.get (LPF s) i) torque_est dt in
       let s := s <| HPF := Arr2.set (HPF s) i hpf |> <| LPF := Arr2.set (LPF s) i lpf |> in
       let f1_est := (Vector3f.get (I_quadrotor s) i * h - l)%f32 in
       let s := s <| _ude -> ude_s.f1_est := set_at (ude_s.f1_est (_ude s)) i f1_est |> in
       let '(hpf2, h2) := HPF2_update (Arr2.get (HPF2 s) i) rate_now dt in
       let '(bpf, b) := BPF_update (Arr2.get (BPF s) i) torque_est dt in
       let s := s <| HPF2 := Arr2.set (HPF2 s) i hpf2 |> <| BPF := Arr2.set (BPF s) i bpf |> in
       let f1_dot_est := (Vector3f.get (I_quadrotor s) i * h2 - b)%f32 in
       let s := s <| _ude -> ude_s.f1_dot_est :=
         set_at (ude_s.f1_dot_est (_ude s)) i f1_dot_est |> in
       let f2_est :=
         (F32.one / T_torque s * torque_est
          + F32.one / (T_torque s * MOTOR_ALPHA) * Vector3f.get (integral_ude s) i)%f32 in
       let s := s <| _ude -> ude_s.f2_est := set_at (ude_s.f2_est (_ude s)) i f2_est |> in
       let f_est := (MOTOR_ALPHA * f2_est + f1_est + MOTOR_ALPHA * f1_dot_est)%f32 in
       let s := s <| _ude -> ude_s.f_est := set_at (ude_s.f_est (_ude s)) i f_est |> in
       s <| _ude -> ude_s.f2 :=
         set_at (ude_s.f2 (_ude s)) i
           (F32.one / MOTOR_ALPHA
            * (Vector3f.get (ude_s.u_total (_ude s)) i
               - LPFwithDelay_get_delay_output (Arr2.get (LPFdelay s) i)))%f32 |>) s in
  (* roll and pitch control using UDE *)
  let s := for_each [I0; I1]
    (fun s (i : idx2) =>
       let u := _ude s in
       let s := s <| _ude -> ude_s.feedforward :=
         set_at (ude_s.feedforward u) i
           (Vector3f.get (I_quadrotor s) i
            * (Vector3f.get (ude_s.attitude_ddot_ref u) i
               + MOTOR_ALPHA * Vector3f.get (ude_s.attitude_dddot_ref u) i))%f32 |> in
       let s := s <| _ude -> ude_s.u_l_kp :=
         set_at (ude_s.u_l_kp u) i
           (Vector3f.get (Kp_ude s) i * Vector3f.get (ude_s.error_attitude u) i)%f32 |> in
       let s := s <| _ude -> ude_s.u_l_kd :=
         set_at (ude_s.u_l_kd u) i
           (Vector3f.get (Kd_ude s) i * Vector3f.get (ude_s.error_attitude_rate u) i)%f32 |> in
       let s := s <| _ude -> ude_s.u_l_km :=
         set_at (ude_s.u_l_km u) i
           (Vector3f.get (Km_ude s) i
            * (Vector3f.get (ude_s.torque_ref u) i - Vector3f.get (ude_s.torque_est u) i))%f32 |> in
       s <| _ude -> ude_s.u_d :=
         set_at (ude_s.u_d u) i
           (Vector3f.get (Km_ude s) i * Vector3f.get (ude_s.f1_est u) i
            + Vector3f.get (ude_s.f_est u) i)%f32 |>) s in
  let s :=
    if (ude_s.thrust_sp (_ude s) >? MIN_TAKEOFF_THRUST)%f32 then
      for_each [I0; I1]
        (fun s (i : idx2) =>
           let u := _ude s in
           let integral :=
             (Vector3f.get (integral_ude s) i
              + dt * (Vector3f.get (ude_s.torque_est u) i
                      - Vector3f.get (ude_s.feedforward u) i
                      - Vector3f.get (ude_s.u_l_kp u) i
                      - Vector3f.get (ude_s.u_l_kd u) i
                      - Vector3f.get (ude_s.u_l_km u) i
                      + (Vector3f.get (Km_ude s) i + F32.of_Z 1)
                        * Vector3f.get (ude_s.f1_est u) i
                      + MOTOR_ALPHA * Vector3f.get (ude_s.f1_dot_est u) i))%f32 in
           commit_integral_ude i integral s) s
    else s in
  let s := for_each [I0; I1]
    (fun s (i : idx2) =>
       let u := _ude s in
       s <| _ude -> ude_s.u_total :=
         set_at (ude_s.u_total u) i
           (Vector3f.get (ude_s.feedforward u) i + Vector3f.get (ude_s.u_l_kp u) i
            + Vector3f.get (ude_s.u_l_kd u) i + Vector3f.get (ude_s.u_l_km u) i
            - Vector3f.get (ude_s.u_d u) i)%f32 |>) s in
  let s := s <| print_time := (print_time s + dt)%f32 |> in
  if (print_time s - last_print_time s >? F32.of_Z 5)%f32
  then s <| last_print_time := print_time s |>
  else s.

(* ------------------------------------------------------------------ *)
(** *** The control loop: one gyro sample *)

(** [orb_publish] on the actuator topic, or [orb_advertise] (which carries
    the first message) while the handle is still null. *)
Definition publish_actuators (s : state) : state * list orb_msg :=
  if _actuators_0_circuit_breaker_enabled s then (s, [])
  else if _actuators_0_pub s then (s, [pub_actuators (_actuators s)])
  else if _actuators_id s then
    (s <| _actuators_0_pub := true |>, [pub_actuators (_actuators s)])
  else (s, []).

(** [publish attitude rates setpoint]. *)
Definition publish_rates_sp (s : state) : state * list orb_msg :=
  let m := {|
    vehicle_rates_setpoint_s.roll := Vector3f.get (_rates_sp s) AXIS_INDEX_ROLL;
    vehicle_rates_setpoint_s.pitch := Vector3f.get (_rates_sp s) AXIS_INDEX_PITCH;
    vehicle_rates_setpoint_s.yaw := Vector3f.get (_rates_sp s) AXIS_INDEX_YAW;
    vehicle_rates_setpoint_s.thrust := _thrust_sp s |} in
  let s := s <| _v_rates_sp := m |> in
  if _v_rates_sp_pub s then (s, [pub_rates_sp m])
  else if _rates_sp_id s then (s <| _v_rates_sp_pub := true |>, [pub_rates_sp m])
  else (s, []).

(** [(PX4_ISFINITE(x)) ? x : 0.0f]. *)
Definition finite_or_zero (x : float) : float :=
  if F32.PX4_ISFINITE x then x else F32.zero.

(** The four guarded channel writes and the landing-gear passthrough. *)
Definition write_actuators (c0 c1 c2 c3 : float) (s : state) : state :=
  let a := _actuators s in
  let a := actuator_controls_s.set a 0 (finite_or_zero c0) in
  let a := actuator_controls_s.set a 1 (finite_or_zero c1) in
  let a := actuator_controls_s.set a 2 (finite_or_zero c2) in
  let a := actuator_controls_s.set a 3 (finite_or_zero c3) in
  let a := actuator_controls_s.set a 7
             (vehicle_attitude_setpoint_s.landing_gear (_v_att_sp s)) in
  s <| _actuators := a |>.

(** [scale effort by battery status]. *)
Definition battery_scale (s : state) : state :=
  if negb (_bat_scale_en s =? 0)
     && (battery_status_s.scale (_battery_status s) >? F32.zero)%f32
  then
    s <| _actuators :=
      fold_left
        (fun a i =>
           actuator_controls_s.set a i
             (actuator_controls_s.get a i * battery_status_s.scale (_battery_status s))%f32)
        [0%nat; 1%nat; 2%nat; 3%nat] (_actuators s) |>
  else s.

(** The chain [if (switch_ude == 1) ... else if (switch_ude == 3)] that
    selects the UDE law. *)
Definition ude_control (fresh : option vehicle_attitude_setpoint_s.t)
    (dt : float) (s : state) : state :=
  if switch_ude s =? 1 then control_attitude_ude fresh dt s
  else if switch_ude s =? 2 then control_attitude_cascade_ude fresh dt s
  else if switch_ude s =? 3 then control_attitude_m_ude fresh dt s
  else s.

(** [_ude.u_total[0] = 0.0f; _ude.u_total[2] = 0.0f;] in platform mode. *)
Definition platform_zero (s : state) : state :=
  if use_platform s =? 1 then
    let s := s <| _ude -> ude_s.u_total :=
      Vector3f.set (ude_s.u_total (_ude s)) AXIS_INDEX_ROLL F32.zero |> in
    s <| _ude -> ude_s.u_total :=
      Vector3f.set (ude_s.u_total (_ude s)) AXIS_INDEX_YAW F32.zero |>
  else s.

(** From the torque of the UDE law to the actuator topic: the channels,
    directly or through the mixer, the battery scaling, the publication. *)
Definition ude_actuators (s : state) : state * list orb_msg :=
  let '(s, out_mixer) :=
    if switch_mixer s =? 0 then
      let s := platform_zero s in
      let u := ude_s.u_total (_ude s) in
      (write_actuators (v0 u) (v1 u) (v2 u) (ude_s.thrust_sp (_ude s)) s, [])
    else
      let s := platform_zero s in
      let u := ude_s.u_total (_ude s) in
      let '(s, out) := mixer (v0 u) (v1 u) (v2 u) (ude_s.thrust_sp (_ude s)) s in
      let s :=
        if use_platform s =? 1 then
          s <| _mixer -> mixer_s.output_roll := F32.zero |>
            <| _mixer -> mixer_s.output_yaw := F32.zero |>
        else s in
      let m := _mixer s in
      (write_actuators (mixer_s.output_roll m) (mixer_s.output_pitch m)
         (mixer_s.output_yaw m) (mixer_s.output_thrust m) s, out) in
  let s := battery_scale s in
  let '(s, out_act) := publish_actuators s in
  (s, out_mixer ++ out_act).

(** The branch [if (switch_ude != 0)]. *)
Definition run_ude (fresh : option vehicle_attitude_setpoint_s.t)
    (dt : float) (s : state) : state * list orb_msg :=
  ude_actuators (ude_control fresh dt s).

(** The first half of the branch [default pid control]: where the rate
    setpoint comes from. *)
Definition rates_setpoint (fresh : option vehicle_attitude_setpoint_s.t)
    (fresh_rates : option vehicle_rates_setpoint_s.t)
    (dt : float) (s : state) : state * list orb_msg :=
  if vehicle_control_mode_s.flag_control_attitude_enabled (_v_control_mode s) then
    publish_rates_sp (control_attitude fresh dt s)
  else if vehicle_control_mode_s.flag_control_manual_enabled (_v_control_mode s) then
    (* manual rates control - ACRO mode *)
    let m := _manual_control_sp s in
    let man_rate_sp := mkVector3f
      (superexpo (manual_control_setpoint_s.y m) (_acro_expo_rp s) (_acro_superexpo_rp s))
      (superexpo (- manual_control_setpoint_s.x m)%f32 (_acro_expo_rp s)
         (_acro_superexpo_rp s))
      (superexpo (manual_control_setpoint_s.r m) (_acro_expo_y s) (_acro_superexpo_y s)) in
    let s := s <| _rates_sp := Vector3f.emult man_rate_sp (_acro_rate_max s) |> in
    let s := s <| _thrust_sp := manual_control_setpoint_s.z m |> in
    publish_rates_sp s
  else
    (* attitude controller disabled, poll rates setpoint topic *)
    let s := match fresh_rates with
             | Some m => s <| _v_rates_sp := m |>
             | None => s
             end in
    let r := _v_rates_sp s in
    let s := s <| _rates_sp :=
      mkVector3f (vehicle_rates_setpoint_s.roll r) (vehicle_rates_setpoint_s.pitch r)
        (vehicle_rates_setpoint_s.yaw r) |> in
    (s <| _thrust_sp := vehicle_rates_setpoint_s.thrust r |>, []).

(** The second half, [if (_v_control_mode.flag_control_rates_enabled)]: the
    rate controller, its torque command to the actuator channels, the
    battery scaling, the publications. *)
Definition rates_actuators (dt : float) (s : state) : state * list orb_msg :=
  let s := control_attitude_rates dt s in
  let s :=
    if use_platform s =? 1 then
      let s := s <| _att_control :=
        Vector3f.set (_att_control s) AXIS_INDEX_ROLL F32.zero |> in
      s <| _att_control := Vector3f.set (_att_control s) AXIS_INDEX_YAW F32.zero |>
    else s in
  let c := _att_control s in
  let s := write_actuators (v0 c) (v1 c) (v2 c) (_thrust_sp s) s in
  let s := battery_scale s in
  let '(s, out_act) := publish_actuators s in
  (s, out_act ++ [pub_rate_ctrl_status (_rates_prev s) (_rates_int s)]).

(** The branch [default pid control]. *)
Definition run_pid (fresh : option vehicle_attitude_setpoint_s.t)
    (fresh_rates : option vehicle_rates_setpoint_s.t)
    (dt : float) (s : state) : state * list orb_msg :=
  let '(s, out_sp) := rates_setpoint fresh fresh_rates dt s in
  if vehicle_control_mode_s.flag_control_rates_enabled (_v_control_mode s) then
    let '(s, out) := rates_actuators dt s in
    (s, out_sp ++ out)
  else (s, out_sp).

(** Flight termination: everything to zero. *)
Definition terminate (s : state) : state * list orb_msg :=
  if vehicle_control_mode_s.flag_control_termination_enabled (_v_control_mode s)
     && negb (vehicle_status_s.is_vtol (_vehicle_status s))
  then
    let s := s <| _rates_sp := Vector3f.zero |> <| _rates_int := Vector3f.zero |>
               <| integral_ude := Vector3f.zero |> <| _thrust_sp := F32.zero |>
               <| _att_control := Vector3f.zero |> in
    let a := _actuators s in
    let a := actuator_controls_s.set a 0 F32.zero in
    let a := actuator_controls_s.set a 1 F32.zero in
    let a := actuator_controls_s.set a 2 F32.zero in
    let a := actuator_controls_s.set a 3 F32.zero in
    publish_actuators (s <| _actuators := a |>)
  else (s, []).

(** The estimate of the loop rate, and the re-tuning of the D-term filter. *)
Definition update_loop_rate (startup : bool) (dt : float) (s : state) : state :=
  if negb (vehicle_control_mode_s.flag_armed (_v_control_mode s)) || startup then
    let s := s <| dt_accumulator := (dt_accumulator s + dt)%f32 |> in
    let s := s <| loop_counter := loop_counter s + 1 |> in
    if (dt_accumulator s >? F32.one)%f32 then
      let loop_update_rate := (F32.of_Z (loop_counter s) / dt_accumulator s)%f32 in
      let s := s <| _loop_update_rate_hz :=
        (_loop_update_rate_hz s * F32.lit 5 10 + loop_update_rate * F32.lit 5 10)%f32 |> in
      let s := s <| dt_accumulator := F32.zero |> in
      let s := s <| loop_counter := 0 |> in
      let tune f :=
        LowPassFilter2p_set_cutoff_frequency f (_loop_update_rate_hz s)
          (_d_term_cutoff_freq s) in
      let f := _lp_filters_d s in
      s <| _lp_filters_d := mkArr3 (tune (b0 f)) (tune (b1 f)) (tune (b2 f)) |>
    else s
  else s.

(** [guard against too small (< 0.2ms) and too large (> 20ms) dt's]. *)
Definition guard_dt (dt : float) : float :=
  if (dt <? F32.lit 2 10000)%f32 then F32.lit 2 10000
  else if (dt >? F32.lit 2 100)%f32 then F32.lit 2 100
  else dt.

(** In rattitude mode, a roll or pitch stick above the threshold switches
    the attitude controller off for this iteration and the following ones,
    until the control mode is received again. *)
Definition rattitude_override (s : state) : state :=
  if vehicle_control_mode_s.flag_control_rattitude_enabled (_v_control_mode s) then
    if (F32.fabsf (manual_control_setpoint_s.y (_manual_control_sp s))
          >? _rattitude_thres s)%f32
       || (F32.fabsf (manual_control_setpoint_s.x (_manual_control_sp s))
             >? _rattitude_thres s)%f32
    then s <| _v_control_mode ->
                vehicle_control_mode_s.flag_control_attitude_enabled := false |>
    else s
  else s.

(** The controller of this iteration: a UDE law when one is selected, the
    cascaded PID controller otherwise. *)
Definition control_branch (fresh : option vehicle_attitude_setpoint_s.t)
    (fresh_rates : option vehicle_rates_setpoint_s.t)
    (dt : float) (s : state) : state * list orb_msg :=
  if negb (switch_ude s =? 0) then run_ude fresh dt s
  else run_pid fresh fresh_rates dt s.

(** [publish ude controller status]: the clock of the log advances by [dt],
    and the log is published (advertised on the first call). *)
Definition publish_ude_status (dt : float) (s : state) : state * list orb_msg :=
  let s := s <| _ude -> ude_s.start_time := (ude_s.start_time (_ude s) + dt)%f32 |> in
  (s, [pub_ude (_ude s)]).

(** What [run] does for one gyro sample, after the subscriptions have been
    refreshed into [s]: [dt_raw] is the time since the last sample,
    [startup] whether the task started less than 3.3 s ago, [fresh] and
    [fresh_rates] what the two setpoint topics polled later deliver. *)
Definition run_iteration (dt_raw : float) (startup : bool)
    (fresh : option vehicle_attitude_setpoint_s.t)
    (fresh_rates : option vehicle_rates_setpoint_s.t)
    (s : state) : state * list orb_msg :=
  let dt := guard_dt dt_raw in
  let s := rattitude_override s in
  let '(s, out) := control_branch fresh fresh_rates dt s in
  let '(s, out_ude) := publish_ude_status dt s in
  let '(s, out_term) := terminate s in
  (update_loop_rate startup dt s, out ++ out_ude ++ out_term).

End Controller.

Arguments MulticopterAttitudeControl : clear implicits.

(* ================================================================== *)
(** ** A reference library, for running the controller on concrete inputs

    The examples need one implementation of [Lib] to evaluate.  This one
    takes the quaternion algebra in its textbook form (Hamilton product,
    conjugate over squared norm, half-way quaternion between two vectors),
    filters that pass their input through, and the libm functions at the
    arguments where Annex F of the C standard fixes their value ([sin],
    [asin] at zero, [cos] at zero, [acos] at one, [atan2] of a zero); a NaN
    argument gives NaN.  The examples evaluate libm nowhere else. *)

Module Ref.

Definition is_zero (x : float) : bool :=
  match x with S754_zero _ => true | _ => false end.

Definition is_one (x : float) : bool := F32.eqb x F32.one.

(** [f(+-0) = +-0]: sin, asin. *)
Definition odd_at_zero (x : float) : float := if is_zero x then x else F32.nan.

(** cos: [cos(+-0) = 1]. *)
Definition cos_at_zero (x : float) : float := if is_zero x then F32.one else F32.nan.

(** acos: [acos(1) = +0]. *)
Definition acos_at_one (x : float) : float := if is_one x then F32.zero else F32.nan.

Definition fabs (x : float) : float := F32.fabsf x.

Definition dot (a b : Vector3f) : float :=
  (v0 a * v0 b + v1 a * v1 b + v2 a * v2 b)%f32.

Definition cross (a b : Vector3f) : Vector3f :=
  mkVector3f (v1 a * v2 b - v2 a * v1 b)%f32
             (v2 a * v0 b - v0 a * v2 b)%f32
             (v0 a * v1 b - v1 a * v0 b)%f32.

Definition norm_squared (q : Quatf) : float :=
  (q0 q * q0 q + q1 q * q1 q + q2 q * q2 q + q3 q * q3 q)%f32.

Definition normalize (q : Quatf) : Quatf :=
  let n := F32.sqrt (norm_squared q) in
  mkQuatf (q0 q / n)%f32 (q1 q / n)%f32 (q2 q / n)%f32 (q3 q / n)%f32.

Definition dcm_z (q : Quatf) : Vector3f :=
  let a := q0 q in let b := q1 q in let c := q2 q in let d := q3 q in
  mkVector3f (F32.of_Z 2 * (a * c + b * d))%f32
             (F32.of_Z 2 * (c * d - a * b))%f32
             (a * a - b * b - c * c + d * d)%f32.

(** The shortest rotation from [src] to [dst]; for opposite vectors, half
    a turn about an axis orthogonal to [src]. *)
Definition from_vectors (src dst : Vector3f) : Quatf :=
  let cr := cross src dst in
  let dt := dot src dst in
  let eps := F32.lit 1 100000 in
  let '(w, cr) :=
    if (F32.sqrt (dot cr cr) <? eps)%f32 && (dt <? F32.zero)%f32 then
      let a := mkVector3f (fabs (v0 src)) (fabs (v1 src)) (fabs (v2 src)) in
      let axis :=
        if (v0 a <? v1 a)%f32 then
          if (v0 a <? v2 a)%f32 then mkVector3f F32.one F32.zero F32.zero
          else mkVector3f F32.zero F32.zero F32.one
        else
          if (v1 a <? v2 a)%f32 then mkVector3f F32.zero F32.one F32.zero
          else mkVector3f F32.zero F32.zero F32.one in
      (F32.zero, cross src axis)
    else ((dt + F32.sqrt (dot src src * dot dst dst))%f32, cr) in
  normalize (mkQuatf w (v0 cr) (v1 cr) (v2 cr)).

Definition mul (q p : Quatf) : Quatf :=
  mkQuatf
    (q0 q * q0 p - q1 q * q1 p - q2 q * q2 p - q3 q * q3 p)%f32
    (q0 q * q1 p + q1 q * q0 p + q2 q * q3 p - q3 q * q2 p)%f32
    (q0 q * q2 p - q1 q * q3 p + q2 q * q0 p + q3 q * q1 p)%f32
    (q0 q * q3 p + q1 q * q2 p - q2 q * q1 p + q3 q * q0 p)%f32.

Definition inversed (q : Quatf) : Quatf :=
  let n := norm_squared q in
  mkQuatf (q0 q / n)%f32 (- q1 q / n)%f32 (- q2 q / n)%f32 (- q3 q / n)%f32.

(** [atan2(+-0, x)] is [+-0] for [x > 0] and [+-pi] for [x < 0]. *)
Definition pi : float := S754_finite false 13176795 (-22).

Definition atan2_at_zero (y x : float) : float :=
  match y with
  | S754_zero sy =>
      if (F32.zero <? x)%f32 then y
      else if (x <? F32.zero)%f32 then (if sy then F32.opp pi else pi)
      else F32.nan
  | _ => F32.nan
  end.

(** Euler angles (roll, pitch, yaw) from the entries of the rotation
    matrix of [q], away from gimbal lock. *)
Definition euler_of_quat (q : Quatf) : Vector3f :=
  let a := q0 q in let b := q1 q in let c := q2 q in let d := q3 q in
  let dcm20 := (F32.of_Z 2 * (b * d - a * c))%f32 in
  let dcm21 := (F32.of_Z 2 * (c * d + a * b))%f32 in
  let dcm22 := (a * a - b * b - c * c + d * d)%f32 in
  let dcm10 := (F32.of_Z 2 * (b * c + a * d))%f32 in
  let dcm00 := (a * a + b * b - c * c - d * d)%f32 in
  mkVector3f (atan2_at_zero dcm21 dcm22) (odd_at_zero (- dcm20)%f32)
             (atan2_at_zero dcm10 dcm00).

Definition quat_of_euler (e : Vector3f) : Quatf :=
  let h := F32.lit 1 2 in
  let cphi := cos_at_zero (v0 e * h)%f32 in let sphi := odd_at_zero (v0 e * h)%f32 in
  let cth := cos_at_zero (v1 e * h)%f32 in let sth := odd_at_zero (v1 e * h)%f32 in
  let cpsi := cos_at_zero (v2 e * h)%f32 in let spsi := odd_at_zero (v2 e * h)%f32 in
  mkQuatf (cphi * cth * cpsi + sphi * sth * spsi)%f32
          (sphi * cth * cpsi - cphi * sth * spsi)%f32
          (cphi * sth * cpsi + sphi * cth * spsi)%f32
          (cphi * cth * spsi - sphi * sth * cpsi)%f32.

Definition dcm_mul (m : Dcmf) (v : Vector3f) : Vector3f :=
  mkVector3f (dot (row0 m) v) (dot (row1 m) v) (dot (row2 m) v).

Definition vec_div (v : Vector3f) (k : float) : Vector3f :=
  mkVector3f (v0 v / k)%f32 (v1 v / k)%f32 (v2 v / k)%f32.

(** Filters that keep no state and return their input. *)
Definition pass (_ : unit) (x : float) : unit * float := (tt, x).
Definition pass_dt (_ : unit) (x _ : float) : unit * float := (tt, x).

#[local] Instance lib : Lib := {|
  cosf := cos_at_zero;
  sinf := odd_at_zero;
  acosf := acos_at_one;
  asinf := odd_at_zero;
  cos := cos_at_zero;
  sin := odd_at_zero;
  abs := fabs;
  Quatf_normalize := normalize;
  Quatf_dcm_z := dcm_z;
  Quatf_from_vectors := from_vectors;
  Quatf_mul := mul;
  Quatf_inversed := inversed;
  Eulerf_of_Quatf := euler_of_quat;
  Quatf_of_Eulerf := quat_of_euler;
  Dcmf_mul := dcm_mul;
  Vector3f_div := vec_div;
  superexpo := fun v _ _ => v;
  LowPassFilter2p := unit;
  LowPassFilter2p_apply := pass;
  LowPassFilter2p_set_cutoff_frequency := fun f _ _ => f;
  LPFwithDelay := unit;
  LPFwithDelay_update := pass_dt;
  LPFwithDelay_get_delay_output := fun _ => F32.zero;
  Filter := unit;
  LPF_update := pass_dt;
  HPF_update := pass_dt;
  HPF2_update := pass_dt;
  BPF_update := pass_dt;
  HPF_td_update := pass_dt
|}.

Definition identity : Quatf := mkQuatf F32.one F32.zero F32.zero F32.zero.
Definition ones : Vector3f := mkVector3f F32.one F32.one F32.one.

Definition ude0 : ude_s.t :=
  let z := Vector3f.zero in
  ude_s.mk F32.zero F32.zero F32.zero z z z z z z z z z z z z z z z z z z z z z z.

Definition mixer0 : mixer_s.t :=
  let z := F32.zero in mixer_s.mk z z z z z z z z z z z z z z z z.

Definition actuators0 : actuator_controls_s.t :=
  let z := F32.zero in actuator_controls_s.mk z z z z z z z z.

(** The controller as its constructor leaves it, armed, with unit gains,
    unit integrator limits, unit rate limits, no attenuation, an identity
    board rotation, a level attitude and a level setpoint. *)
Definition init : MulticopterAttitudeControl lib := {|
  input_source := 0; use_platform := 0; switch_ude := 0; switch_mixer := 0;
  switch_td := 0;
  T_filter_ude := F32.one; T_torque := F32.one;
  Kp_ude := ones; Kd_ude := ones; Km_ude := ones; T_ude := ones;
  I_quadrotor := mkVector3f Ixx Iyy Izz;
  integral_limit_ude := mkVector3f INT_LIMIT INT_LIMIT INT_LIMIT;
  _attitude_p := ones; _rate_p := ones; _rate_i := ones; _rate_int_lim := ones;
  _rate_d := Vector3f.zero; _rate_ff := Vector3f.zero;
  _mc_rate_max := ones; _auto_rate_max := ones; _acro_rate_max := ones;
  _yaw_ff := F32.zero; _vtol_wv_yaw_rate_scale := F32.one;
  _tpa_breakpoint_p := F32.zero; _tpa_breakpoint_i := F32.zero;
  _tpa_breakpoint_d := F32.zero;
  _tpa_rate_p := F32.zero; _tpa_rate_i := F32.zero; _tpa_rate_d := F32.zero;
  _rattitude_thres := F32.one;
  _acro_expo_rp := F32.zero; _acro_superexpo_rp := F32.zero;
  _acro_expo_y := F32.zero; _acro_superexpo_y := F32.zero;
  _bat_scale_en := 0; _d_term_cutoff_freq := F32.of_Z 30;
  _actuators_0_circuit_breaker_enabled := false;
  _board_rotation :=
    mkDcmf (mkVector3f F32.one F32.zero F32.zero)
           (mkVector3f F32.zero F32.one F32.zero)
           (mkVector3f F32.zero F32.zero F32.one);
  _v_att := vehicle_attitude_s.mk identity;
  _v_att_sp := vehicle_attitude_setpoint_s.mk identity F32.zero F32.zero false F32.zero;
  _v_rates_sp := vehicle_rates_setpoint_s.mk F32.zero F32.zero F32.zero F32.zero;
  _v_control_mode :=
    vehicle_control_mode_s.mk true true false true true false false false;
  _vehicle_status := vehicle_status_s.mk true false;
  _manual_control_sp := manual_control_setpoint_s.mk F32.zero F32.zero F32.zero F32.zero;
  _sensor_gyro := sensor_gyro_s.mk F32.zero F32.zero F32.zero;
  _sensor_correction :=
    sensor_correction_s.mk Vector3f.zero ones Vector3f.zero ones Vector3f.zero ones;
  _selected_gyro := 0;
  _sensor_bias := sensor_bias_s.mk F32.zero F32.zero F32.zero;
  _saturation_status := saturation_status.mk false false false false false false;
  _battery_status := battery_status_s.mk F32.one;
  _actuators_0_pub := true; _actuators_id := true;
  _v_rates_sp_pub := true; _rates_sp_id := true;
  _rates_prev := Vector3f.zero; _rates_prev_filtered := Vector3f.zero;
  _rates_sp := Vector3f.zero; _rates_int := Vector3f.zero;
  _thrust_sp := F32.zero; _att_control := Vector3f.zero;
  integral_ude := Vector3f.zero;
  attitude_sp_last := Vector3f.zero; attitude_dot_sp_last := Vector3f.zero;
  input_source_time := F32.zero; print_time := F32.zero; last_print_time := F32.zero;
  _loop_update_rate_hz := F32.of_Z 800;
  dt_accumulator := F32.zero; loop_counter := 0;
  _ude := ude0; _mixer := mixer0; _actuators := actuators0;
  _lp_filters_d := mkArr3 tt tt tt;
  LPFdelay := mkArr2 tt tt; LPF := mkArr2 tt tt; HPF := mkArr2 tt tt;
  HPF2 := mkArr2 tt tt; BPF := mkArr2 tt tt; HPF_td := mkArr2 tt tt
|}.

End Ref.

(* ================================================================== *)
(** ** What a call may change

    Each function of the controller writes a few fields and leaves the
    others alone.  [keep_f s s'] is the state that takes from [s'] the
    fields [f] may write and everything else from [s]; that [f] writes
    nothing else is the equation [f s = keep_f s (f s)]. *)

(** Roll and pitch from [new], yaw from [old]. *)
Definition rp (old new : Vector3f) : Vector3f := mkVector3f (v0 new) (v1 new) (v2 old).

(** The log fields [control_attitude] writes. *)
Definition ude_logged (u u' : ude_s.t) : ude_s.t :=
  u <| ude_s.input_time := ude_s.input_time u' |>
    <| ude_s.thrust_sp := ude_s.thrust_sp u' |>
    <| ude_s.attitude_ref := ude_s.attitude_ref u' |>
    <| ude_s.attitude_dot_ref := ude_s.attitude_dot_ref u' |>
    <| ude_s.attitude_ddot_ref := ude_s.attitude_ddot_ref u' |>
    <| ude_s.attitude_dddot_ref := ude_s.attitude_dddot_ref u' |>
    <| ude_s.attitude_now := ude_s.attitude_now u' |>
    <| ude_s.error_attitude := ude_s.error_attitude u' |>.

(** The log fields the UDE laws write: roll and pitch of the torque terms,
    all of [error_attitude_rate]. *)
Definition ude_rp (u u' : ude_s.t) : ude_s.t := {|
  ude_s.start_time := ude_s.start_time u;
  ude_s.input_time := ude_s.input_time u;
  ude_s.thrust_sp := ude_s.thrust_sp u;
  ude_s.attitude_ref := ude_s.attitude_ref u;
  ude_s.attitude_dot_ref := ude_s.attitude_dot_ref u;
  ude_s.attitude_dot_ref_hpf := rp (ude_s.attitude_dot_ref_hpf u) (ude_s.attitude_dot_ref_hpf u');
  ude_s.attitude_ddot_ref := ude_s.attitude_ddot_ref u;
  ude_s.attitude_dddot_ref := ude_s.attitude_dddot_ref u;
  ude_s.attitude_now := ude_s.attitude_now u;
  ude_s.attitude_rate_now := ude_s.attitude_rate_now u;
  ude_s.error_attitude := ude_s.error_attitude u;
  ude_s.error_attitude_rate := ude_s.error_attitude_rate u';
  ude_s.torque_ref := rp (ude_s.torque_ref u) (ude_s.torque_ref u');
  ude_s.torque_est := rp (ude_s.torque_est u) (ude_s.torque_est u');
  ude_s.f1_est := rp (ude_s.f1_est u) (ude_s.f1_est u');
  ude_s.f1_dot_est := rp (ude_s.f1_dot_est u) (ude_s.f1_dot_est u');
  ude_s.f2_est := rp (ude_s.f2_est u) (ude_s.f2_est u');
  ude_s.f2 := rp (ude_s.f2 u) (ude_s.f2 u');
  ude_s.f_est := rp (ude_s.f_est u) (ude_s.f_est u');
  ude_s.feedforward := rp (ude_s.feedforward u) (ude_s.feedforward u');
  ude_s.u_l_kp := rp (ude_s.u_l_kp u) (ude_s.u_l_kp u');
  ude_s.u_l_kd := rp (ude_s.u_l_kd u) (ude_s.u_l_kd u');
  ude_s.u_l_km := rp (ude_s.u_l_km u) (ude_s.u_l_km u');
  ude_s.u_d := rp (ude_s.u_d u) (ude_s.u_d u');
  ude_s.u_total := rp (ude_s.u_total u) (ude_s.u_total u')
|}.

(** A message on another topic than those of the actuators and of the UDE
    status. *)
Definition other_topic (m : orb_msg) : Prop :=
  match m with
  | pub_actuators _ | pub_ude _ => False
  | _ => True
  end.

Section Footprints.

Context {L : Lib}.
Local Notation "'state'" := (MulticopterAttitudeControl L).

(** The bench trajectory of [control_attitude]. *)
Definition keep_platform (s s' : state) : state :=
  s <| _thrust_sp := _thrust_sp s' |> <| input_source_time := input_source_time s' |>
    <| _ude -> ude_s.input_time := ude_s.input_time (_ude s') |> <| HPF_td := HPF_td s' |>.

(** [control_attitude]. *)
Definition keep_attitude (s s' : state) : state :=
  s <| _v_att_sp := _v_att_sp s' |> <| _thrust_sp := _thrust_sp s' |>
    <| input_source_time := input_source_time s' |>
    <| HPF_td := HPF_td s' |> <| _rates_sp := _rates_sp s' |>
    <| _rates_int := _rates_int s' |> <| _ude := ude_logged (_ude s) (_ude s') |>.

(** [control_attitude_rates]. *)
Definition keep_rates (s s' : state) : state :=
  s <| _rates_int := _rates_int s' |> <| _att_control := _att_control s' |>
    <| _rates_prev := _rates_prev s' |>
    <| _rates_prev_filtered := _rates_prev_filtered s' |>
    <| _lp_filters_d := _lp_filters_d s' |>
    <| _ude -> ude_s.attitude_rate_now := ude_s.attitude_rate_now (_ude s') |>
    <| _ude -> ude_s.u_total :=
         Vector3f.set (ude_s.u_total (_ude s)) AXIS_INDEX_YAW
           (Vector3f.get (_att_control s') AXIS_INDEX_YAW) |>.

(** The statements of a UDE law after the two calls it starts with, the
    integral update apart. *)
Definition keep_ude (s s' : state) : state :=
  s <| _ude := ude_rp (_ude s) (_ude s') |>
    <| attitude_sp_last := rp (attitude_sp_last s) (attitude_sp_last s') |>
    <| attitude_dot_sp_last := attitude_dot_sp_last s' |>
    <| LPFdelay := LPFdelay s' |> <| LPF := LPF s' |> <| HPF := HPF s' |>
    <| HPF2 := HPF2 s' |> <| BPF := BPF s' |>
    <| print_time := print_time s' |> <| last_print_time := last_print_time s' |>.

(** The integral update of a UDE law. *)
Definition keep_int (s s' : state) : state :=
  s <| integral_ude := rp (integral_ude s) (integral_ude s') |>.

(** A UDE law after the two calls it starts with. *)
Definition keep_law (s s' : state) : state :=
  keep_int (keep_ude s s') s'.

(** An entry of the integral after updates that are kept only when finite
    and strictly inside the limit: the entry before, or such a value. *)
Definition settled (lim old new : float) : Prop :=
  new = old
  \/ (F32.PX4_ISFINITE new = true
      /\ (new >? - lim)%f32 = true /\ (new <? lim)%f32 = true).

(** From [s] to [s'] the limit of the integral is the same and every entry
    of the integral is settled. *)
Definition integral_settled (s s' : state) : Prop :=
  integral_limit_ude s' = integral_limit_ude s
  /\ forall i : axis,
       settled (Vector3f.get (integral_limit_ude s) i)
         (Vector3f.get (integral_ude s) i) (Vector3f.get (integral_ude s') i).

(** The head of [control_attitude_ude] and [control_attitude_cascade_ude]. *)
Definition ude_reset (s : state) : state :=
  if disarmed s then s <| integral_ude := Vector3f.zero |> else s.

(** The head of [control_attitude_m_ude]. *)
Definition m_ude_reset (s : state) : state :=
  if (ude_s.thrust_sp (_ude s) <? MIN_TAKEOFF_THRUST)%f32 || disarmed s
  then reset_ude_estimate s else s.

(** A UDE law up to its call of [control_attitude_rates]. *)
Definition ude_prelude (reset : state -> state)
    (fresh : option vehicle_attitude_setpoint_s.t) (dt : float) (s : state) : state :=
  control_attitude_rates dt (control_attitude fresh dt (reset s)).

(** A whole UDE law, from its first statement to its last. *)
Definition keep_call (s s' : state) : state :=
  s <| _v_att_sp := _v_att_sp s' |> <| _thrust_sp := _thrust_sp s' |>
    <| input_source_time := input_source_time s' |> <| HPF_td := HPF_td s' |>
    <| _rates_sp := _rates_sp s' |> <| _rates_int := _rates_int s' |>
    <| _att_control := _att_control s' |> <| _rates_prev := _rates_prev s' |>
    <| _rates_prev_filtered := _rates_prev_filtered s' |>
    <| _lp_filters_d := _lp_filters_d s' |> <| _ude := _ude s' |>
    <| integral_ude := integral_ude s' |>
    <| attitude_sp_last := attitude_sp_last s' |>
    <| attitude_dot_sp_last := attitude_dot_sp_last s' |>
    <| LPFdelay := LPFdelay s' |> <| LPF := LPF s' |> <| HPF := HPF s' |>
    <| HPF2 := HPF2 s' |> <| BPF := BPF s' |>
    <| print_time := print_time s' |> <| last_print_time := last_print_time s' |>.

(** The three UDE laws, as [run] selects them by [switch_ude]. *)
Definition ude_law (n : Z) :
    option (option vehicle_attitude_setpoint_s.t -> float -> state -> state) :=
  if n =? 1 then Some control_attitude_ude
  else if n =? 2 then Some control_attitude_cascade_ude
  else if n =? 3 then Some control_attitude_m_ude
  else None.

(** The integral of a UDE law after a reset: no yaw entry, and no entry at
    all unless the thrust setpoint exceeds the minimum. *)
Definition integral_reset (s' : state) : Prop :=
  Vector3f.get (integral_ude s') AXIS_INDEX_YAW = F32.zero
  /\ ((_thrust_sp s' >? MIN_TAKEOFF_THRUST)%f32 = false -> integral_ude s' = Vector3f.zero).

(** The yaw entries of the estimates [control_attitude_m_ude] resets. *)
Definition estimate_yaw_reset (s' : state) : Prop :=
  Vector3f.get (ude_s.torque_est (_ude s')) AXIS_INDEX_YAW = F32.zero
  /\ Vector3f.get (ude_s.f1_est (_ude s')) AXIS_INDEX_YAW = F32.zero
  /\ Vector3f.get (ude_s.f1_dot_est (_ude s')) AXIS_INDEX_YAW = F32.zero
  /\ Vector3f.get (ude_s.f2_est (_ude s')) AXIS_INDEX_YAW = F32.zero
  /\ Vector3f.get (ude_s.f_est (_ude s')) AXIS_INDEX_YAW = F32.zero.

(** [scale effort by battery status] is switched on and has a scale. *)
Definition battery_scaling (s : state) : bool :=
  negb (_bat_scale_en s =? 0)
  && (battery_status_s.scale (_battery_status s) >? F32.zero)%f32.


(** The yaw rate limit of the weather-vane mode. *)
Definition wv_yaw_rate_max (s : state) : float :=
  (Vector3f.get (_auto_rate_max s) AXIS_INDEX_YAW * _vtol_wv_yaw_rate_scale s)%f32.




(** [VTOL weather-vane mode] with velocity or auto control. *)
Definition weather_vane_mode (s : state) : bool :=
  vehicle_status_s.is_vtol (_vehicle_status s)
  && vehicle_attitude_setpoint_s.disable_mc_yaw_control (_v_att_sp s)
  && (vehicle_control_mode_s.flag_control_velocity_enabled (_v_control_mode s)
      || vehicle_control_mode_s.flag_control_auto_enabled (_v_control_mode s)).

(** A control branch of [run]: what the controllers write, and the
    topics and the handles of the publications. *)
Definition keep_branch (s s' : state) : state :=
  (keep_call s s')
    <| _v_rates_sp := _v_rates_sp s' |> <| _v_rates_sp_pub := _v_rates_sp_pub s' |>
    <| _mixer := _mixer s' |> <| _actuators := _actuators s' |>
    <| _actuators_0_pub := _actuators_0_pub s' |>.

(** An iteration of [run] up to the estimate of the loop rate: a control
    branch, and the flag that the rattitude mode clears. *)
Definition keep_control (s s' : state) : state :=
  (keep_branch s s')
    <| _v_control_mode -> vehicle_control_mode_s.flag_control_attitude_enabled :=
         vehicle_control_mode_s.flag_control_attitude_enabled (_v_control_mode s') |>.

(** The estimate of the loop rate. *)
Definition keep_loop_rate (s s' : state) : state :=
  s <| dt_accumulator := dt_accumulator s' |> <| loop_counter := loop_counter s' |>
    <| _loop_update_rate_hz := _loop_update_rate_hz s' |>
    <| _lp_filters_d := _lp_filters_d s' |>.

(** One iteration of [run]. *)
Definition keep_iteration (s s' : state) : state :=
  keep_loop_rate (keep_control s s') s'.

(** A message that was published from actuator channels written and
    scaled just before, in a state that a control branch started in [s]
    can reach, with roll and yaw at zero on the test bench. *)
Definition from_channels (s : state) (m : orb_msg) : Prop :=
  exists c0 c1 c2 c3 (x : state),
    x = keep_branch s x
    /\ ((use_platform s =? 1) = true -> c0 = F32.zero /\ c2 = F32.zero)
    /\ In m (snd (publish_actuators (battery_scale (write_actuators c0 c1 c2 c3 x)))).

(** What a control branch started in [s] publishes: such messages, and
    messages on other topics than those of the actuators and of the UDE
    status. *)
Definition branch_output (s : state) (out : list orb_msg) : Prop :=
  forall m, In m out -> other_topic m \/ from_channels s m.


(** Flight termination applies: requested, and not a VTOL. *)
Definition terminating (s : state) : bool :=
  vehicle_control_mode_s.flag_control_termination_enabled (_v_control_mode s)
  && negb (vehicle_status_s.is_vtol (_vehicle_status s)).

(** The loop rate is estimated: disarmed, or shortly after the start. *)
Definition estimating (startup : bool) (s : state) : bool :=
  negb (vehicle_control_mode_s.flag_armed (_v_control_mode s)) || startup.

End Footprints.

(** The messages of [out] on the UDE status topic. *)
Definition ude_messages (out : list orb_msg) : list ude_s.t :=
  flat_map (fun m => match m with pub_ude u => [u] | _ => [] end) out.

(** The messages of [out] on the actuator topic. *)
Definition actuator_messages (out : list orb_msg) : list actuator_controls_s.t :=
  flat_map (fun m => match m with pub_actuators a => [a] | _ => [] end) out.

(** The roll, pitch, yaw and thrust channels of an actuator message are
    zero. *)
Definition channels_zero (a : actuator_controls_s.t) : Prop :=
  forall i, In i [0%nat; 1%nat; 2%nat; 3%nat] -> actuator_controls_s.get a i = F32.zero.






(* ================================================================== *)
(** ** The order of single-precision numbers, as integer keys

    A comparison of two numbers that are not NaN is the lexicographic
    comparison of their keys: the class ([-inf], negative, zero, positive,
    [+inf]), then the exponent and the mantissa, both negated for negative
    numbers.  Facts about [<] and [<=] then become linear integer
    arithmetic. *)

Module Key.

Definition rk (x : float) : Z :=
  match x with
  | S754_infinity true => 0
  | S754_finite true _ _ => 1
  | S754_zero _ => 2
  | S754_finite false _ _ => 3
  | S754_infinity false => 4
  | S754_nan => 5
  end.

Definition ke (x : float) : Z :=
  match x with
  | S754_finite true _ e => - e
  | S754_finite false _ e => e
  | _ => 0
  end.

Definition km (x : float) : Z :=
  match x with
  | S754_finite true m _ => Zneg m
  | S754_finite false m _ => Zpos m
  | _ => 0
  end.

Definition lt (x y : float) : Prop :=
  rk x < rk y \/ (rk x = rk y /\ (ke x < ke y \/ (ke x = ke y /\ km x < km y))).

Definition eq (x y : float) : Prop :=
  rk x = rk y /\ ke x = ke y /\ km x = km y.

Definition number (x : float) : Prop := rk x <> 5.

End Key.

(* ================================================================== *)
(** ** The rate integrator, axis by axis

    What [control_attitude_rates] leaves in entry [i] of [_rates_int],
    written as a function of the state on entry: the reset, the guarded
    integration step and the final limit. *)

Section RateIntegrator.

Context {L : Lib}.
Local Notation "'state'" := (MulticopterAttitudeControl L).

Definition rates_int_reset (s : state) (i : axis) : float :=
  if disarmed s then F32.zero else Vector3f.get (_rates_int s) i.

Definition rates_err (s : state) (i : axis) : float :=
  Vector3f.get (Vector3f.sub (_rates_sp s) (corrected_rates s)) i.

Definition rate_i_gain (s : state) (i : axis) : float :=
  Vector3f.get
    (Vector3f.emult (_rate_i s) (pid_attenuations (_tpa_breakpoint_i s) (_tpa_rate_i s) s)) i.

Definition rate_i_candidate (dt : float) (s : state) (i : axis) : float :=
  (rates_int_reset s i
   + rate_i_gain s i * anti_windup_error s i (rates_err s i) * dt)%f32.

Definition rates_int_integrated (dt : float) (s : state) (i : axis) : float :=
  if (_thrust_sp s >? MIN_TAKEOFF_THRUST)%f32 then
    let rate_i := rate_i_candidate dt s i in
    if F32.PX4_ISFINITE rate_i
       && (rate_i >? - Vector3f.get (_rate_int_lim s) i)%f32
       && (rate_i <? Vector3f.get (_rate_int_lim s) i)%f32
    then rate_i else rates_int_reset s i
  else rates_int_reset s i.

Definition rates_int_next (dt : float) (s : state) (i : axis) : float :=
  math.constrain (rates_int_integrated dt s i)
    (- Vector3f.get (_rate_int_lim s) i)%f32 (Vector3f.get (_rate_int_lim s) i).

End RateIntegrator.

(* ================================================================== *)
(** ** Vocabulary of the statements, and the inputs of the examples *)



Module Examples.

Import Ref.

Definition dt : float := F32.lit 1 100.

Definition disarm (s : MulticopterAttitudeControl lib) : MulticopterAttitudeControl lib :=
  s <| _v_control_mode -> vehicle_control_mode_s.flag_armed := false |>.


(** Disarmed, thrust setpoint 0.5, a roll rate error of 1 rad/s. *)
Definition disarmed_with_thrust : MulticopterAttitudeControl lib :=
  disarm init <| _thrust_sp := F32.lit 5 10 |>
              <| _rates_sp := mkVector3f F32.one F32.zero F32.zero |>.

(** As above, saturated in positive roll, the roll integrator at -0.5. *)
Definition disarmed_saturated : MulticopterAttitudeControl lib :=
  disarmed_with_thrust
    <| _saturation_status := saturation_status.mk true false false false false false |>
    <| _rates_int := mkVector3f (- F32.lit 5 10)%f32 F32.zero F32.zero |>.

(** Armed, thrust 0.5, saturated in positive roll with a positive roll
    error, the roll integrator at 0.25. *)
Definition armed_saturated : MulticopterAttitudeControl lib :=
  init <| _thrust_sp := F32.lit 5 10 |>
       <| _rates_sp := mkVector3f F32.one F32.zero F32.zero |>
       <| _saturation_status := saturation_status.mk true false false false false false |>
       <| _rates_int := mkVector3f (F32.lit 25 100) F32.zero F32.zero |>.

(** Disarmed on the ground: no thrust. *)
Definition disarmed_idle : MulticopterAttitudeControl lib :=
  disarm init <| _rates_int := mkVector3f (F32.lit 25 100) F32.zero F32.zero |>
              <| integral_ude := mkVector3f (F32.lit 25 100) F32.zero F32.zero |>.

(** Disarmed while the setpoint still asks for half thrust, rolling at
    1 rad/s. *)
Definition disarmed_flying : MulticopterAttitudeControl lib :=
  disarm init <| _v_att_sp -> vehicle_attitude_setpoint_s.thrust := F32.lit 5 10 |>
              <| _sensor_gyro := sensor_gyro_s.mk F32.one F32.zero F32.zero |>.

(** Armed, [control_attitude_ude] selected, yawing at 1 rad/s. *)
Definition yawing_ude : MulticopterAttitudeControl lib :=
  init <| switch_ude := 1 |>
       <| _sensor_gyro := sensor_gyro_s.mk F32.zero F32.zero F32.one |>.

(** The same on the test bench ([use_platform == 1]). *)
Definition platform_ude : MulticopterAttitudeControl lib :=
  yawing_ude <| use_platform := 1 |>.







End Examples.

(* ================================================================== *)
(** * Properties *)

(** ** Comparisons through keys *)

Section KeyFacts.

Import Key.

Lemma rk_range (x : float) :
  0 <= rk x <= 5
  /\ (rk x = 1 -> km x < 0)
  /\ (rk x = 3 -> 0 < km x)
  /\ (rk x <> 1 -> rk x <> 3 -> ke x = 0 /\ km x = 0).
Proof. destruct x as [[]|[]| |[] m e]; cbn; repeat split; lia. Qed.

Lemma compare_key (x y : float) :
  number x -> number y ->
  SFcompare x y =
  Some (match rk x ?= rk y with
        | Lt => Lt | Gt => Gt
        | Eq => match ke x ?= ke y with
                | Lt => Lt | Gt => Gt
                | Eq => km x ?= km y
                end
        end).
Proof.
  unfold number.
  destruct x as [[]|[]| |[] mx ex], y as [[]|[]| |[] my ey]; cbn; intros Hx Hy;
    try reflexivity; try congruence.
  rewrite Z.compare_opp. destruct (ex ?= ey) eqn:E; cbn.
  - apply Z.compare_eq in E. subst. rewrite Z.compare_refl. reflexivity.
  - rewrite Z.compare_antisym, E. reflexivity.
  - rewrite Z.compare_antisym, E. reflexivity.
Qed.

Lemma compare_nan_l (y : float) : SFcompare S754_nan y = None.
Proof. reflexivity. Qed.

Lemma compare_nan_r (x : float) : SFcompare x S754_nan = None.
Proof. destruct x as [[]|[]| |[] m e]; reflexivity. Qed.

Lemma not_number (x : float) : ~ number x -> x = S754_nan.
Proof. unfold number. destruct x as [[]|[]| |[] m e]; cbn; intros H; try reflexivity; lia. Qed.

Lemma ltb_true_iff (x y : float) :
  F32.ltb x y = true <-> number x /\ number y /\ lt x y.
Proof.
  unfold F32.ltb, SFltb.
  destruct (Z.eq_dec (rk x) 5) as [Hx|Hx].
  { rewrite (not_number x) by (unfold number; lia). cbn. unfold number.
    split; [discriminate | cbn; lia]. }
  destruct (Z.eq_dec (rk y) 5) as [Hy|Hy].
  { rewrite (not_number y) by (unfold number; lia). rewrite compare_nan_r.
    unfold number. split; [discriminate | cbn; lia]. }
  rewrite compare_key by assumption. unfold lt, number.
  destruct (Z.compare_spec (rk x) (rk y)); [ | split; [lia | reflexivity] | split; [discriminate | lia] ].
  destruct (Z.compare_spec (ke x) (ke y)); [ | split; [lia | reflexivity] | split; [discriminate | lia] ].
  destruct (Z.compare_spec (km x) (km y)); split; try discriminate; try reflexivity; lia.
Qed.

Lemma ltb_false_iff (x y : float) :
  F32.ltb x y = false <-> ~ number x \/ ~ number y \/ ~ lt x y.
Proof.
  destruct (F32.ltb x y) eqn:E.
  - apply ltb_true_iff in E. split; [discriminate | tauto].
  - split; [intros _ | reflexivity].
    destruct (Z.eq_dec (rk x) 5); [left; unfold number; lia | ].
    destruct (Z.eq_dec (rk y) 5); [right; left; unfold number; lia | ].
    right; right. intros Hlt.
    assert (F32.ltb x y = true) by (apply ltb_true_iff; unfold number; tauto).
    congruence.
Qed.

Lemma leb_true_iff (x y : float) :
  F32.leb x y = true <-> number x /\ number y /\ (lt x y \/ eq x y).
Proof.
  unfold F32.leb, SFleb.
  destruct (Z.eq_dec (rk x) 5) as [Hx|Hx].
  { rewrite (not_number x) by (unfold number; lia). cbn. unfold number.
    split; [discriminate | cbn; lia]. }
  destruct (Z.eq_dec (rk y) 5) as [Hy|Hy].
  { rewrite (not_number y) by (unfold number; lia). rewrite compare_nan_r.
    unfold number. split; [discriminate | cbn; lia]. }
  rewrite compare_key by assumption. unfold lt, eq, number.
  destruct (Z.compare_spec (rk x) (rk y)); [ | split; [lia | reflexivity] | split; [discriminate | lia] ].
  destruct (Z.compare_spec (ke x) (ke y)); [ | split; [lia | reflexivity] | split; [discriminate | lia] ].
  destruct (Z.compare_spec (km x) (km y)); split; try discriminate; try reflexivity; lia.
Qed.

Lemma leb_false_iff (x y : float) :
  F32.leb x y = false <-> ~ number x \/ ~ number y \/ ~ (lt x y \/ eq x y).
Proof.
  destruct (F32.leb x y) eqn:E.
  - apply leb_true_iff in E. split; [discriminate | tauto].
  - split; [intros _ | reflexivity].
    destruct (Z.eq_dec (rk x) 5); [left; unfold number; lia | ].
    destruct (Z.eq_dec (rk y) 5); [right; left; unfold number; lia | ].
    right; right. intros Hle.
    assert (F32.leb x y = true) by (apply leb_true_iff; unfold number; tauto).
    congruence.
Qed.

Lemma key_opp (x : float) :
  ((rk x = 5 /\ rk (F32.opp x) = 5) \/ (rk x <> 5 /\ rk (F32.opp x) = 4 - rk x))
  /\ ke (F32.opp x) = - ke x /\ km (F32.opp x) = - km x.
Proof. unfold F32.opp. destruct x as [[]|[]| |[] m e]; cbn; repeat split; lia. Qed.

Lemma key_abs (x : float) :
  ((rk x <= 1 /\ rk (F32.fabsf x) = 4 - rk x /\ ke (F32.fabsf x) = - ke x
    /\ km (F32.fabsf x) = - km x)
   \/ (2 <= rk x /\ rk (F32.fabsf x) = rk x /\ ke (F32.fabsf x) = ke x
       /\ km (F32.fabsf x) = km x)).
Proof. unfold F32.fabsf. destruct x as [[]|[]| |[] m e]; cbn; lia. Qed.

End KeyFacts.

(** Deciding facts about [<] and [<=]: every comparison becomes a statement
    about keys, every number that is compared is split into its classes,
    and [lia] closes each case. *)
Ltac key_atom a :=
  lazymatch a with
  | F32.opp ?b => key_atom b
  | F32.fabsf ?b => key_atom b
  | S754_zero _ => fail
  | S754_infinity _ => fail
  | S754_nan => fail
  | S754_finite _ _ _ => fail
  | F32.zero => fail
  | _ =>
    let x := fresh "x" in
    let E := fresh "E" in
    remember a as x eqn:E; clear E;
    destruct x as [[]|[]| |[] ? ?]
  end.

Ltac f32_order :=
  unfold F32.gtb, F32.geb in *;
  repeat match goal with
  | H : F32.ltb _ _ = true |- _ => apply ltb_true_iff in H
  | H : F32.ltb _ _ = false |- _ => apply ltb_false_iff in H
  | H : F32.leb _ _ = true |- _ => apply leb_true_iff in H
  | H : F32.leb _ _ = false |- _ => apply leb_false_iff in H
  | |- F32.ltb _ _ = true => apply ltb_true_iff
  | |- F32.ltb _ _ = false => apply ltb_false_iff
  | |- F32.leb _ _ = true => apply leb_true_iff
  | |- F32.leb _ _ = false => apply leb_false_iff
  end;
  unfold Key.number, Key.lt, Key.eq in *;
  repeat match goal with
  | |- context [Key.rk ?a] => key_atom a
  | _ : context [Key.rk ?a] |- _ => key_atom a
  end;
  unfold F32.opp, F32.fabsf, F32.zero in *;
  cbn [SFopp SFabs Key.rk Key.ke Key.km negb] in *;
  lia.

Lemma is_nan_false_iff (x : float) : F32.is_nan x = false <-> Key.number x.
Proof.
  unfold Key.number. destruct x as [[]|[]| |[] m e]; cbn; split; intros; try reflexivity;
    try discriminate; lia.
Qed.

Lemma finite_number (x : float) : F32.PX4_ISFINITE x = true -> Key.number x.
Proof.
  unfold Key.number, F32.PX4_ISFINITE.
  destruct x as [[]|[]| |[] m e]; cbn; intros; try discriminate; lia.
Qed.

Lemma finite_rk (x : float) : F32.PX4_ISFINITE x = true <-> 1 <= Key.rk x <= 3.
Proof.
  unfold F32.PX4_ISFINITE.
  destruct x as [[]|[]| |[] m e]; cbn; split; intros; try reflexivity; try discriminate; lia.
Qed.

(** [constrain] returns one of its three arguments. *)
Lemma constrain_cases (v lo hi : float) :
  (F32.ltb v lo = true /\ math.constrain v lo hi = lo)
  \/ (F32.ltb v lo = false /\ F32.ltb hi v = true /\ math.constrain v lo hi = hi)
  \/ (F32.ltb v lo = false /\ F32.ltb hi v = false /\ math.constrain v lo hi = v).
Proof.
  unfold math.constrain, F32.gtb.
  destruct (F32.ltb v lo); [left; split; reflexivity | right].
  destruct (F32.ltb hi v); [left | right]; repeat split; reflexivity.
Qed.

Section RateControllerFacts.

Context {L : Lib}.
Local Notation "'state'" := (MulticopterAttitudeControl L).

(** The integration step of one axis rewrites [_rates_int] only. *)
Lemma integrate_rate_eq (dt : float) (g e : Vector3f) (s : state) (j : axis) :
  integrate_rate dt g e s j =
  s <| _rates_int :=
    Vector3f.set (_rates_int s) j
      (let err := anti_windup_error s j (Vector3f.get e j) in
       let rate_i := (Vector3f.get (_rates_int s) j + Vector3f.get g j * err * dt)%f32 in
       if F32.PX4_ISFINITE rate_i
          && (rate_i >? - Vector3f.get (_rate_int_lim s) j)%f32
          && (rate_i <? Vector3f.get (_rate_int_lim s) j)%f32
       then rate_i else Vector3f.get (_rates_int s) j) |>.
Proof.
  unfold integrate_rate. cbv zeta.
  destruct (_ && _); [reflexivity | ].
  destruct j; reflexivity.
Qed.

(** [_rates_int] after [control_attitude_rates], entry by entry. *)
Lemma rates_int_after (dt : float) (s : state) (i : axis) :
  Vector3f.get (_rates_int (control_attitude_rates dt s)) i = rates_int_next dt s i.
Proof.
  unfold rates_int_next, rates_int_integrated, rate_i_candidate, rates_int_reset,
    rate_i_gain, rates_err, control_attitude_rates.
  destruct (LowPassFilter2p_apply _ _) as [f0 r0].
  destruct (LowPassFilter2p_apply _ _) as [f1 r1].
  destruct (LowPassFilter2p_apply _ _) as [f2 r2].
  destruct (disarmed s) eqn:Hd;
    cbn -[integrate_rate]; rewrite ?integrate_rate_eq;
    (destruct (_ >? MIN_TAKEOFF_THRUST)%f32; [ rewrite ?integrate_rate_eq | ]);
    destruct i; reflexivity.
Qed.


End RateControllerFacts.

(* ================================================================== *)
(** ** The rate integrator *)

Section RateIntegratorTheorems.

Context {L : Lib}.
Local Notation "'state'" := (MulticopterAttitudeControl L).


End RateIntegratorTheorems.




(* ================================================================== *)
(** ** Anti-windup *)

(** Adding a product with a zero factor changes no value: the sum is NaN
    or compares equal to the first summand. *)
Lemma add_zero_product (x g dt : float) :
  let c := (x + g * F32.zero * dt)%f32 in
  Key.number c -> Key.eq c x.
Proof.
  unfold Key.number, Key.eq, F32.add, F32.mul, F32.zero.
  destruct g as [[]|[]| |[] mg eg], dt as [[]|[]| |[] md ed], x as [[]|[]| |[] mx ex];
    cbn; intros H; try (exfalso; apply H; reflexivity); repeat split; reflexivity.
Qed.

Section AntiWindup.

Context {L : Lib}.
Local Notation "'state'" := (MulticopterAttitudeControl L).

Lemma anti_windup_positive (s : state) (i : axis) (err : float) :
  positive_saturation s i = true -> (err >? F32.zero)%f32 = true ->
  anti_windup_error s i err = F32.zero.
Proof.
  intros Hs He. unfold anti_windup_error, math.min, math.max. rewrite Hs.
  assert (H : (err <? F32.zero)%f32 = false) by f32_order.
  rewrite H. destruct (negative_saturation s i); [ | reflexivity].
  destruct (F32.zero >? F32.zero)%f32; reflexivity.
Qed.

Lemma anti_windup_negative (s : state) (i : axis) (err : float) :
  negative_saturation s i = true -> (err <? F32.zero)%f32 = true ->
  anti_windup_error s i err = F32.zero.
Proof.
  intros Hs He. unfold anti_windup_error, math.min, math.max. rewrite Hs.
  assert (H : (err >? F32.zero)%f32 = false) by f32_order.
  destruct (positive_saturation s i); rewrite ?He, H; reflexivity.
Qed.

(** With a zero error entering the integral, the value that reaches the
    final limit compares equal to the entry value. *)
Lemma integrated_zero_error (dt : float) (s : state) (i : axis) :
  disarmed s = false ->
  anti_windup_error s i (rates_err s i) = F32.zero ->
  rates_int_integrated dt s i = Vector3f.get (_rates_int s) i
  \/ Key.eq (rates_int_integrated dt s i) (Vector3f.get (_rates_int s) i).
Proof.
  intros Hd He. unfold rates_int_integrated, rate_i_candidate, rates_int_reset.
  rewrite Hd, He.
  destruct (_ >? MIN_TAKEOFF_THRUST)%f32; [ | left; reflexivity].
  cbv zeta. destruct (F32.PX4_ISFINITE _) eqn:Hf; cbn [andb]; [ | left; reflexivity].
  destruct (_ && _); [ | left; reflexivity].
  right. apply add_zero_product, finite_number, Hf.
Qed.

(** C2 (amended): on a vehicle that is armed and rotary-wing, if the
    positive-saturation flag of an axis is set, the rate error of that axis
    is positive and the integrator of that axis is not below the negative
    of its limit, then one call of [control_attitude_rates] does not
    increase the integrator of that axis; symmetrically, with the
    negative-saturation flag set, a negative error and an integrator not
    above its limit, the call does not decrease it.  Neither the gain, nor
    [dt], nor the thrust matter. *)
Theorem saturated_integrator_holds (dt : float) (s : state) (i : axis) :
  disarmed s = false ->
  let old := Vector3f.get (_rates_int s) i in
  let new := Vector3f.get (_rates_int (control_attitude_rates dt s)) i in
  let lim := Vector3f.get (_rate_int_lim s) i in
  (positive_saturation s i = true -> (rates_err s i >? F32.zero)%f32 = true ->
   (old <? - lim)%f32 = false -> (new >? old)%f32 = false)
  /\ (negative_saturation s i = true -> (rates_err s i <? F32.zero)%f32 = true ->
      (old >? lim)%f32 = false -> (new <? old)%f32 = false).
Proof.
  intros Hd old new lim. subst new. rewrite rates_int_after. unfold rates_int_next.
  fold lim.
  split; intros Hs He Ho.
  - pose proof (integrated_zero_error dt s i Hd (anti_windup_positive s i _ Hs He)) as Hv.
    fold old in Hv. clearbody old lim. set (v := rates_int_integrated dt s i) in *.
    clearbody v. clear He.
    destruct (constrain_cases v (- lim)%f32 lim) as [[H1 ->] | [[H1 [H2 ->]] | [H1 [H2 ->]]]];
      (destruct Hv as [-> | Hv]; f32_order).
  - pose proof (integrated_zero_error dt s i Hd (anti_windup_negative s i _ Hs He)) as Hv.
    fold old in Hv. clearbody old lim. set (v := rates_int_integrated dt s i) in *.
    clearbody v. clear He.
    destruct (constrain_cases v (- lim)%f32 lim) as [[H1 ->] | [[H1 [H2 ->]] | [H1 [H2 ->]]]];
      (destruct Hv as [-> | Hv]; f32_order).
Qed.

End AntiWindup.

Lemma saturated_integrator_holds_witness :
  disarmed Examples.armed_saturated = false
  /\ positive_saturation Examples.armed_saturated AXIS_INDEX_ROLL = true
  /\ (rates_err Examples.armed_saturated AXIS_INDEX_ROLL >? F32.zero)%f32 = true
  /\ (Vector3f.get
        (_rates_int (control_attitude_rates Examples.dt Examples.armed_saturated))
        AXIS_INDEX_ROLL
      >? Vector3f.get (_rates_int Examples.armed_saturated) AXIS_INDEX_ROLL)%f32 = false.
Proof.
  split; [reflexivity | split; [reflexivity | split; [reflexivity | ]]].
  destruct (saturated_integrator_holds Examples.dt Examples.armed_saturated AXIS_INDEX_ROLL
              eq_refl) as [H _].
  apply H; reflexivity.
Defined.

(** C2 as stated fails: disarmed with a thrust setpoint of 0.5, saturated
    in positive roll with a positive roll error, unit gain and [dt] of
    0.01 s, the call raises the roll integrator from -0.5 to 0. *)
Lemma disarmed_saturated_integrator_rises :
  positive_saturation Examples.disarmed_saturated AXIS_INDEX_ROLL = true
  /\ (rates_err Examples.disarmed_saturated AXIS_INDEX_ROLL >? F32.zero)%f32 = true
  /\ (F32.zero <=? rate_i_gain Examples.disarmed_saturated AXIS_INDEX_ROLL)%f32 = true
  /\ (Examples.dt >? F32.zero)%f32 = true
  /\ (_thrust_sp Examples.disarmed_saturated >? MIN_TAKEOFF_THRUST)%f32 = true
  /\ Vector3f.get (_rates_int Examples.disarmed_saturated) AXIS_INDEX_ROLL
     = (- F32.lit 5 10)%f32
  /\ Vector3f.get
       (_rates_int (control_attitude_rates Examples.dt Examples.disarmed_saturated))
       AXIS_INDEX_ROLL = F32.zero.
Proof. repeat split; vm_compute; reflexivity. Qed.

(* ================================================================== *)
(** ** What each call leaves alone *)

(** Splits the goal on the next test or pair it is stuck on. *)
Ltac split_branch :=
  match goal with
  | |- context [if ?b then _ else _] =>
    lazymatch b with
    | context [if _ then _ else _] => fail
    | context [match _ with _ => _ end] => fail
    | _ => destruct b eqn:?
    end
  | |- context [match ?p with (_, _) => _ end] =>
    lazymatch p with
    | context [if _ then _ else _] => fail
    | _ => destruct p eqn:?
    end
  | |- context [match ?o with Some _ => _ | None => _ end] => destruct o eqn:?
  end.

Ltac branches := repeat split_branch.

(** Evaluates record updates and projections, and leaves the arithmetic
    as it is written. *)
Ltac norm :=
  lazy -[F32.add F32.sub F32.mul F32.div F32.opp F32.sqrt F32.ltb F32.gtb F32.leb F32.geb
         F32.of_Z F32.lit F32.PX4_ISFINITE F32.fabsf F32.fminf F32.fmaxf F32.zero F32.one
         math.constrain math.min math.max math.signNoZero
         MIN_TAKEOFF_THRUST MOTOR_ALPHA TPA_RATE_LOWER_LIMIT Z.eqb Z.add].

Section FootprintFacts.

Context {L : Lib}.
Local Notation "'state'" := (MulticopterAttitudeControl L).

Lemma platform_reference_footprint dt now (s : state) r :
  fst (platform_reference dt now s r) = keep_platform s (fst (platform_reference dt now s r)).
Proof.
  unfold platform_reference, keep_platform. cbv zeta; branches; reflexivity.
Qed.

Lemma limit_rates_footprint (s : state) :
  limit_rates s = s <| _rates_sp := _rates_sp (limit_rates s) |>.
Proof. reflexivity. Qed.

Lemma weather_vane_footprint (s : state) :
  weather_vane s =
  s <| _rates_sp := _rates_sp (weather_vane s) |> <| _rates_int := _rates_int (weather_vane s) |>.
Proof. unfold weather_vane. branches; reflexivity. Qed.

Lemma log_reference_footprint r now (s : state) :
  log_reference r now s = s <| _ude := ude_logged (_ude s) (_ude (log_reference r now s)) |>.
Proof. reflexivity. Qed.

(** [control_attitude] writes the setpoint copy, the thrust setpoint, the
    rate setpoint, the yaw integrator (in weather-vane mode), the clock
    and filters of the bench trajectory, and its log fields. *)
Lemma control_attitude_footprint fresh dt (s : state) :
  control_attitude fresh dt s = keep_attitude s (control_attitude fresh dt s).
Proof.
  unfold control_attitude. cbv zeta.
  set (s1 := vehicle_attitude_setpoint_poll fresh s).
  assert (E1 : s1 = s <| _v_att_sp := _v_att_sp s1 |>).
  { subst s1. unfold vehicle_attitude_setpoint_poll. destruct fresh; reflexivity. }
  clearbody s1.
  set (now := Eulerf_of_Quatf _).
  match goal with |- context [if ?b then ?p else ?q] =>
    assert (E3 : fst (if b then p else q) =
                 keep_platform s1 (fst (if b then p else q))
                   <| _thrust_sp := _thrust_sp (fst (if b then p else q)) |>);
    [ destruct b; [ rewrite platform_reference_footprint at 1; reflexivity | reflexivity ] | ];
    destruct (if b then p else q) as [s3 r3]
  end.
  cbn [fst] in E3.
  match goal with
  | |- context [apply_update (mk_update _rates_sp ?f) s3] =>
    set (s4 := apply_update (mk_update _rates_sp f) s3) in *
  end.
  assert (E4 : s4 = s3 <| _rates_sp := _rates_sp s4 |>) by reflexivity.
  clearbody s4.
  pose proof (limit_rates_footprint s4) as E5. set (s5 := limit_rates s4) in *. clearbody s5.
  pose proof (weather_vane_footprint s5) as E6. set (s6 := weather_vane s5) in *. clearbody s6.
  match goal with
  | |- context [if ?b then ?p else s6] => set (s7 := if b then p else s6)
  end.
  assert (E7 : s7 = s6 <| _rates_sp := _rates_sp s7 |>).
  { subst s7. destruct (_ && _); reflexivity. }
  clearbody s7.
  pose proof (log_reference_footprint r3 now s7) as E8.
  set (s8 := log_reference r3 now s7) in *. clearbody s8.
  clearbody now.
  rewrite E8, E7, E6, E5, E4, E3, E1.
  reflexivity.
Qed.

(** [control_attitude_rates] writes the integrator, the torque command,
    the rate history with its filters, and two log fields: the rates, and
    the yaw entry of [u_total], which takes the yaw torque command. *)
Lemma control_attitude_rates_footprint dt (s : state) :
  control_attitude_rates dt s = keep_rates s (control_attitude_rates dt s).
Proof.
  unfold control_attitude_rates.
  destruct (LowPassFilter2p_apply _ _) as [f0 r0].
  destruct (LowPassFilter2p_apply _ _) as [f1 r1].
  destruct (LowPassFilter2p_apply _ _) as [f2 r2].
  cbv zeta.
  set (s0 := if disarmed s then _ else s).
  assert (E0 : s0 = s <| _rates_int := _rates_int s0 |>)
    by (subst s0; destruct (disarmed s); reflexivity).
  clearbody s0.
  set (rates := corrected_rates s0). clearbody rates.
  set (gp := Vector3f.emult (_rate_p s0) _). clearbody gp.
  set (gi := Vector3f.emult (_rate_i s0) _). clearbody gi.
  set (gd := Vector3f.emult (_rate_d s0) _). clearbody gd.
  set (err := Vector3f.sub (_rates_sp s0) rates). clearbody err.
  match goal with |- context [fold_left (integrate_rate dt gi err) axes3 ?x] =>
    set (s1 := x) in *;
    assert (E1 : s1 = s0 <| _att_control := _att_control s1 |>
                 <| _rates_prev := _rates_prev s1 |>
                 <| _rates_prev_filtered := _rates_prev_filtered s1 |>
                 <| _lp_filters_d := _lp_filters_d s1 |>) by reflexivity;
    clearbody s1
  end.
  match goal with |- context [limit_integrator ?x] =>
    set (s2 := x) in *;
    assert (E2 : s2 = s1 <| _rates_int := _rates_int s2 |>)
      by (subst s2; destruct (_ >? _)%f32;
          [ cbn [fold_left axes3]; rewrite !integrate_rate_eq | ]; reflexivity);
    clearbody s2
  end.
  set (s3 := limit_integrator s2) in *.
  assert (E3 : s3 = s2 <| _rates_int := _rates_int s3 |>) by reflexivity.
  clearbody s3.
  rewrite E3, E2, E1, E0; reflexivity.
Qed.

End FootprintFacts.

(* ================================================================== *)
(** ** The UDE laws, statement by statement *)

Section LawFacts.

Context {L : Lib}.
Local Notation "'state'" := (MulticopterAttitudeControl L).

Lemma for_each_cons {I} (i : I) l body (x : state) :
  for_each (i :: l) body x = for_each l body (body x i).
Proof. reflexivity. Qed.

Lemma for_each_nil {I} (body : state -> I -> state) (x : state) : for_each [] body x = x.
Proof. reflexivity. Qed.

Lemma keep_law_refl (s : state) : s = keep_law s s.
Proof. reflexivity. Qed.

Lemma keep_ude_law (s s' : state) : s' = keep_ude s s' -> s' = keep_law s s'.
Proof.
  intros H. unfold keep_law, keep_int. rewrite <- H. reflexivity.
Qed.

Lemma keep_int_law (s s' : state) : s' = keep_int s s' -> s' = keep_law s s'.
Proof.
  intros H. unfold keep_law.
  assert (E : keep_ude s s' = s) by (rewrite H; reflexivity).
  rewrite E. exact H.
Qed.

Lemma keep_law_trans (s0 s1 s2 : state) :
  s1 = keep_law s0 s1 -> s2 = keep_law s1 s2 -> s2 = keep_law s0 s2.
Proof. intros H1 H2. rewrite H2, H1. reflexivity. Qed.

Lemma keep_law_if (c : bool) (s0 x y : state) :
  x = keep_law s0 x -> y = keep_law s0 y ->
  (if c then y else x) = keep_law s0 (if c then y else x).
Proof. intros Hx Hy. destruct c; assumption. Qed.

Lemma settled_refl (s : state) : integral_settled s s.
Proof. split; [reflexivity | intros i; left; reflexivity]. Qed.

Lemma settled_trans (s0 s1 s2 : state) :
  integral_settled s0 s1 -> integral_settled s1 s2 -> integral_settled s0 s2.
Proof.
  intros [L1 H1] [L2 H2]. split; [congruence | ].
  intros i. specialize (H1 i). specialize (H2 i). rewrite L1 in H2.
  destruct H2 as [E | H2]; [rewrite E; exact H1 | right; exact H2].
Qed.

Lemma keep_ude_settled (x y : state) : y = keep_ude x y -> integral_settled x y.
Proof.
  intros H. rewrite H. split; [reflexivity | intros i; left; reflexivity].
Qed.

Lemma commit_settled (i : idx2) (c : float) (x : state) :
  integral_settled x (commit_integral_ude i c x).
Proof.
  unfold commit_integral_ude.
  destruct (F32.PX4_ISFINITE c) eqn:Hf; cbn [andb]; [ | apply settled_refl].
  destruct (c >? - Vector3f.get (integral_limit_ude x) i)%f32 eqn:Hl;
    cbn [andb]; [ | apply settled_refl].
  destruct (c <? Vector3f.get (integral_limit_ude x) i)%f32 eqn:Hu;
    [ | apply settled_refl].
  split; [reflexivity | ].
  intros j. destruct i, j; first [left; reflexivity | right; auto].
Qed.

Lemma settled_if (c : bool) (s0 x y : state) :
  integral_settled s0 x -> integral_settled s0 y ->
  integral_settled s0 (if c then y else x).
Proof. intros Hx Hy. destruct c; assumption. Qed.

End LawFacts.

(** Unrolls the loops of a law. *)
Ltac unroll := rewrite ?for_each_cons, ?for_each_nil.

(** Sets the bodies of the loops aside, so that unfolding a law copies
    none of them. *)
Ltac protect_bodies :=
  repeat match goal with
  | |- context [@for_each ?LL ?I ?l ?body] =>
    lazymatch body with
    | (fun _ => _) => let b := fresh "body" in set (b := body)
    end
  end.

(** Names the state [t] that one statement makes of the state [x], with
    what the statement left alone and what the law left alone up to here
    ([keep_law] from [base]). *)
Ltac name_statement base t x :=
  let y := fresh "s" in
  let H := fresh "Hs" in
  let B := fresh "Hb" in
  let S := fresh "Hi" in
  assert (H : t = keep_ude x t) by abstract (norm; branches; norm; reflexivity);
  lazymatch goal with
  | Hx : x = keep_law base x, Sx : integral_settled base x |- _ =>
    pose proof (keep_law_trans base x t Hx (keep_ude_law x t H)) as B;
    pose proof (settled_trans base x t Sx (keep_ude_settled x t H)) as S
  end;
  set (y := t) in *; clearbody y.

Ltac name_integral base t x :=
  let y := fresh "s" in
  let H := fresh "Hs" in
  let B := fresh "Hb" in
  let S := fresh "Hi" in
  assert (H : t = keep_int x t) by abstract (norm; branches; norm; reflexivity);
  lazymatch goal with
  | Hx : x = keep_law base x, Sx : integral_settled base x |- _ =>
    pose proof (keep_law_trans base x t Hx (keep_int_law x t H)) as B;
    pose proof (settled_trans base x t Sx (commit_settled _ _ x)) as S
  end;
  set (y := t) in *; clearbody y.

Ltac step base :=
  match goal with
  | Hb := ?b |- context [?Hb' ?x ?i] =>
    constr_eq Hb Hb'; is_var x;
    lazymatch b with
    | context [commit_integral_ude] => name_integral base (Hb x i) x
    | _ => name_statement base (Hb x i) x
    end
  | |- context [@apply_update (MulticopterAttitudeControl _) ?E ?u ?x] =>
    is_var x;
    name_statement base (@apply_update (MulticopterAttitudeControl _) E u x) x
  | |- context [if ?c then ?y else ?x] =>
    is_var x; is_var y;
    let z := fresh "s" in
    let H := fresh "Hs" in
    let B := fresh "Hb" in
    let S := fresh "Hi" in
    lazymatch goal with
    | Hx : x = keep_law base x, Hy : y = keep_law base y,
      Sx : integral_settled base x, Sy : integral_settled base y |- _ =>
      pose proof (keep_law_if c base x y Hx Hy) as B;
      pose proof (settled_if c base x y Sx Sy) as S
    end;
    remember (if c then y else x) as z eqn:H
  end.

(** Rewrites the last state back to the first, statement by statement. *)
Ltac unchain :=
  repeat match goal with
  | H : ?y = keep_law _ ?y |- _ => clear H
  | H : integral_settled _ _ |- _ => clear H
  end;
  repeat match goal with
  | H : ?y = _ |- _ => is_var y; rewrite H; clear H
  end.

Ltac law_steps :=
  protect_bodies; cbv zeta; unfold axes3; unroll;
  match goal with
  | |- context [control_attitude_rates ?dt ?x] =>
    let s2 := fresh "base" in
    set (s2 := control_attitude_rates dt x); clearbody s2;
    pose proof (keep_law_refl s2);
    pose proof (settled_refl s2);
    repeat step s2;
    split; [assumption | split; [ | assumption]];
    let Hc := fresh "Hc" in
    intros Hc; unchain; norm; rewrite ?Hc; branches; first [reflexivity | congruence]
  end.

Section Laws.

Context {L : Lib}.
Local Notation "'state'" := (MulticopterAttitudeControl L).

(** After its calls of [control_attitude] and [control_attitude_rates],
    [control_attitude_ude] writes roll and pitch of its torque terms and of
    the integral only, the integral not at all unless the thrust
    setpoint exceeds the minimum, and then only with settled entries. *)
Lemma control_attitude_ude_law fresh dt (s : state) :
  let s2 := ude_prelude ude_reset fresh dt s in
  let s' := control_attitude_ude fresh dt s in
  s' = keep_law s2 s'
  /\ ((ude_s.thrust_sp (_ude s2) >? MIN_TAKEOFF_THRUST)%f32 = false ->
      integral_ude s' = integral_ude s2)
  /\ integral_settled s2 s'.
Proof.
  cbv beta delta [control_attitude_ude ude_prelude ude_reset]. law_steps.
Qed.

Lemma control_attitude_cascade_ude_law fresh dt (s : state) :
  let s2 := ude_prelude ude_reset fresh dt s in
  let s' := control_attitude_cascade_ude fresh dt s in
  s' = keep_law s2 s'
  /\ ((ude_s.thrust_sp (_ude s2) >? MIN_TAKEOFF_THRUST)%f32 = false ->
      integral_ude s' = integral_ude s2)
  /\ integral_settled s2 s'.
Proof.
  cbv beta delta [control_attitude_cascade_ude ude_prelude ude_reset error_for_attitude_rate].
  law_steps.
Qed.

Lemma control_attitude_m_ude_law fresh dt (s : state) :
  let s2 := ude_prelude m_ude_reset fresh dt s in
  let s' := control_attitude_m_ude fresh dt s in
  s' = keep_law s2 s'
  /\ ((ude_s.thrust_sp (_ude s2) >? MIN_TAKEOFF_THRUST)%f32 = false ->
      integral_ude s' = integral_ude s2)
  /\ integral_settled s2 s'.
Proof.
  cbv beta delta [control_attitude_m_ude ude_prelude m_ude_reset error_for_attitude_rate].
  law_steps.
Qed.

End Laws.

(* ================================================================== *)
(** ** The UDE laws, as a whole *)

Section CallFacts.

Context {L : Lib}.
Local Notation "'state'" := (MulticopterAttitudeControl L).

Lemma keep_call_trans (s0 s1 s2 : state) :
  s1 = keep_call s0 s1 -> s2 = keep_call s1 s2 -> s2 = keep_call s0 s2.
Proof. intros H1 H2. rewrite H2, H1. reflexivity. Qed.

Lemma keep_attitude_call (s s' : state) : s' = keep_attitude s s' -> s' = keep_call s s'.
Proof. intros H. rewrite H. reflexivity. Qed.

Lemma keep_rates_call (s s' : state) : s' = keep_rates s s' -> s' = keep_call s s'.
Proof. intros H. rewrite H. reflexivity. Qed.

Lemma keep_law_call (s s' : state) : s' = keep_law s s' -> s' = keep_call s s'.
Proof. intros H. rewrite H. reflexivity. Qed.

Lemma ude_reset_call (s : state) : ude_reset s = keep_call s (ude_reset s).
Proof. unfold ude_reset. destruct (disarmed s); reflexivity. Qed.

Lemma m_ude_reset_call (s : state) : m_ude_reset s = keep_call s (m_ude_reset s).
Proof. unfold m_ude_reset. destruct (_ || _); reflexivity. Qed.

(** The two calls a law starts with. *)
Lemma ude_prelude_call reset fresh dt (s : state) :
  reset s = keep_call s (reset s) ->
  ude_prelude reset fresh dt s = keep_call s (ude_prelude reset fresh dt s).
Proof.
  intros H. unfold ude_prelude.
  eapply keep_call_trans; [ | apply keep_rates_call, control_attitude_rates_footprint ].
  eapply keep_call_trans; [ | apply keep_attitude_call, control_attitude_footprint ].
  exact H.
Qed.

(** What a field holds after the two calls, when neither writes it. *)
Lemma ude_prelude_keeps {A} (f : state -> A) reset fresh dt (s : state) :
  (forall a b, f (keep_attitude a b) = f a) ->
  (forall a b, f (keep_rates a b) = f a) ->
  f (ude_prelude reset fresh dt s) = f (reset s).
Proof.
  intros Ha Hr. unfold ude_prelude.
  rewrite control_attitude_rates_footprint, Hr, control_attitude_footprint, Ha.
  reflexivity.
Qed.

(** [control_attitude] logs the thrust setpoint it leaves. *)
Lemma control_attitude_logs_thrust fresh dt (s : state) :
  ude_s.thrust_sp (_ude (control_attitude fresh dt s)) = _thrust_sp (control_attitude fresh dt s).
Proof.
  unfold control_attitude. cbv zeta.
  match goal with
  | |- context [let '(_, _) := ?p in _] => destruct p as [s3 r3]
  end.
  reflexivity.
Qed.

Lemma ude_prelude_thrust reset fresh dt (s : state) :
  ude_s.thrust_sp (_ude (ude_prelude reset fresh dt s))
  = _thrust_sp (ude_prelude reset fresh dt s).
Proof.
  unfold ude_prelude.
  rewrite control_attitude_rates_footprint.
  change (ude_s.thrust_sp (_ude (control_attitude fresh dt (reset s)))
          = _thrust_sp (control_attitude fresh dt (reset s))).
  apply control_attitude_logs_thrust.
Qed.

(** [control_attitude_rates] ends with the yaw torque command in the yaw
    entry of [u_total]. *)
Lemma control_attitude_rates_yaw dt (s : state) :
  Vector3f.get (ude_s.u_total (_ude (control_attitude_rates dt s))) AXIS_INDEX_YAW
  = Vector3f.get (_att_control (control_attitude_rates dt s)) AXIS_INDEX_YAW.
Proof. rewrite control_attitude_rates_footprint. reflexivity. Qed.

(** The three laws, by number. *)
Lemma ude_law_cases n law :
  ude_law n = Some law ->
  (n = 1 /\ law = control_attitude_ude)
  \/ (n = 2 /\ law = control_attitude_cascade_ude)
  \/ (n = 3 /\ law = control_attitude_m_ude).
Proof.
  unfold ude_law.
  destruct (n =? 1) eqn:E1; [apply Z.eqb_eq in E1; intros [= <-]; auto | ].
  destruct (n =? 2) eqn:E2; [apply Z.eqb_eq in E2; intros [= <-]; auto | ].
  destruct (n =? 3) eqn:E3; [apply Z.eqb_eq in E3; intros [= <-]; auto | ].
  discriminate.
Qed.

(** Every law is its two calls followed by statements that write roll and
    pitch of the torque terms and of the integral. *)
Lemma ude_law_split n law fresh dt (s : state) :
  ude_law n = Some law ->
  exists reset,
    (reset = ude_reset \/ reset = m_ude_reset)
    /\ (n = 3 -> reset = m_ude_reset)
    /\ (n <> 3 -> reset = ude_reset)
    /\ law fresh dt s = keep_law (ude_prelude reset fresh dt s) (law fresh dt s)
    /\ ((_thrust_sp (law fresh dt s) >? MIN_TAKEOFF_THRUST)%f32 = false ->
        integral_ude (law fresh dt s) = integral_ude (reset s)).
Proof.
  intros H. apply ude_law_cases in H.
  assert (Hint : forall reset, integral_ude (ude_prelude reset fresh dt s)
                               = integral_ude (reset s))
    by (intros; apply (ude_prelude_keeps integral_ude); reflexivity).
  destruct H as [[-> ->] | [[-> ->] | [-> ->]]].
  - destruct (control_attitude_ude_law fresh dt s) as (Hk & Hi & _). cbv zeta in Hk, Hi.
    exists ude_reset.
    split; [left; reflexivity | ].
    split; [discriminate | ].
    split; [reflexivity | ].
    split; [exact Hk | ].
    intros Hc. rewrite <- (Hint ude_reset). apply Hi. rewrite ude_prelude_thrust.
    rewrite Hk in Hc. exact Hc.
  - destruct (control_attitude_cascade_ude_law fresh dt s) as (Hk & Hi & _). cbv zeta in Hk, Hi.
    exists ude_reset.
    split; [left; reflexivity | ].
    split; [discriminate | ].
    split; [reflexivity | ].
    split; [exact Hk | ].
    intros Hc. rewrite <- (Hint ude_reset). apply Hi. rewrite ude_prelude_thrust.
    rewrite Hk in Hc. exact Hc.
  - destruct (control_attitude_m_ude_law fresh dt s) as (Hk & Hi & _). cbv zeta in Hk, Hi.
    exists m_ude_reset.
    split; [right; reflexivity | ].
    split; [reflexivity | ].
    split; [intros Hn; exfalso; apply Hn; reflexivity | ].
    split; [exact Hk | ].
    intros Hc. rewrite <- (Hint m_ude_reset). apply Hi. rewrite ude_prelude_thrust.
    rewrite Hk in Hc. exact Hc.
Qed.

(** A law writes nothing but the fields of [keep_call]. *)
Lemma ude_law_call n law fresh dt (s : state) :
  ude_law n = Some law ->
  law fresh dt s = keep_call s (law fresh dt s).
Proof.
  intros H. destruct (ude_law_split n law fresh dt s H) as (reset & Hr & _ & _ & Hk & _).
  eapply keep_call_trans; [ | apply keep_law_call, Hk ].
  apply ude_prelude_call. destruct Hr as [-> | ->];
    [apply ude_reset_call | apply m_ude_reset_call].
Qed.

(** After a law, the yaw entry of [u_total] is the yaw torque command of
    the rate controller. *)
Lemma ude_law_yaw n law fresh dt (s : state) :
  ude_law n = Some law ->
  Vector3f.get (ude_s.u_total (_ude (law fresh dt s))) AXIS_INDEX_YAW
  = Vector3f.get (_att_control (law fresh dt s)) AXIS_INDEX_YAW.
Proof.
  intros H. destruct (ude_law_split n law fresh dt s H) as (reset & _ & _ & _ & Hk & _).
  rewrite Hk.
  change (Vector3f.get (ude_s.u_total (_ude (ude_prelude reset fresh dt s))) AXIS_INDEX_YAW
          = Vector3f.get (_att_control (ude_prelude reset fresh dt s)) AXIS_INDEX_YAW).
  apply control_attitude_rates_yaw.
Qed.

End CallFacts.

(* ================================================================== *)
(** ** Resets, and the yaw torque under a UDE law *)

Lemma vector_ext (a b : Vector3f) :
  (forall i, Vector3f.get a i = Vector3f.get b i) -> a = b.
Proof.
  intros H.
  change a with (mkVector3f (v0 a) (v1 a) (v2 a)).
  change b with (mkVector3f (v0 b) (v1 b) (v2 b)).
  pose proof (H AXIS_INDEX_ROLL) as H0. pose proof (H AXIS_INDEX_PITCH) as H1.
  pose proof (H AXIS_INDEX_YAW) as H2. cbn in H0, H1, H2.
  rewrite H0, H1, H2. reflexivity.
Qed.

(** Zero stays inside a limit that is not negative. *)
Lemma constrain_zero (lim : float) :
  (lim <? F32.zero)%f32 = false ->
  math.constrain F32.zero (- lim)%f32 lim = F32.zero.
Proof.
  intros H. unfold math.constrain.
  assert (H1 : (F32.zero <? - lim)%f32 = false) by f32_order.
  rewrite H1. unfold F32.gtb. rewrite H. reflexivity.
Qed.

Section Resets.

Context {L : Lib}.
Local Notation "'state'" := (MulticopterAttitudeControl L).

Lemma ude_control_law n law fresh dt (s : state) :
  switch_ude s = n -> ude_law n = Some law -> ude_control fresh dt s = law fresh dt s.
Proof.
  intros <- H. unfold ude_control. unfold ude_law in H.
  destruct (switch_ude s =? 1); [injection H as <-; reflexivity | ].
  destruct (switch_ude s =? 2); [injection H as <-; reflexivity | ].
  destruct (switch_ude s =? 3); [injection H as <-; reflexivity | ].
  discriminate.
Qed.

(** The integral of a law whose head reset it. *)
Lemma integral_reset_of_law n law fresh dt (s : state) :
  ude_law n = Some law ->
  (n = 3 -> integral_ude (m_ude_reset s) = Vector3f.zero) ->
  (n <> 3 -> integral_ude (ude_reset s) = Vector3f.zero) ->
  integral_reset (law fresh dt s).
Proof.
  intros H H3 Hn.
  destruct (ude_law_split n law fresh dt s H) as (reset & _ & R3 & Rn & Hk & Hi).
  assert (Hz : integral_ude (reset s) = Vector3f.zero).
  { destruct (Z.eq_dec n 3) as [E | E];
      [rewrite (R3 E); apply H3, E | rewrite (Rn E); apply Hn, E]. }
  split.
  - rewrite Hk.
    change (v2 (integral_ude (ude_prelude reset fresh dt s)) = F32.zero).
    rewrite (ude_prelude_keeps integral_ude) by reflexivity.
    exact (f_equal (fun v => v2 v) Hz).
  - intros Hc. rewrite (Hi Hc). exact Hz.
Qed.

Lemma ude_reset_disarmed (s : state) :
  disarmed s = true -> integral_ude (ude_reset s) = Vector3f.zero.
Proof. intros H. unfold ude_reset. rewrite H. reflexivity. Qed.

(** C1 (amended): a call of [control_attitude_ude] or
    [control_attitude_cascade_ude] on a vehicle that is disarmed or not
    rotary-wing, and a call of [control_attitude_m_ude] on such a vehicle
    or with a logged thrust setpoint below [MIN_TAKEOFF_THRUST], leaves the
    yaw entry of [integral_ude] zero, and leaves [integral_ude] zero
    altogether when the thrust setpoint after the call does not exceed
    [MIN_TAKEOFF_THRUST]; [control_attitude_m_ude] then also leaves the
    yaw entries of its estimates ([torque_est], [f1_est], [f1_dot_est],
    [f2_est], [f_est]) zero. *)
Theorem ude_state_after_reset fresh dt (s : state) :
  (disarmed s = true -> integral_reset (control_attitude_ude fresh dt s))
  /\ (disarmed s = true -> integral_reset (control_attitude_cascade_ude fresh dt s))
  /\ ((ude_s.thrust_sp (_ude s) <? MIN_TAKEOFF_THRUST)%f32 || disarmed s = true ->
      integral_reset (control_attitude_m_ude fresh dt s)
      /\ estimate_yaw_reset (control_attitude_m_ude fresh dt s)).
Proof.
  split; [ | split].
  - intros Hd. apply (integral_reset_of_law 1); [reflexivity | discriminate | ].
    intros _. apply ude_reset_disarmed, Hd.
  - intros Hd. apply (integral_reset_of_law 2); [reflexivity | discriminate | ].
    intros _. apply ude_reset_disarmed, Hd.
  - intros Hc. split.
    + apply (integral_reset_of_law 3); [reflexivity | | intros E; exfalso; apply E; reflexivity].
      intros _. unfold m_ude_reset. rewrite Hc. reflexivity.
    + destruct (control_attitude_m_ude_law fresh dt s) as (Hk & _). cbv zeta in Hk.
      unfold estimate_yaw_reset. rewrite Hk.
      change (v2 (ude_s.torque_est (_ude (ude_prelude m_ude_reset fresh dt s))) = F32.zero
              /\ v2 (ude_s.f1_est (_ude (ude_prelude m_ude_reset fresh dt s))) = F32.zero
              /\ v2 (ude_s.f1_dot_est (_ude (ude_prelude m_ude_reset fresh dt s))) = F32.zero
              /\ v2 (ude_s.f2_est (_ude (ude_prelude m_ude_reset fresh dt s))) = F32.zero
              /\ v2 (ude_s.f_est (_ude (ude_prelude m_ude_reset fresh dt s))) = F32.zero).
      rewrite (ude_prelude_keeps (fun x => ude_s.torque_est (_ude x))) by reflexivity.
      rewrite (ude_prelude_keeps (fun x => ude_s.f1_est (_ude x))) by reflexivity.
      rewrite (ude_prelude_keeps (fun x => ude_s.f1_dot_est (_ude x))) by reflexivity.
      rewrite (ude_prelude_keeps (fun x => ude_s.f2_est (_ude x))) by reflexivity.
      rewrite (ude_prelude_keeps (fun x => ude_s.f_est (_ude x))) by reflexivity.
      unfold m_ude_reset. rewrite Hc. repeat split; reflexivity.
Qed.

(** C3 (amended): on a vehicle that is disarmed or not rotary-wing,
    [control_attitude_rates] leaves [_rates_int] exactly zero when the
    thrust setpoint does not exceed [MIN_TAKEOFF_THRUST] and no integrator
    limit is negative, and [control_attitude_ude] and
    [control_attitude_cascade_ude] leave [integral_ude] exactly zero when
    the thrust setpoint after the call does not exceed
    [MIN_TAKEOFF_THRUST]; the prior values of the two states do not
    matter. *)
Theorem disarmed_integrators_zero fresh dt (s : state) :
  disarmed s = true ->
  ((_thrust_sp s >? MIN_TAKEOFF_THRUST)%f32 = false ->
   (forall i, (Vector3f.get (_rate_int_lim s) i <? F32.zero)%f32 = false) ->
   _rates_int (control_attitude_rates dt s) = Vector3f.zero)
  /\ ((_thrust_sp (control_attitude_ude fresh dt s) >? MIN_TAKEOFF_THRUST)%f32 = false ->
      integral_ude (control_attitude_ude fresh dt s) = Vector3f.zero)
  /\ ((_thrust_sp (control_attitude_cascade_ude fresh dt s) >? MIN_TAKEOFF_THRUST)%f32
        = false ->
      integral_ude (control_attitude_cascade_ude fresh dt s) = Vector3f.zero).
Proof.
  intros Hd. split; [ | split].
  - intros Ht Hlim. apply vector_ext. intros i.
    rewrite rates_int_after. unfold rates_int_next, rates_int_integrated, rates_int_reset.
    rewrite Ht, Hd.
    replace (Vector3f.get Vector3f.zero i) with F32.zero by (destruct i; reflexivity).
    apply constrain_zero, Hlim.
  - assert (H : integral_reset (control_attitude_ude fresh dt s)).
    { apply (integral_reset_of_law 1); [reflexivity | discriminate | ].
      intros _. apply ude_reset_disarmed, Hd. }
    apply H.
  - assert (H : integral_reset (control_attitude_cascade_ude fresh dt s)).
    { apply (integral_reset_of_law 2); [reflexivity | discriminate | ].
      intros _. apply ude_reset_disarmed, Hd. }
    apply H.
Qed.

End Resets.

Lemma ude_state_after_reset_witness :
  disarmed Examples.disarmed_idle = true
  /\ integral_reset (control_attitude_ude None Examples.dt Examples.disarmed_idle).
Proof.
  split; [reflexivity | ].
  apply (ude_state_after_reset None Examples.dt Examples.disarmed_idle). reflexivity.
Defined.

(** C1 as stated fails: disarmed, with a thrust setpoint of 0.5 and a roll
    rate of 1 rad/s, each of the three laws ends with a roll entry of
    [integral_ude] that is not zero (0.01, 0.01 and about 0.0102). *)
Lemma ude_integral_not_reset :
  disarmed Examples.disarmed_flying = true
  /\ Vector3f.get
       (integral_ude (control_attitude_ude None Examples.dt Examples.disarmed_flying))
       AXIS_INDEX_ROLL = F32.lit 1 100
  /\ Vector3f.get
       (integral_ude (control_attitude_cascade_ude None Examples.dt Examples.disarmed_flying))
       AXIS_INDEX_ROLL = F32.lit 1 100
  /\ Vector3f.get
       (integral_ude (control_attitude_m_ude None Examples.dt Examples.disarmed_flying))
       AXIS_INDEX_ROLL = S754_finite false 10956461 (-30)
  /\ F32.eqb (F32.lit 1 100) F32.zero = false.
Proof. repeat split; vm_compute; reflexivity. Qed.

Lemma disarmed_integrators_zero_witness :
  disarmed Examples.disarmed_idle = true
  /\ _rates_int (control_attitude_rates Examples.dt Examples.disarmed_idle) = Vector3f.zero.
Proof.
  split; [reflexivity | ].
  destruct (disarmed_integrators_zero None Examples.dt Examples.disarmed_idle eq_refl)
    as [H _].
  apply H; [reflexivity | intros []; reflexivity].
Defined.

(** C3 as stated fails: disarmed, with a thrust setpoint of 0.5 and a roll
    rate error of 1 rad/s, [control_attitude_rates] ends with the roll
    integrator at 0.01. *)
Lemma disarmed_rates_int_not_zero :
  disarmed Examples.disarmed_with_thrust = true
  /\ Vector3f.get
       (_rates_int (control_attitude_rates Examples.dt Examples.disarmed_with_thrust))
       AXIS_INDEX_ROLL = F32.lit 1 100
  /\ F32.eqb (F32.lit 1 100) F32.zero = false.
Proof. repeat split; vm_compute; reflexivity. Qed.


(* ================================================================== *)
(** ** The yaw torque under a UDE law *)

Section YawTorque.

Context {L : Lib}.
Local Notation "'state'" := (MulticopterAttitudeControl L).

Lemma write_actuators_state a b c d (s : state) :
  write_actuators a b c d s = s <| _actuators := _actuators (write_actuators a b c d s) |>.
Proof. reflexivity. Qed.


Lemma battery_scale_state (s : state) :
  battery_scale s = s <| _actuators := _actuators (battery_scale s) |>.
Proof. unfold battery_scale. destruct (_ && _); reflexivity. Qed.


Lemma battery_scale_channel (s : state) (i : nat) :
  In i [0%nat; 1%nat; 2%nat; 3%nat] ->
  actuator_controls_s.get (_actuators (battery_scale s)) i =
  if battery_scaling s
  then (actuator_controls_s.get (_actuators s) i
        * battery_status_s.scale (_battery_status s))%f32
  else actuator_controls_s.get (_actuators s) i.
Proof.
  intros Hi. unfold battery_scale, battery_scaling.
  destruct (_ && _); [ | reflexivity].
  cbn in Hi. destruct Hi as [<- | [<- | [<- | [<- | []]]]]; reflexivity.
Qed.

Lemma publish_actuators_state (s : state) :
  fst (publish_actuators s) =
  s <| _actuators_0_pub := _actuators_0_pub (fst (publish_actuators s)) |>.
Proof. unfold publish_actuators. branches; reflexivity. Qed.

Lemma publish_actuators_out (s : state) m :
  In m (snd (publish_actuators s)) -> m = pub_actuators (_actuators s).
Proof.
  unfold publish_actuators.
  branches; cbn; intros H; try contradiction; destruct H as [<- | []]; reflexivity.
Qed.

Lemma platform_zero_off (s : state) : (use_platform s =? 1) = false -> platform_zero s = s.
Proof. unfold platform_zero. intros ->. reflexivity. Qed.

(** The state [ude_actuators] leaves, without the mixer. *)
Lemma ude_actuators_direct (s : state) :
  (switch_mixer s =? 0) = true ->
  fst (ude_actuators s) =
  fst (publish_actuators
         (battery_scale
            (let s := platform_zero s in
             let u := ude_s.u_total (_ude s) in
             write_actuators (v0 u) (v1 u) (v2 u) (ude_s.thrust_sp (_ude s)) s))).
Proof.
  intros Hm. unfold ude_actuators. rewrite Hm. cbv zeta.
  destruct (publish_actuators _) as [s3 o3]. reflexivity.
Qed.

(** [ude_actuators] leaves the torque of the law alone, off the bench. *)
Lemma ude_actuators_torque (s : state) :
  (use_platform s =? 1) = false ->
  _ude (fst (ude_actuators s)) = _ude s
  /\ _att_control (fst (ude_actuators s)) = _att_control s.
Proof.
  intros Hp. unfold ude_actuators. rewrite (platform_zero_off s Hp).
  destruct (switch_mixer s =? 0).
  - cbv zeta.
    match goal with |- context [publish_actuators ?x] =>
      pose proof (publish_actuators_state x) as H3;
      destruct (publish_actuators x) as [s3 o3]
    end.
    cbn [fst] in *. rewrite H3, battery_scale_state. split; reflexivity.
  - unfold mixer. cbv zeta. cbn [use_platform]. 
    match goal with |- context [publish_actuators ?x] =>
      pose proof (publish_actuators_state x) as H3;
      destruct (publish_actuators x) as [s3 o3]
    end.
    cbn [fst] in *. rewrite H3, battery_scale_state.
    change (use_platform (s <| _mixer := _ |>)) with (use_platform s).
    rewrite Hp. split; reflexivity.
Qed.

(** C4 (amended): in an iteration that runs one of the three UDE laws
    ([switch_ude] is 1, 2 or 3) off the test bench ([use_platform] is not
    1), the yaw entry of [_ude.u_total] is the yaw torque command
    [_att_control(2)] of the rate controller, and, when the mixer is
    bypassed, actuator channel 2 is that value if it is finite and zero
    otherwise, times the battery scale when battery scaling is active. *)
Theorem ude_yaw_from_rate_controller fresh dt (s : state) :
  switch_ude s = 1 \/ switch_ude s = 2 \/ switch_ude s = 3 ->
  (use_platform s =? 1) = false ->
  let s' := fst (run_ude fresh dt s) in
  Vector3f.get (ude_s.u_total (_ude s')) AXIS_INDEX_YAW
  = Vector3f.get (_att_control s') AXIS_INDEX_YAW
  /\ ((switch_mixer s =? 0) = true ->
      actuator_controls_s.get (_actuators s') 2 =
      (let c := finite_or_zero (Vector3f.get (_att_control s') AXIS_INDEX_YAW) in
       if battery_scaling s then (c * battery_status_s.scale (_battery_status s))%f32
       else c)).
Proof.
  intros Hn Hp. cbv zeta. unfold run_ude.
  assert (Hlaw : exists law, ude_law (switch_ude s) = Some law).
  { destruct Hn as [-> | [-> | ->]]; eexists; reflexivity. }
  destruct Hlaw as [law Hlaw].
  rewrite (ude_control_law _ law fresh dt s eq_refl Hlaw).
  pose proof (ude_law_yaw _ law fresh dt s Hlaw) as Hy.
  pose proof (ude_law_call _ law fresh dt s Hlaw) as Hc.
  set (s1 := law fresh dt s) in *. clearbody s1.
  assert (Hp1 : (use_platform s1 =? 1) = false) by (rewrite Hc; exact Hp).
  assert (Hm1 : switch_mixer s1 = switch_mixer s) by (rewrite Hc; reflexivity).
  assert (Hb1 : battery_scaling s1 = battery_scaling s) by (rewrite Hc; reflexivity).
  assert (Hs1 : _battery_status s1 = _battery_status s) by (rewrite Hc; reflexivity).
  destruct (ude_actuators_torque s1 Hp1) as [Hu Ha].
  rewrite Hu, Ha. split; [exact Hy | ].
  intros Hm. rewrite <- Hm1 in Hm.
  rewrite (ude_actuators_direct s1 Hm), publish_actuators_state.
  change (actuator_controls_s.get (_actuators (battery_scale
            (let s := platform_zero s1 in
             let u := ude_s.u_total (_ude s) in
             write_actuators (v0 u) (v1 u) (v2 u) (ude_s.thrust_sp (_ude s)) s))) 2
          = (let c := finite_or_zero (Vector3f.get (_att_control s1) AXIS_INDEX_YAW) in
             if battery_scaling s
             then (c * battery_status_s.scale (_battery_status s))%f32 else c)).
  rewrite (platform_zero_off s1 Hp1). cbv zeta.
  rewrite battery_scale_channel by (cbn; auto).
  change (battery_scaling (write_actuators _ _ _ _ s1)) with (battery_scaling s1).
  change (_battery_status (write_actuators _ _ _ _ s1)) with (_battery_status s1).
  rewrite Hb1, Hs1, <- Hy. reflexivity.
Qed.

End YawTorque.

Lemma ude_yaw_from_rate_controller_witness :
  let s' := fst (run_ude None Examples.dt Examples.yawing_ude) in
  Vector3f.get (ude_s.u_total (_ude s')) AXIS_INDEX_YAW
  = Vector3f.get (_att_control s') AXIS_INDEX_YAW
  /\ actuator_controls_s.get (_actuators s') 2 = (- F32.one)%f32.
Proof.
  destruct (ude_yaw_from_rate_controller None Examples.dt Examples.yawing_ude) as [H1 H2];
    [left; reflexivity | reflexivity | ].
  split; [exact H1 | ]. rewrite (H2 eq_refl). vm_compute. reflexivity.
Defined.

(** C4 as stated fails: on the test bench ([use_platform == 1]) with
    [control_attitude_ude] selected and a yaw rate of 1 rad/s, the rate
    controller commands a yaw torque of -1 while the yaw entry of
    [_ude.u_total] and actuator channel 2 are zero. *)
Lemma platform_yaw_torque_dropped :
  let s' := fst (run_ude None Examples.dt Examples.platform_ude) in
  switch_ude Examples.platform_ude = 1
  /\ Vector3f.get (_att_control s') AXIS_INDEX_YAW = (- F32.one)%f32
  /\ Vector3f.get (ude_s.u_total (_ude s')) AXIS_INDEX_YAW = F32.zero
  /\ actuator_controls_s.get (_actuators s') 2 = F32.zero.
Proof. repeat split; vm_compute; reflexivity. Qed.

(* ================================================================== *)
(** ** What is published on the actuator topic *)


Lemma pub_actuators_inj (a b : actuator_controls_s.t) :
  pub_actuators a = pub_actuators b -> a = b.
Proof. intros H. injection H as H. exact H. Qed.

Section Publication.

Context {L : Lib}.
Local Notation "'state'" := (MulticopterAttitudeControl L).














End Publication.



(* ================================================================== *)
(** ** The limits of the rate setpoint *)



Section RateLimits.

Context {L : Lib}.
Local Notation "'state'" := (MulticopterAttitudeControl L).





End RateLimits.



(* ================================================================== *)
(** ** Opposite thrust axes *)

Section Degenerate.

Context {L : Lib}.
Local Notation "'state'" := (MulticopterAttitudeControl L).



End Degenerate.



(* ================================================================== *)
(** ** The two motor curves *)






(* ================================================================== *)
(** ** The yaw gain of the attitude law *)

Section YawGain.

Context {L : Lib}.
Local Notation "'state'" := (MulticopterAttitudeControl L).

Variable y : float.










End YawGain.


(* ================================================================== *)
(** ** Ranges: attenuation, time step, yaw weight, motor curves *)

Lemma tpa_lower_limit_value : TPA_RATE_LOWER_LIMIT = S754_finite false 13421773 (-28).
Proof. vm_compute. reflexivity. Qed.

Lemma one_value : F32.one = S754_finite false 8388608 (-23).
Proof. vm_compute. reflexivity. Qed.

(** What [fmaxf(TPA_RATE_LOWER_LIMIT, fminf(1.0f, tpa))] can be. *)
Lemma attenuation_cases (t : float) :
  let a := F32.fmaxf TPA_RATE_LOWER_LIMIT (F32.fminf F32.one t) in
  (a = t /\ (TPA_RATE_LOWER_LIMIT <? t)%f32 = true /\ (t <? F32.one)%f32 = true)
  \/ a = F32.one \/ a = TPA_RATE_LOWER_LIMIT.
Proof.
  cbv zeta. unfold F32.fmaxf, F32.fminf.
  rewrite tpa_lower_limit_value, one_value. cbn [F32.is_nan].
  assert (Hc : F32.ltb (S754_finite false 13421773 (-28)) (S754_finite false 8388608 (-23))
               = true) by reflexivity.
  destruct (F32.is_nan t) eqn:Ht.
  - cbn [F32.is_nan]. rewrite Hc. right; left; reflexivity.
  - destruct (F32.ltb t (S754_finite false 8388608 (-23))) eqn:H1.
    + rewrite Ht.
      destruct (F32.ltb (S754_finite false 13421773 (-28)) t) eqn:H2;
        [left; auto | right; right; reflexivity].
    + cbn [F32.is_nan]. rewrite Hc. right; left; reflexivity.
Qed.

Section Ranges.

Context {L : Lib}.
Local Notation "'state'" := (MulticopterAttitudeControl L).

(** The throttle attenuation of the roll and pitch gains lies between
    [TPA_RATE_LOWER_LIMIT] and 1 whatever the breakpoint, the rate and the
    thrust (a NaN among them gives 1), and the yaw gains are not
    attenuated. *)
Theorem pid_attenuations_range (tpa_breakpoint tpa_rate : float) (s : state) :
  let a := pid_attenuations tpa_breakpoint tpa_rate s in
  (TPA_RATE_LOWER_LIMIT <=? Vector3f.get a AXIS_INDEX_ROLL)%f32 = true
  /\ (Vector3f.get a AXIS_INDEX_ROLL <=? F32.one)%f32 = true
  /\ Vector3f.get a AXIS_INDEX_PITCH = Vector3f.get a AXIS_INDEX_ROLL
  /\ Vector3f.get a AXIS_INDEX_YAW = F32.one.
Proof.
  cbv zeta. unfold pid_attenuations. cbv zeta. cbn [Vector3f.get v0 v1 v2].
  match goal with |- context [F32.fminf F32.one ?t] =>
    destruct (attenuation_cases t) as [(-> & H1 & H2) | [-> | ->]]
  end.
  - repeat split; try reflexivity; f32_order.
  - repeat split; vm_compute; reflexivity.
  - repeat split; vm_compute; reflexivity.
Qed.

(** The yaw weight of the attitude law is never below 0 and never above
    1 (it is NaN when the gains make it so). *)
Theorem yaw_w_range (s : state) :
  (yaw_w s <? F32.zero)%f32 = false /\ (yaw_w s >? F32.one)%f32 = false.
Proof.
  unfold yaw_w. rewrite one_value.
  match goal with |- context [math.constrain ?v ?lo ?hi] =>
    destruct (constrain_cases v lo hi) as [[H1 ->] | [[H1 [H2 ->]] | [H1 [H2 ->]]]]
  end; split; try reflexivity; f32_order.
Qed.

End Ranges.

(** The time step the controllers get lies between 0.2 ms and 20 ms, for
    every measured time step that is a number. *)
Theorem guard_dt_range (dt : float) :
  F32.is_nan dt = false ->
  (F32.lit 2 10000 <=? guard_dt dt)%f32 = true
  /\ (guard_dt dt <=? F32.lit 2 100)%f32 = true.
Proof.
  intros Hn. apply is_nan_false_iff in Hn. unfold guard_dt.
  replace (F32.lit 2 10000) with (S754_finite false 13743895 (-36))
    by (vm_compute; reflexivity).
  replace (F32.lit 2 100) with (S754_finite false 10737418 (-29))
    by (vm_compute; reflexivity).
  destruct (dt <? _)%f32 eqn:H1; [split; reflexivity | ].
  destruct (dt >? _)%f32 eqn:H2; [split; reflexivity | ].
  split; f32_order.
Qed.

Lemma guard_dt_range_witness :
  (F32.lit 2 10000 <=? guard_dt (F32.of_Z 1))%f32 = true
  /\ (guard_dt (F32.of_Z 1) <=? F32.lit 2 100)%f32 = true.
Proof. apply (guard_dt_range (F32.of_Z 1)). reflexivity. Defined.

(** [thrust_to_throttle] saturates: a thrust below 0 N gives the throttle of
    0 N, which is the constant term 0.008775 of the curve, and a thrust
    above 7 N gives the throttle of 7 N. *)
Theorem thrust_to_throttle_saturates (thrust : float) :
  ((thrust <? F32.of_Z 0)%f32 = true ->
   thrust_to_throttle thrust = F32.lit 8775 1000000)
  /\ ((thrust >? F32.of_Z 7)%f32 = true ->
      thrust_to_throttle thrust = thrust_to_throttle (F32.of_Z 7)).
Proof.
  split; intros H.
  - transitivity (thrust_to_throttle (F32.of_Z 0)); [ | vm_compute; reflexivity].
    unfold thrust_to_throttle, math.constrain. rewrite H. reflexivity.
  - unfold thrust_to_throttle at 1, math.constrain. rewrite H.
    destruct (thrust <? F32.of_Z 0)%f32 eqn:H0; [exfalso | vm_compute; reflexivity].
    revert H H0. replace (F32.of_Z 0) with (S754_zero false) by reflexivity.
    replace (F32.of_Z 7) with (S754_finite false 14680064 (-21)) by (vm_compute; reflexivity).
    intros H H0. f32_order.
Qed.

(** [throttle_to_thrust] saturates: a throttle below 0 gives the thrust of
    throttle 0, which is the constant term 0.02543 of the curve, and a
    throttle above 1 gives the thrust of full throttle. *)
Theorem throttle_to_thrust_saturates (throttle : float) :
  ((throttle <? F32.of_Z 0)%f32 = true ->
   throttle_to_thrust throttle = F32.lit 2543 100000)
  /\ ((throttle >? F32.of_Z 1)%f32 = true ->
      throttle_to_thrust throttle = throttle_to_thrust (F32.of_Z 1)).
Proof.
  split; intros H.
  - transitivity (throttle_to_thrust (F32.of_Z 0)); [ | vm_compute; reflexivity].
    unfold throttle_to_thrust, math.constrain. rewrite H. reflexivity.
  - unfold throttle_to_thrust at 1, math.constrain. rewrite H.
    destruct (throttle <? F32.of_Z 0)%f32 eqn:H0; [exfalso | vm_compute; reflexivity].
    revert H H0. replace (F32.of_Z 0) with (S754_zero false) by reflexivity.
    replace (F32.of_Z 1) with (S754_finite false 8388608 (-23)) by (vm_compute; reflexivity).
    intros H H0. f32_order.
Qed.

(* ================================================================== *)
(** ** The rate controller: what the integrator and the torque depend on *)

Lemma opp_finite (x : float) : F32.PX4_ISFINITE (- x)%f32 = F32.PX4_ISFINITE x.
Proof. destruct x; reflexivity. Qed.

(** A finite value limited by a finite limit is finite. *)
Lemma constrain_finite (v lim : float) :
  F32.PX4_ISFINITE v = true -> F32.PX4_ISFINITE lim = true ->
  F32.PX4_ISFINITE (math.constrain v (- lim)%f32 lim) = true.
Proof.
  intros Hv Hl.
  destruct (constrain_cases v (- lim)%f32 lim) as [[_ ->] | [[_ [_ ->]] | [_ [_ ->]]]];
    [rewrite opp_finite | | ]; assumption.
Qed.

Section RateControllerExtras.

Context {L : Lib}.
Local Notation "'state'" := (MulticopterAttitudeControl L).

(** An integrator entry that is finite stays finite through
    [control_attitude_rates] when its limit is finite, whatever the gyro
    sample, the setpoint, the gains and [dt] are (NaN and infinities
    included): a candidate that is not finite is discarded. *)
Theorem rates_int_stays_finite (dt : float) (s : state) (i : axis) :
  F32.PX4_ISFINITE (Vector3f.get (_rates_int s) i) = true ->
  F32.PX4_ISFINITE (Vector3f.get (_rate_int_lim s) i) = true ->
  F32.PX4_ISFINITE (Vector3f.get (_rates_int (control_attitude_rates dt s)) i) = true.
Proof.
  intros Ho Hl. rewrite rates_int_after. unfold rates_int_next.
  apply constrain_finite; [ | exact Hl].
  unfold rates_int_integrated, rates_int_reset.
  assert (Hr : F32.PX4_ISFINITE
                 (if disarmed s then F32.zero else Vector3f.get (_rates_int s) i) = true)
    by (destruct (disarmed s); [reflexivity | exact Ho]).
  destruct (_ >? MIN_TAKEOFF_THRUST)%f32; [ | exact Hr].
  cbv zeta. destruct (F32.PX4_ISFINITE (rate_i_candidate dt s i)) eqn:Hf;
    cbn [andb]; [ | exact Hr].
  destruct (_ && _); [exact Hf | exact Hr].
Qed.

(** On a vehicle that is disarmed or not rotary-wing, what
    [control_attitude_rates] leaves does not depend on the integrator it
    finds: the torque command is computed after the reset. *)
Theorem disarmed_rates_ignore_integrator (dt : float) (s : state) (v : Vector3f) :
  disarmed s = true ->
  control_attitude_rates dt (s <| _rates_int := v |>) = control_attitude_rates dt s.
Proof.
  intros Hd. unfold control_attitude_rates.
  change (disarmed (s <| _rates_int := v |>)) with (disarmed s).
  rewrite Hd. reflexivity.
Qed.

(** [control_attitude_rates] keeps the corrected gyro rates as the
    previous rates and logs the same vector as [attitude_rate_now]. *)
Theorem rates_logged (dt : float) (s : state) :
  _rates_prev (control_attitude_rates dt s) = corrected_rates s
  /\ ude_s.attitude_rate_now (_ude (control_attitude_rates dt s)) = corrected_rates s.
Proof.
  unfold control_attitude_rates.
  destruct (LowPassFilter2p_apply _ _) as [f0 r0].
  destruct (LowPassFilter2p_apply _ _) as [f1 r1].
  destruct (LowPassFilter2p_apply _ _) as [f2 r2].
  cbv zeta.
  set (s0 := if disarmed s then _ else s).
  assert (E0 : corrected_rates s0 = corrected_rates s)
    by (subst s0; destruct (disarmed s); reflexivity).
  clearbody s0. rewrite <- E0.
  set (rates := corrected_rates s0). clearbody rates.
  set (gp := Vector3f.emult (_rate_p s0) _). clearbody gp.
  set (gi := Vector3f.emult (_rate_i s0) _). clearbody gi.
  set (gd := Vector3f.emult (_rate_d s0) _). clearbody gd.
  set (err := Vector3f.sub (_rates_sp s0) rates). clearbody err.
  match goal with |- context [fold_left (integrate_rate dt gi err) axes3 ?x] =>
    set (s1 := x) in *;
    assert (E1 : _rates_prev s1 = rates) by reflexivity;
    clearbody s1
  end.
  match goal with |- context [limit_integrator ?x] =>
    set (s2 := x) in *;
    assert (E2 : _rates_prev s2 = rates)
      by (subst s2; destruct (_ >? _)%f32;
          [ cbn [fold_left axes3]; rewrite !integrate_rate_eq | ]; exact E1);
    clearbody s2
  end.
  split.
  - exact E2.
  - reflexivity.
Qed.

End RateControllerExtras.

Lemma rates_int_stays_finite_witness :
  F32.PX4_ISFINITE
    (Vector3f.get (_rates_int (control_attitude_rates Examples.dt Examples.armed_saturated))
       AXIS_INDEX_ROLL) = true.
Proof.
  apply (rates_int_stays_finite Examples.dt Examples.armed_saturated AXIS_INDEX_ROLL);
    reflexivity.
Defined.

Lemma disarmed_rates_ignore_integrator_witness :
  control_attitude_rates Examples.dt
    (Examples.disarmed_with_thrust <| _rates_int := Ref.ones |>)
  = control_attitude_rates Examples.dt Examples.disarmed_with_thrust.
Proof.
  apply (disarmed_rates_ignore_integrator Examples.dt Examples.disarmed_with_thrust Ref.ones).
  reflexivity.
Defined.

(* ================================================================== *)
(** ** The attitude law: thrust, yaw integrator, log *)

Section AttitudeExtras.

Context {L : Lib}.
Local Notation "'state'" := (MulticopterAttitudeControl L).

(** [control_attitude] leaves the thrust of the attitude setpoint as the
    thrust setpoint, except on the test bench, where the thrust setpoint is
    0.4 whatever the setpoint asks; it logs the value it leaves. *)
Theorem control_attitude_thrust fresh dt (s : state) :
  let s' := control_attitude fresh dt s in
  _thrust_sp s' =
    (if use_platform s =? 1 then F32.lit 4 10
     else vehicle_attitude_setpoint_s.thrust (_v_att_sp s'))
  /\ ude_s.thrust_sp (_ude s') = _thrust_sp s'.
Proof.
  cbv zeta. split; [ | apply control_attitude_logs_thrust].
  rewrite (control_attitude_footprint fresh dt s) at 2.
  change (_v_att_sp (keep_attitude s (control_attitude fresh dt s)))
    with (_v_att_sp (control_attitude fresh dt s)).
  unfold control_attitude. cbv zeta.
  set (s1 := vehicle_attitude_setpoint_poll fresh s).
  assert (E1 : s1 = s <| _v_att_sp := _v_att_sp s1 |>)
    by (subst s1; unfold vehicle_attitude_setpoint_poll; destruct fresh; reflexivity).
  clearbody s1.
  set (now := Eulerf_of_Quatf _).
  match goal with |- context [if ?b then ?p else ?q] =>
    assert (E3 : fst (if b then p else q) =
                 keep_platform s1 (fst (if b then p else q))
                   <| _thrust_sp := _thrust_sp (fst (if b then p else q)) |>);
    [ destruct b; [ rewrite platform_reference_footprint at 1; reflexivity | reflexivity ] | ];
    assert (ET : _thrust_sp (fst (if b then p else q)) =
                 if b then F32.lit 4 10
                 else vehicle_attitude_setpoint_s.thrust (_v_att_sp s1));
    [ destruct b; [ unfold platform_reference; cbv zeta; branches; reflexivity
                  | reflexivity ] | ];
    destruct (if b then p else q) as [s3 r3]
  end.
  cbn [fst] in E3, ET.
  match goal with
  | |- context [apply_update (mk_update _rates_sp ?f) s3] =>
    set (s4 := apply_update (mk_update _rates_sp f) s3) in *
  end.
  assert (E4 : s4 = s3 <| _rates_sp := _rates_sp s4 |>) by reflexivity.
  clearbody s4.
  pose proof (limit_rates_footprint s4) as E5.
  set (s5 := limit_rates s4) in *. clearbody s5.
  pose proof (weather_vane_footprint s5) as E6. set (s6 := weather_vane s5) in *.
  clearbody s6.
  match goal with
  | |- context [if ?b then ?p else s6] => set (s7 := if b then p else s6)
  end.
  assert (E7 : s7 = s6 <| _rates_sp := _rates_sp s7 |>)
    by (subst s7; destruct (_ && _); reflexivity).
  clearbody s7.
  change (_thrust_sp s7 =
          if use_platform s =? 1 then F32.lit 4 10
          else vehicle_attitude_setpoint_s.thrust (_v_att_sp s7)).
  assert (T7 : _thrust_sp s7 = _thrust_sp s3)
    by (rewrite E7, E6, E5, E4; reflexivity).
  assert (V7 : _v_att_sp s7 = _v_att_sp s1)
    by (rewrite E7, E6, E5, E4, E3; reflexivity).
  assert (P1 : use_platform
                 (s1 <| _thrust_sp := vehicle_attitude_setpoint_s.thrust (_v_att_sp s1) |>)
               = use_platform s)
    by (rewrite E1; reflexivity).
  rewrite T7, V7, ET, P1. reflexivity.
Qed.

(** [control_attitude] writes the rate integrator in one case only: in
    the weather-vane mode of a VTOL, with yaw control handed over and
    velocity or auto control enabled, it sets the yaw entry to zero. *)
Theorem control_attitude_integrator fresh dt (s : state) :
  let s' := control_attitude fresh dt s in
  _rates_int s' =
    if weather_vane_mode s' then Vector3f.set (_rates_int s) AXIS_INDEX_YAW F32.zero
    else _rates_int s.
Proof.
  cbv zeta.
  rewrite (control_attitude_footprint fresh dt s) at 2.
  change (weather_vane_mode (keep_attitude s (control_attitude fresh dt s)))
    with (vehicle_status_s.is_vtol (_vehicle_status s)
          && vehicle_attitude_setpoint_s.disable_mc_yaw_control
               (_v_att_sp (control_attitude fresh dt s))
          && (vehicle_control_mode_s.flag_control_velocity_enabled (_v_control_mode s)
              || vehicle_control_mode_s.flag_control_auto_enabled (_v_control_mode s))).
  unfold control_attitude. cbv zeta.
  set (s1 := vehicle_attitude_setpoint_poll fresh s).
  assert (E1 : s1 = s <| _v_att_sp := _v_att_sp s1 |>)
    by (subst s1; unfold vehicle_attitude_setpoint_poll; destruct fresh; reflexivity).
  clearbody s1.
  set (now := Eulerf_of_Quatf _).
  match goal with |- context [if ?b then ?p else ?q] =>
    assert (E3 : fst (if b then p else q) =
                 keep_platform s1 (fst (if b then p else q))
                   <| _thrust_sp := _thrust_sp (fst (if b then p else q)) |>);
    [ destruct b; [ rewrite platform_reference_footprint at 1; reflexivity | reflexivity ] | ];
    assert (ET : _thrust_sp (fst (if b then p else q)) =
                 if b then F32.lit 4 10
                 else vehicle_attitude_setpoint_s.thrust (_v_att_sp s1));
    [ destruct b; [ unfold platform_reference; cbv zeta; branches; reflexivity
                  | reflexivity ] | ];
    destruct (if b then p else q) as [s3 r3]
  end.
  cbn [fst] in E3, ET.
  match goal with
  | |- context [apply_update (mk_update _rates_sp ?f) s3] =>
    set (s4 := apply_update (mk_update _rates_sp f) s3) in *
  end.
  assert (E4 : s4 = s3 <| _rates_sp := _rates_sp s4 |>) by reflexivity.
  clearbody s4.
  pose proof (limit_rates_footprint s4) as E5.
  set (s5 := limit_rates s4) in *. clearbody s5.
  assert (E6 : _rates_int (weather_vane s5) =
               if weather_vane_mode s5
               then Vector3f.set (_rates_int s5) AXIS_INDEX_YAW F32.zero
               else _rates_int s5).
  { unfold weather_vane, weather_vane_mode.
    destruct (_ && _); [ | reflexivity]. destruct (_ || _); reflexivity. }
  pose proof (weather_vane_footprint s5) as E6'. set (s6 := weather_vane s5) in *.
  clearbody s6.
  match goal with
  | |- context [if ?b then ?p else s6] => set (s7 := if b then p else s6)
  end.
  assert (E7 : s7 = s6 <| _rates_sp := _rates_sp s7 |>)
    by (subst s7; destruct (_ && _); reflexivity).
  clearbody s7.
  change (_rates_int s7 =
          if vehicle_status_s.is_vtol (_vehicle_status s)
             && vehicle_attitude_setpoint_s.disable_mc_yaw_control (_v_att_sp s7)
             && (vehicle_control_mode_s.flag_control_velocity_enabled (_v_control_mode s)
                 || vehicle_control_mode_s.flag_control_auto_enabled (_v_control_mode s))
          then Vector3f.set (_rates_int s) AXIS_INDEX_YAW F32.zero
          else _rates_int s).
  rewrite E7.
  change (_rates_int s6 =
          if vehicle_status_s.is_vtol (_vehicle_status s)
             && vehicle_attitude_setpoint_s.disable_mc_yaw_control (_v_att_sp s6)
             && (vehicle_control_mode_s.flag_control_velocity_enabled (_v_control_mode s)
                 || vehicle_control_mode_s.flag_control_auto_enabled (_v_control_mode s))
          then Vector3f.set (_rates_int s) AXIS_INDEX_YAW F32.zero
          else _rates_int s).
  rewrite E6, E6'. unfold weather_vane_mode. rewrite E5, E4, E3, E1. reflexivity.
Qed.

(** What [control_attitude] logs agrees with what it leaves: the logged
    rate reference is the rate setpoint, the logged attitude is the Euler
    attitude of the vehicle, and the logged attitude error is the logged
    reference minus the logged attitude, entry by entry. *)
Theorem control_attitude_log fresh dt (s : state) :
  let s' := control_attitude fresh dt s in
  ude_s.attitude_dot_ref (_ude s') = _rates_sp s'
  /\ ude_s.attitude_now (_ude s') = Eulerf_of_Quatf (vehicle_attitude_s.q (_v_att s))
  /\ ude_s.error_attitude (_ude s')
     = Vector3f.sub (ude_s.attitude_ref (_ude s')) (ude_s.attitude_now (_ude s')).
Proof.
  cbv zeta. unfold control_attitude. cbv zeta.
  set (s1 := vehicle_attitude_setpoint_poll fresh s).
  assert (E1 : s1 = s <| _v_att_sp := _v_att_sp s1 |>)
    by (subst s1; unfold vehicle_attitude_setpoint_poll; destruct fresh; reflexivity).
  clearbody s1.
  set (now := Eulerf_of_Quatf _).
  match goal with |- context [if ?b then ?p else ?q] =>
    assert (E3 : fst (if b then p else q) =
                 keep_platform s1 (fst (if b then p else q))
                   <| _thrust_sp := _thrust_sp (fst (if b then p else q)) |>);
    [ destruct b; [ rewrite platform_reference_footprint at 1; reflexivity | reflexivity ] | ];
    assert (ET : _thrust_sp (fst (if b then p else q)) =
                 if b then F32.lit 4 10
                 else vehicle_attitude_setpoint_s.thrust (_v_att_sp s1));
    [ destruct b; [ unfold platform_reference; cbv zeta; branches; reflexivity
                  | reflexivity ] | ];
    destruct (if b then p else q) as [s3 r3]
  end.
  cbn [fst] in E3, ET.
  match goal with
  | |- context [apply_update (mk_update _rates_sp ?f) s3] =>
    set (s4 := apply_update (mk_update _rates_sp f) s3) in *
  end.
  assert (E4 : s4 = s3 <| _rates_sp := _rates_sp s4 |>) by reflexivity.
  clearbody s4.
  pose proof (limit_rates_footprint s4) as E5.
  set (s5 := limit_rates s4) in *. clearbody s5.
  set (s6 := weather_vane s5) in *. clearbody s6.
  match goal with
  | |- context [if ?b then ?p else s6] => set (s7 := if b then p else s6)
  end.
  clearbody s7.
  assert (En : now = Eulerf_of_Quatf (vehicle_attitude_s.q (_v_att s)))
    by (subst now; rewrite E1; reflexivity).
  clearbody now. subst now.
  repeat split; reflexivity.
Qed.

End AttitudeExtras.

(* ================================================================== *)
(** ** The UDE laws: the integral, the limited estimate, the torque sum *)

Section UdeExtras.

Context {L : Lib}.
Local Notation "'state'" := (MulticopterAttitudeControl L).

Lemma settled_eq (lim lim' old old' new : float) :
  lim = lim' -> old = old' -> settled lim old new -> settled lim' old' new.
Proof. intros -> ->. auto. Qed.

Lemma ude_reset_integral (s : state) (i : axis) :
  Vector3f.get (integral_ude (ude_reset s)) i = Vector3f.get (integral_ude s) i
  \/ Vector3f.get (integral_ude (ude_reset s)) i = F32.zero.
Proof.
  unfold ude_reset. destruct (disarmed s); [right; destruct i; reflexivity | left; reflexivity].
Qed.

Lemma m_ude_reset_integral (s : state) (i : axis) :
  Vector3f.get (integral_ude (m_ude_reset s)) i = Vector3f.get (integral_ude s) i
  \/ Vector3f.get (integral_ude (m_ude_reset s)) i = F32.zero.
Proof.
  unfold m_ude_reset. destruct (_ || _); [right; destruct i; reflexivity | left; reflexivity].
Qed.

(** The integral a law leaves, entry by entry, against the integral and
    the limit it found. *)
Lemma ude_law_settled n law fresh dt (s : state) (i : axis) :
  ude_law n = Some law ->
  exists old,
    (old = Vector3f.get (integral_ude s) i \/ old = F32.zero)
    /\ settled (Vector3f.get (integral_limit_ude s) i) old
         (Vector3f.get (integral_ude (law fresh dt s)) i).
Proof.
  intros H.
  assert (Hp : forall reset,
             reset s = keep_call s (reset s) ->
             (Vector3f.get (integral_ude (reset s)) i = Vector3f.get (integral_ude s) i
              \/ Vector3f.get (integral_ude (reset s)) i = F32.zero) ->
             integral_settled (ude_prelude reset fresh dt s) (law fresh dt s) ->
             exists old,
               (old = Vector3f.get (integral_ude s) i \/ old = F32.zero)
               /\ settled (Vector3f.get (integral_limit_ude s) i) old
                    (Vector3f.get (integral_ude (law fresh dt s)) i)).
  { intros reset Hc Hr [_ Hs]. specialize (Hs i).
    assert (E1 : integral_ude (ude_prelude reset fresh dt s) = integral_ude (reset s))
      by (apply (ude_prelude_keeps integral_ude); reflexivity).
    assert (E2 : integral_limit_ude (ude_prelude reset fresh dt s) = integral_limit_ude s).
    { rewrite (ude_prelude_keeps integral_limit_ude) by reflexivity.
      rewrite Hc. reflexivity. }
    exists (Vector3f.get (integral_ude (reset s)) i). split; [exact Hr | ].
    exact (settled_eq _ _ _ _ _ (f_equal (fun v => Vector3f.get v i) E2)
             (f_equal (fun v => Vector3f.get v i) E1) Hs). }
  destruct (ude_law_cases n law H) as [[_ ->] | [[_ ->] | [_ ->]]].
  - apply (Hp ude_reset); [apply ude_reset_call | apply ude_reset_integral | ].
    apply (control_attitude_ude_law fresh dt s).
  - apply (Hp ude_reset); [apply ude_reset_call | apply ude_reset_integral | ].
    apply (control_attitude_cascade_ude_law fresh dt s).
  - apply (Hp m_ude_reset); [apply m_ude_reset_call | apply m_ude_reset_integral | ].
    apply (control_attitude_m_ude_law fresh dt s).
Qed.

(** Whichever of the three UDE laws runs, each entry of [integral_ude]
    afterwards is the entry before the call, or zero (the reset), or a
    finite value strictly inside the limit [integral_limit_ude] of that
    axis: an update that is not finite or not inside the limit is
    dropped. *)
Theorem integral_ude_settled n law fresh dt (s : state) (i : axis) :
  ude_law n = Some law ->
  let lim := Vector3f.get (integral_limit_ude s) i in
  let new := Vector3f.get (integral_ude (law fresh dt s)) i in
  new = Vector3f.get (integral_ude s) i
  \/ new = F32.zero
  \/ (F32.PX4_ISFINITE new = true /\ (new >? - lim)%f32 = true /\ (new <? lim)%f32 = true).
Proof.
  intros H. cbv zeta.
  destruct (ude_law_settled n law fresh dt s i H) as (old & Ho & [E | Hs]).
  - rewrite E. destruct Ho as [-> | ->]; auto.
  - right. right. exact Hs.
Qed.

(** An entry of [integral_ude] that is finite stays finite through each
    of the three UDE laws, whatever the attitude, the rates, the gains
    and [dt] are. *)
Theorem integral_ude_stays_finite n law fresh dt (s : state) (i : axis) :
  ude_law n = Some law ->
  F32.PX4_ISFINITE (Vector3f.get (integral_ude s) i) = true ->
  F32.PX4_ISFINITE (Vector3f.get (integral_ude (law fresh dt s)) i) = true.
Proof.
  intros H Hf.
  destruct (ude_law_settled n law fresh dt s i H) as (old & Ho & [E | Hs]).
  - rewrite E. destruct Ho as [-> | ->]; [exact Hf | reflexivity].
  - apply Hs.
Qed.

(** What a UDE law leaves of the rate controller is what its two calls
    left: the law itself writes neither the setpoints nor the state and
    the torque of the rate controller, nor the yaw entry of its own
    integral. *)
Theorem ude_law_keeps_rate_controller n law fresh dt (s : state) :
  ude_law n = Some law ->
  let reset := if n =? 3 then m_ude_reset else ude_reset in
  let s2 := control_attitude_rates dt (control_attitude fresh dt (reset s)) in
  let s' := law fresh dt s in
  _thrust_sp s' = _thrust_sp s2
  /\ _rates_sp s' = _rates_sp s2
  /\ _rates_int s' = _rates_int s2
  /\ _att_control s' = _att_control s2
  /\ Vector3f.get (integral_ude s') AXIS_INDEX_YAW
     = Vector3f.get (integral_ude (reset s)) AXIS_INDEX_YAW.
Proof.
  intros H. cbv zeta.
  destruct (ude_law_split n law fresh dt s H) as (reset & _ & H3 & Hn & Hk & _).
  assert (Er : (if n =? 3 then m_ude_reset else ude_reset) = reset).
  { destruct (n =? 3) eqn:E; [apply Z.eqb_eq in E | apply Z.eqb_neq in E];
      symmetry; auto. }
  rewrite Er. change (control_attitude_rates dt (control_attitude fresh dt (reset s)))
    with (ude_prelude reset fresh dt s).
  set (s2 := ude_prelude reset fresh dt s) in *.
  assert (Ei : Vector3f.get (integral_ude s2) AXIS_INDEX_YAW
               = Vector3f.get (integral_ude (reset s)) AXIS_INDEX_YAW).
  { unfold s2. rewrite (ude_prelude_keeps integral_ude) by reflexivity. reflexivity. }
  rewrite <- Ei. clearbody s2. rewrite Hk.
  split; [reflexivity | ]. split; [reflexivity | ]. split; [reflexivity | ].
  split; reflexivity.
Qed.

End UdeExtras.

Lemma integral_ude_settled_witness :
  let new := Vector3f.get
      (integral_ude (control_attitude_ude None Examples.dt Examples.disarmed_flying))
      AXIS_INDEX_ROLL in
  new = Vector3f.get (integral_ude Examples.disarmed_flying) AXIS_INDEX_ROLL
  \/ new = F32.zero
  \/ (F32.PX4_ISFINITE new = true
      /\ (new >? - Vector3f.get (integral_limit_ude Examples.disarmed_flying) AXIS_INDEX_ROLL)%f32
         = true
      /\ (new <? Vector3f.get (integral_limit_ude Examples.disarmed_flying) AXIS_INDEX_ROLL)%f32
         = true).
Proof.
  apply (integral_ude_settled 1 control_attitude_ude None Examples.dt Examples.disarmed_flying
           AXIS_INDEX_ROLL).
  reflexivity.
Defined.

Lemma integral_ude_stays_finite_witness :
  F32.PX4_ISFINITE
    (Vector3f.get
       (integral_ude (control_attitude_m_ude None Examples.dt Examples.disarmed_flying))
       AXIS_INDEX_ROLL) = true.
Proof.
  apply (integral_ude_stays_finite 3 control_attitude_m_ude None Examples.dt
           Examples.disarmed_flying AXIS_INDEX_ROLL); reflexivity.
Defined.

Lemma ude_law_keeps_rate_controller_witness :
  _att_control (control_attitude_cascade_ude None Examples.dt Examples.yawing_ude)
  = _att_control
      (control_attitude_rates Examples.dt
         (control_attitude None Examples.dt (ude_reset Examples.yawing_ude))).
Proof.
  destruct (ude_law_keeps_rate_controller 2 control_attitude_cascade_ude None Examples.dt
              Examples.yawing_ude eq_refl) as (_ & _ & _ & H & _).
  exact H.
Defined.

(* ================================================================== *)
(** ** The UDE laws: their last loops *)

(** Sets the state before the last loops of a law aside: the loops that
    follow the update of the integral. *)
Ltac law_tail :=
  protect_bodies; cbv zeta; unfold axes3; unroll;
  match goal with
  | |- context [if ?c then ?y else ?x] =>
    lazymatch c with
    | (_ >? MIN_TAKEOFF_THRUST)%f32 =>
      let X := fresh "X" in set (X := if c then y else x); clearbody X
    end
  end;
  repeat match goal with
  | b := _ |- _ => lazymatch goal with |- context [b] => unfold b | _ => idtac end; clear b
  end.


Section UdeTail.

Context {L : Lib}.
Local Notation "'state'" := (MulticopterAttitudeControl L).




(** The roll and pitch torque a UDE law leaves is the sum of the terms it
    logs beside it: feed-forward, proportional and derivative term less
    [u_d] for [control_attitude_ude], without the derivative term for
    [control_attitude_cascade_ude], with the motor term [u_l_km] for
    [control_attitude_m_ude]. *)
Theorem ude_torque_sum fresh dt (s : state) (i : idx2) :
  (let u := _ude (control_attitude_ude fresh dt s) in
   Vector3f.get (ude_s.u_total u) i
   = (Vector3f.get (ude_s.feedforward u) i + Vector3f.get (ude_s.u_l_kp u) i
      + Vector3f.get (ude_s.u_l_kd u) i - Vector3f.get (ude_s.u_d u) i)%f32)
  /\ (let u := _ude (control_attitude_cascade_ude fresh dt s) in
      Vector3f.get (ude_s.u_total u) i
      = (Vector3f.get (ude_s.feedforward u) i + Vector3f.get (ude_s.u_l_kp u) i
         - Vector3f.get (ude_s.u_d u) i)%f32)
  /\ (let u := _ude (control_attitude_m_ude fresh dt s) in
      Vector3f.get (ude_s.u_total u) i
      = (Vector3f.get (ude_s.feedforward u) i + Vector3f.get (ude_s.u_l_kp u) i
         + Vector3f.get (ude_s.u_l_kd u) i + Vector3f.get (ude_s.u_l_km u) i
         - Vector3f.get (ude_s.u_d u) i)%f32).
Proof.
  split; [ | split].
  - cbv beta delta [control_attitude_ude]. law_tail. norm. destruct i; reflexivity.
  - cbv beta delta [control_attitude_cascade_ude error_for_attitude_rate]. law_tail.
    norm. destruct i; reflexivity.
  - cbv beta delta [control_attitude_m_ude error_for_attitude_rate]. law_tail.
    norm. branches; destruct i; reflexivity.
Qed.

End UdeTail.


(* ================================================================== *)
(** ** One iteration of [run] *)

Section IterationFacts.

Context {L : Lib}.
Local Notation "'state'" := (MulticopterAttitudeControl L).

Lemma keep_branch_trans (s0 s1 s2 : state) :
  s1 = keep_branch s0 s1 -> s2 = keep_branch s1 s2 -> s2 = keep_branch s0 s2.
Proof. intros H1 H2. rewrite H2, H1. reflexivity. Qed.

Lemma keep_call_branch (s s' : state) : s' = keep_call s s' -> s' = keep_branch s s'.
Proof. intros H. rewrite H. reflexivity. Qed.

Lemma keep_attitude_branch (s s' : state) : s' = keep_attitude s s' -> s' = keep_branch s s'.
Proof. intros H. rewrite H. reflexivity. Qed.

Lemma keep_rates_branch (s s' : state) : s' = keep_rates s s' -> s' = keep_branch s s'.
Proof. intros H. rewrite H. reflexivity. Qed.

Lemma keep_actuators_branch (s s' : state) :
  s' = s <| _actuators := _actuators s' |> -> s' = keep_branch s s'.
Proof. intros H. rewrite H. norm. reflexivity. Qed.

Lemma keep_pub_branch (s s' : state) :
  s' = s <| _actuators_0_pub := _actuators_0_pub s' |> -> s' = keep_branch s s'.
Proof. intros H. rewrite H. norm. reflexivity. Qed.

Lemma use_platform_branch (s s' : state) :
  s' = keep_branch s s' -> use_platform s' = use_platform s.
Proof. intros H. rewrite H. reflexivity. Qed.

Lemma breaker_branch (s s' : state) :
  s' = keep_branch s s' ->
  _actuators_0_circuit_breaker_enabled s' = _actuators_0_circuit_breaker_enabled s.
Proof. intros H. rewrite H. reflexivity. Qed.

Lemma keep_branch_if (c : bool) (s0 x y : state) :
  x = keep_branch s0 x -> y = keep_branch s0 y ->
  (if c then x else y) = keep_branch s0 (if c then x else y).
Proof. intros Hx Hy. destruct c; assumption. Qed.

Lemma ude_control_call fresh dt (s : state) :
  ude_control fresh dt s = keep_call s (ude_control fresh dt s).
Proof.
  unfold ude_control.
  destruct (switch_ude s =? 1); [exact (ude_law_call 1 _ fresh dt s eq_refl) | ].
  destruct (switch_ude s =? 2); [exact (ude_law_call 2 _ fresh dt s eq_refl) | ].
  destruct (switch_ude s =? 3); [exact (ude_law_call 3 _ fresh dt s eq_refl) | ].
  reflexivity.
Qed.

(** The channels, the scaling and the publication. *)
Lemma published_branch a b c d (s : state) :
  fst (publish_actuators (battery_scale (write_actuators a b c d s)))
  = keep_branch s (fst (publish_actuators (battery_scale (write_actuators a b c d s)))).
Proof.
  eapply keep_branch_trans; [ | apply keep_pub_branch, publish_actuators_state].
  eapply keep_branch_trans; [ | apply keep_actuators_branch, battery_scale_state].
  apply keep_actuators_branch, write_actuators_state.
Qed.

Lemma platform_zero_branch (s : state) : platform_zero s = keep_branch s (platform_zero s).
Proof. unfold platform_zero. destruct (_ =? _); reflexivity. Qed.

Lemma mixer_branch a b c d (s : state) :
  fst (mixer a b c d s) = keep_branch s (fst (mixer a b c d s)).
Proof. reflexivity. Qed.

Lemma ude_actuators_branch (s : state) :
  fst (ude_actuators s) = keep_branch s (fst (ude_actuators s)).
Proof.
  unfold ude_actuators.
  pose proof (platform_zero_branch s) as H0.
  set (s0 := platform_zero s) in *. clearbody s0.
  destruct (switch_mixer s =? 0).
  - cbv zeta.
    match goal with
    | |- context [publish_actuators (battery_scale (write_actuators ?a ?b ?c ?d ?x))] =>
      pose proof (published_branch a b c d x) as H1;
      destruct (publish_actuators (battery_scale (write_actuators a b c d x))) as [s3 o3]
    end.
    cbn [fst] in *. exact (keep_branch_trans _ _ _ H0 H1).
  - match goal with
    | |- context [mixer ?a ?b ?c ?d s0] =>
      pose proof (mixer_branch a b c d s0) as Hm;
      destruct (mixer a b c d s0) as [s1 o1]
    end.
    cbn [fst] in Hm. cbv zeta.
    match goal with
    | |- context [publish_actuators (battery_scale (write_actuators ?a ?b ?c ?d ?x))] =>
      pose proof (published_branch a b c d x) as H1;
      assert (H2 : x = keep_branch s1 x)
        by (destruct (use_platform s1 =? 1); reflexivity);
      destruct (publish_actuators (battery_scale (write_actuators a b c d x))) as [s3 o3];
      set (s2 := x) in *; clearbody s2
    end.
    cbn [fst] in *.
    exact (keep_branch_trans _ _ _ H0
             (keep_branch_trans _ _ _ Hm (keep_branch_trans _ _ _ H2 H1))).
Qed.

Lemma publish_rates_sp_branch (s : state) :
  fst (publish_rates_sp s) = keep_branch s (fst (publish_rates_sp s)).
Proof.
  unfold publish_rates_sp. cbv zeta.
  destruct (_v_rates_sp_pub _); [reflexivity | ].
  destruct (_rates_sp_id _); reflexivity.
Qed.

Lemma rates_setpoint_branch fresh fresh_rates dt (s : state) :
  fst (rates_setpoint fresh fresh_rates dt s)
  = keep_branch s (fst (rates_setpoint fresh fresh_rates dt s)).
Proof.
  unfold rates_setpoint.
  destruct (vehicle_control_mode_s.flag_control_attitude_enabled _).
  - eapply keep_branch_trans; [ | apply publish_rates_sp_branch].
    apply keep_attitude_branch, control_attitude_footprint.
  - destruct (vehicle_control_mode_s.flag_control_manual_enabled _).
    + cbv zeta.
      eapply keep_branch_trans; [ | apply publish_rates_sp_branch].
      reflexivity.
    + destruct fresh_rates; reflexivity.
Qed.

Lemma rates_actuators_branch dt (s : state) :
  fst (rates_actuators dt s) = keep_branch s (fst (rates_actuators dt s)).
Proof.
  unfold rates_actuators. cbv zeta.
  pose proof (keep_rates_branch _ _ (control_attitude_rates_footprint dt s)) as H0.
  set (s0 := control_attitude_rates dt s) in *. clearbody s0.
  match goal with
  | |- context [publish_actuators (battery_scale (write_actuators ?a ?b ?c ?d ?x))] =>
    pose proof (published_branch a b c d x) as H1;
    assert (H2 : x = keep_branch s0 x)
      by (destruct (use_platform s0 =? 1); reflexivity);
    destruct (publish_actuators (battery_scale (write_actuators a b c d x))) as [s3 o3];
    set (s2 := x) in *; clearbody s2
  end.
  cbn [fst] in *.
  exact (keep_branch_trans _ _ _ H0 (keep_branch_trans _ _ _ H2 H1)).
Qed.

Lemma run_pid_branch fresh fresh_rates dt (s : state) :
  fst (run_pid fresh fresh_rates dt s) = keep_branch s (fst (run_pid fresh fresh_rates dt s)).
Proof.
  unfold run_pid.
  pose proof (rates_setpoint_branch fresh fresh_rates dt s) as H0.
  destruct (rates_setpoint fresh fresh_rates dt s) as [s1 o1]. cbn [fst] in H0.
  destruct (vehicle_control_mode_s.flag_control_rates_enabled _); [ | exact H0].
  pose proof (rates_actuators_branch dt s1) as H1.
  destruct (rates_actuators dt s1) as [s2 o2]. cbn [fst] in *.
  exact (keep_branch_trans _ _ _ H0 H1).
Qed.

(** A control branch writes what its controllers write and the topics
    and handles it publishes with. *)
Lemma control_branch_frame fresh fresh_rates dt (s : state) :
  fst (control_branch fresh fresh_rates dt s)
  = keep_branch s (fst (control_branch fresh fresh_rates dt s)).
Proof.
  unfold control_branch. destruct (negb _); [ | apply run_pid_branch].
  unfold run_ude.
  eapply keep_branch_trans; [ | apply ude_actuators_branch].
  apply keep_call_branch, ude_control_call.
Qed.

Lemma terminate_branch (s : state) : fst (terminate s) = keep_branch s (fst (terminate s)).
Proof.
  unfold terminate. destruct (_ && _); [ | reflexivity]. cbv zeta.
  eapply keep_branch_trans; [ | apply keep_pub_branch, publish_actuators_state].
  reflexivity.
Qed.

Lemma keep_control_trans (s0 s1 s2 : state) :
  s1 = keep_control s0 s1 -> s2 = keep_control s1 s2 -> s2 = keep_control s0 s2.
Proof. intros H1 H2. rewrite H2, H1. reflexivity. Qed.

Lemma keep_branch_control (s s' : state) :
  s' = keep_branch s s' -> s' = keep_control s s'.
Proof. intros H. rewrite H. reflexivity. Qed.

Lemma rattitude_override_control (s : state) :
  rattitude_override s = keep_control s (rattitude_override s).
Proof.
  unfold rattitude_override.
  destruct (vehicle_control_mode_s.flag_control_rattitude_enabled _); [ | reflexivity].
  destruct (_ || _); reflexivity.
Qed.

Lemma update_loop_rate_state startup dt (s : state) :
  update_loop_rate startup dt s = keep_loop_rate s (update_loop_rate startup dt s).
Proof.
  unfold update_loop_rate. destruct (_ || _); [ | reflexivity]. cbv zeta.
  match goal with |- context [if ?c then _ else _] => destruct c end; reflexivity.
Qed.

(** The states of an iteration, one after the other. *)
Lemma run_iteration_stages dt_raw startup fresh fresh_rates (s : state) :
  let dt := guard_dt dt_raw in
  let s1 := rattitude_override s in
  let s2 := fst (control_branch fresh fresh_rates dt s1) in
  let s3 := fst (publish_ude_status dt s2) in
  let s4 := fst (terminate s3) in
  run_iteration dt_raw startup fresh fresh_rates s
  = (update_loop_rate startup dt s4,
     snd (control_branch fresh fresh_rates dt s1)
     ++ snd (publish_ude_status dt s2) ++ snd (terminate s3)).
Proof.
  cbv zeta. unfold run_iteration. cbv zeta.
  destruct (control_branch fresh fresh_rates (guard_dt dt_raw) (rattitude_override s))
    as [s2 o2].
  cbn [fst snd]. unfold publish_ude_status. cbv zeta. cbn [fst snd].
  destruct (terminate _) as [s4 o4]. reflexivity.
Qed.

End IterationFacts.

(* ================================================================== *)
(** ** What an iteration publishes *)

Lemma in_ude_messages (out : list orb_msg) (u : ude_s.t) :
  In u (ude_messages out) <-> In (pub_ude u) out.
Proof.
  unfold ude_messages. rewrite in_flat_map. split.
  - intros (m & Hm & Hu). destruct m; cbn in Hu; try contradiction.
    destruct Hu as [<- | []]. exact Hm.
  - intros H. exists (pub_ude u). split; [exact H | left; reflexivity].
Qed.

Lemma in_actuator_messages (out : list orb_msg) (a : actuator_controls_s.t) :
  In a (actuator_messages out) <-> In (pub_actuators a) out.
Proof.
  unfold actuator_messages. rewrite in_flat_map. split.
  - intros (m & Hm & Ha). destruct m; cbn in Ha; try contradiction.
    destruct Ha as [<- | []]. exact Hm.
  - intros H. exists (pub_actuators a). split; [exact H | left; reflexivity].
Qed.

Lemma no_element {A} (l : list A) : (forall a, ~ In a l) -> l = [].
Proof. destruct l as [ | a l]; [reflexivity | ]. intros H. destruct (H a). left. reflexivity. Qed.

Section Published.

Context {L : Lib}.
Local Notation "'state'" := (MulticopterAttitudeControl L).

Lemma branch_output_app (s : state) (o1 o2 : list orb_msg) :
  branch_output s o1 -> branch_output s o2 -> branch_output s (o1 ++ o2).
Proof. intros H1 H2 m Hm. apply in_app_or in Hm. destruct Hm; auto. Qed.

Lemma branch_output_nil (s : state) : branch_output s [].
Proof. intros m []. Qed.

Lemma from_channels_trans (s0 s1 : state) (m : orb_msg) :
  s1 = keep_branch s0 s1 -> from_channels s1 m -> from_channels s0 m.
Proof.
  intros H (c0 & c1 & c2 & c3 & x & Hx & Hp & Hm).
  exists c0, c1, c2, c3, x. split; [exact (keep_branch_trans _ _ _ H Hx) | ].
  split; [ | exact Hm].
  intros Hu. apply Hp. rewrite H. exact Hu.
Qed.

Lemma branch_output_trans (s0 s1 : state) (out : list orb_msg) :
  s1 = keep_branch s0 s1 -> branch_output s1 out -> branch_output s0 out.
Proof.
  intros H Ho m Hm. destruct (Ho m Hm) as [Ht | Hc]; [left; exact Ht | right].
  exact (from_channels_trans _ _ _ H Hc).
Qed.

Lemma ude_actuators_output (s : state) : branch_output s (snd (ude_actuators s)).
Proof.
  unfold ude_actuators.
  pose proof (platform_zero_branch s) as H0.
  assert (Hz : (use_platform s =? 1) = true ->
               v0 (ude_s.u_total (_ude (platform_zero s))) = F32.zero
               /\ v2 (ude_s.u_total (_ude (platform_zero s))) = F32.zero).
  { intros Hp. unfold platform_zero. rewrite Hp. split; reflexivity. }
  set (s0 := platform_zero s) in *. clearbody s0.
  destruct (switch_mixer s =? 0).
  - cbv zeta.
    match goal with
    | |- context [publish_actuators (battery_scale (write_actuators ?a ?b ?c ?d ?x))] =>
      assert (Ho : branch_output s
                     (snd (publish_actuators (battery_scale (write_actuators a b c d x)))))
        by (intros m Hm; right; exists a, b, c, d, x; split; [exact H0 | split; assumption]);
      destruct (publish_actuators (battery_scale (write_actuators a b c d x))) as [s3 o3]
    end.
    cbn [fst snd app] in *. exact Ho.
  - pose proof (use_platform_branch _ _ H0) as Hu.
    match goal with
    | |- context [mixer ?a ?b ?c ?d s0] =>
      pose proof (mixer_branch a b c d s0) as Hm;
      assert (Hx : branch_output s (snd (mixer a b c d s0)))
        by (intros m [<- | []]; left; exact I);
      destruct (mixer a b c d s0) as [s1 o1]
    end.
    cbn [fst snd] in Hm, Hx. cbv zeta.
    pose proof (use_platform_branch _ _ Hm) as Hu1.
    match goal with
    | |- context [publish_actuators (battery_scale (write_actuators ?a ?b ?c ?d ?x))] =>
      assert (H2 : x = keep_branch s1 x)
        by (destruct (use_platform s1 =? 1); reflexivity);
      assert (Hc : (use_platform s =? 1) = true -> a = F32.zero /\ c = F32.zero)
        by (intros Hp; rewrite <- Hu, <- Hu1 in Hp; rewrite Hp; split; reflexivity);
      assert (Ho : branch_output s
                     (snd (publish_actuators (battery_scale (write_actuators a b c d x)))))
        by (intros m Hi; right; exists a, b, c, d, x;
            split; [exact (keep_branch_trans _ _ _ H0 (keep_branch_trans _ _ _ Hm H2))
                   | split; assumption]);
      destruct (publish_actuators (battery_scale (write_actuators a b c d x))) as [s3 o3]
    end.
    cbn [fst snd] in *. apply branch_output_app; assumption.
Qed.

Lemma publish_rates_sp_output (s0 s : state) :
  branch_output s0 (snd (publish_rates_sp s)).
Proof.
  unfold publish_rates_sp. cbv zeta.
  destruct (_v_rates_sp_pub _); [ | destruct (_rates_sp_id _)]; cbn [snd];
    intros m Hm; try contradiction; destruct Hm as [<- | []]; left; exact I.
Qed.

Lemma rates_setpoint_output fresh fresh_rates dt (s : state) :
  branch_output s (snd (rates_setpoint fresh fresh_rates dt s)).
Proof.
  unfold rates_setpoint.
  destruct (vehicle_control_mode_s.flag_control_attitude_enabled _);
    [apply publish_rates_sp_output | ].
  destruct (vehicle_control_mode_s.flag_control_manual_enabled _);
    [apply publish_rates_sp_output | apply branch_output_nil].
Qed.

Lemma rates_actuators_output dt (s : state) :
  branch_output s (snd (rates_actuators dt s)).
Proof.
  unfold rates_actuators. cbv zeta.
  pose proof (keep_rates_branch _ _ (control_attitude_rates_footprint dt s)) as H0.
  pose proof (use_platform_branch _ _ H0) as Hu.
  set (s0 := control_attitude_rates dt s) in *. clearbody s0.
  match goal with
  | |- context [publish_actuators (battery_scale (write_actuators ?a ?b ?c ?d ?x))] =>
    assert (H2 : x = keep_branch s0 x)
      by (destruct (use_platform s0 =? 1); reflexivity);
    assert (Hc : (use_platform s =? 1) = true -> a = F32.zero /\ c = F32.zero)
      by (intros Hp; rewrite <- Hu in Hp; rewrite Hp; split; reflexivity);
    assert (Ho : branch_output s
                   (snd (publish_actuators (battery_scale (write_actuators a b c d x)))))
      by (intros m Hi; right; exists a, b, c, d, x;
          split; [exact (keep_branch_trans _ _ _ H0 H2) | split; assumption]);
    destruct (publish_actuators (battery_scale (write_actuators a b c d x))) as [s3 o3]
  end.
  cbn [fst snd] in *. apply branch_output_app; [exact Ho | ].
  intros m [<- | []]. left. exact I.
Qed.

Lemma run_pid_output fresh fresh_rates dt (s : state) :
  branch_output s (snd (run_pid fresh fresh_rates dt s)).
Proof.
  unfold run_pid.
  pose proof (rates_setpoint_branch fresh fresh_rates dt s) as H0.
  pose proof (rates_setpoint_output fresh fresh_rates dt s) as Ho.
  destruct (rates_setpoint fresh fresh_rates dt s) as [s1 o1]. cbn [fst snd] in H0, Ho.
  destruct (vehicle_control_mode_s.flag_control_rates_enabled _); [ | exact Ho].
  pose proof (rates_actuators_output dt s1) as H1.
  destruct (rates_actuators dt s1) as [s2 o2]. cbn [fst snd] in *.
  apply branch_output_app; [exact Ho | ].
  exact (branch_output_trans _ _ _ H0 H1).
Qed.

(** What a control branch publishes. *)
Lemma control_branch_output fresh fresh_rates dt (s : state) :
  branch_output s (snd (control_branch fresh fresh_rates dt s)).
Proof.
  unfold control_branch. destruct (negb _); [ | apply run_pid_output].
  unfold run_ude.
  apply (branch_output_trans s (ude_control fresh dt s));
    [apply keep_call_branch, ude_control_call | apply ude_actuators_output].
Qed.

Lemma from_channels_actuators (s : state) (m : orb_msg) :
  from_channels s m -> exists a, m = pub_actuators a.
Proof.
  intros (c0 & c1 & c2 & c3 & x & _ & _ & Hm).
  apply publish_actuators_out in Hm. eauto.
Qed.

Lemma branch_output_ude (s : state) (out : list orb_msg) :
  branch_output s out -> ude_messages out = [].
Proof.
  intros Ho. apply no_element. intros u Hu. apply in_ude_messages in Hu.
  destruct (Ho _ Hu) as [[] | Hc].
  destruct (from_channels_actuators _ _ Hc) as [a Ha]. discriminate.
Qed.

Lemma publish_actuators_breaker (s : state) :
  _actuators_0_circuit_breaker_enabled s = true -> snd (publish_actuators s) = [].
Proof. unfold publish_actuators. intros ->. reflexivity. Qed.

Lemma published_breaker a b c d (s : state) :
  _actuators_0_circuit_breaker_enabled s = true ->
  snd (publish_actuators (battery_scale (write_actuators a b c d s))) = [].
Proof.
  intros Hb. apply publish_actuators_breaker.
  rewrite battery_scale_state. exact Hb.
Qed.

Lemma branch_output_breaker (s : state) (out : list orb_msg) :
  _actuators_0_circuit_breaker_enabled s = true ->
  branch_output s out -> actuator_messages out = [].
Proof.
  intros Hb Ho. apply no_element. intros a Ha. apply in_actuator_messages in Ha.
  destruct (Ho _ Ha) as [[] | (c0 & c1 & c2 & c3 & x & Hx & _ & Hm)].
  rewrite published_breaker in Hm; [exact Hm | ].
  rewrite (breaker_branch _ _ Hx). exact Hb.
Qed.

End Published.

(* ================================================================== *)
(** ** One iteration of [run]: what it keeps, what it publishes *)

Lemma ude_messages_app (o1 o2 : list orb_msg) :
  ude_messages (o1 ++ o2) = ude_messages o1 ++ ude_messages o2.
Proof. apply flat_map_app. Qed.

Lemma actuator_messages_app (o1 o2 : list orb_msg) :
  actuator_messages (o1 ++ o2) = actuator_messages o1 ++ actuator_messages o2.
Proof. apply flat_map_app. Qed.

(** Zero times a positive finite scale. *)
Lemma zero_scaled (x : float) :
  (x >? F32.zero)%f32 = true -> F32.PX4_ISFINITE x = true -> (F32.zero * x)%f32 = F32.zero.
Proof. destruct x as [ [] | [] | | [] m e]; intros H1 H2; try discriminate; reflexivity. Qed.

Section Clock.

Context {L : Lib}.
Local Notation "'state'" := (MulticopterAttitudeControl L).

(** The clock of the UDE log. *)
Local Abbreviation clock s := (ude_s.start_time (_ude s)).

Lemma ude_control_clock fresh dt (s : state) :
  clock (ude_control fresh dt s) = clock s.
Proof.
  assert (Hl : forall n law, ude_law n = Some law -> clock (law fresh dt s) = clock s).
  { intros n law H.
    destruct (ude_law_split n law fresh dt s H) as (reset & Hr & _ & _ & Hk & _).
    rewrite Hk.
    change (clock (ude_prelude reset fresh dt s) = clock s).
    rewrite (ude_prelude_keeps (fun x => clock x)) by reflexivity.
    destruct Hr as [-> | ->].
    - unfold ude_reset. destruct (disarmed s); reflexivity.
    - unfold m_ude_reset. destruct (_ || _); reflexivity. }
  unfold ude_control.
  destruct (switch_ude s =? 1); [exact (Hl 1 _ eq_refl) | ].
  destruct (switch_ude s =? 2); [exact (Hl 2 _ eq_refl) | ].
  destruct (switch_ude s =? 3); [exact (Hl 3 _ eq_refl) | ].
  reflexivity.
Qed.

Lemma published_ude a b c d (s : state) :
  _ude (fst (publish_actuators (battery_scale (write_actuators a b c d s)))) = _ude s.
Proof.
  rewrite publish_actuators_state.
  change (_ude (battery_scale (write_actuators a b c d s)) = _ude s).
  rewrite battery_scale_state. reflexivity.
Qed.

Lemma ude_actuators_clock (s : state) : clock (fst (ude_actuators s)) = clock s.
Proof.
  unfold ude_actuators.
  assert (H0 : clock (platform_zero s) = clock s)
    by (unfold platform_zero; destruct (_ =? _); reflexivity).
  set (s0 := platform_zero s) in *. clearbody s0.
  destruct (switch_mixer s =? 0).
  - cbv zeta.
    match goal with
    | |- context [publish_actuators (battery_scale (write_actuators ?a ?b ?c ?d ?x))] =>
      pose proof (published_ude a b c d x) as H1;
      destruct (publish_actuators (battery_scale (write_actuators a b c d x))) as [s3 o3]
    end.
    cbn [fst] in *. rewrite H1. exact H0.
  - match goal with
    | |- context [mixer ?a ?b ?c ?d s0] =>
      assert (Hm : _ude (fst (mixer a b c d s0)) = _ude s0) by reflexivity;
      destruct (mixer a b c d s0) as [s1 o1]
    end.
    cbn [fst] in Hm. cbv zeta.
    match goal with
    | |- context [publish_actuators (battery_scale (write_actuators ?a ?b ?c ?d ?x))] =>
      pose proof (published_ude a b c d x) as H1;
      assert (H2 : _ude x = _ude s1)
        by (destruct (use_platform s1 =? 1); reflexivity);
      destruct (publish_actuators (battery_scale (write_actuators a b c d x))) as [s3 o3]
    end.
    cbn [fst] in *. rewrite H1, H2, Hm. exact H0.
Qed.

Lemma publish_rates_sp_ude (s : state) : _ude (fst (publish_rates_sp s)) = _ude s.
Proof.
  unfold publish_rates_sp. cbv zeta.
  destruct (_v_rates_sp_pub _); [reflexivity | ].
  destruct (_rates_sp_id _); reflexivity.
Qed.

Lemma rates_setpoint_clock fresh fresh_rates dt (s : state) :
  clock (fst (rates_setpoint fresh fresh_rates dt s)) = clock s.
Proof.
  unfold rates_setpoint.
  destruct (vehicle_control_mode_s.flag_control_attitude_enabled _).
  - rewrite publish_rates_sp_ude, control_attitude_footprint. reflexivity.
  - destruct (vehicle_control_mode_s.flag_control_manual_enabled _).
    + cbv zeta. rewrite publish_rates_sp_ude. reflexivity.
    + destruct fresh_rates; reflexivity.
Qed.

Lemma rates_actuators_clock dt (s : state) : clock (fst (rates_actuators dt s)) = clock s.
Proof.
  unfold rates_actuators. cbv zeta.
  assert (H0 : clock (control_attitude_rates dt s) = clock s)
    by (rewrite control_attitude_rates_footprint; reflexivity).
  set (s0 := control_attitude_rates dt s) in *. clearbody s0.
  match goal with
  | |- context [publish_actuators (battery_scale (write_actuators ?a ?b ?c ?d ?x))] =>
    pose proof (published_ude a b c d x) as H1;
    assert (H2 : _ude x = _ude s0)
      by (destruct (use_platform s0 =? 1); reflexivity);
    destruct (publish_actuators (battery_scale (write_actuators a b c d x))) as [s3 o3]
  end.
  cbn [fst] in *. rewrite H1, H2. exact H0.
Qed.

(** A control branch leaves the clock of the UDE log alone. *)
Lemma control_branch_clock fresh fresh_rates dt (s : state) :
  clock (fst (control_branch fresh fresh_rates dt s)) = clock s.
Proof.
  unfold control_branch. destruct (negb _).
  - unfold run_ude. rewrite ude_actuators_clock. apply ude_control_clock.
  - unfold run_pid.
    pose proof (rates_setpoint_clock fresh fresh_rates dt s) as H0.
    destruct (rates_setpoint fresh fresh_rates dt s) as [s1 o1]. cbn [fst] in H0.
    destruct (vehicle_control_mode_s.flag_control_rates_enabled _); [ | exact H0].
    pose proof (rates_actuators_clock dt s1) as H1.
    destruct (rates_actuators dt s1) as [s2 o2]. cbn [fst] in *.
    rewrite H1. exact H0.
Qed.

Lemma terminate_ude (s : state) : _ude (fst (terminate s)) = _ude s.
Proof.
  unfold terminate. destruct (_ && _); [ | reflexivity]. cbv zeta.
  rewrite publish_actuators_state. reflexivity.
Qed.

Lemma terminate_output (s : state) :
  ude_messages (snd (terminate s)) = []
  /\ forall m, In m (snd (terminate s)) ->
       m = pub_actuators (_actuators (fst (terminate s)))
       /\ terminating s = true.
Proof.
  unfold terminate, terminating. destruct (_ && _).
  - cbv zeta.
    match goal with |- context [publish_actuators ?x] =>
      pose proof (publish_actuators_out x) as Ho;
      pose proof (publish_actuators_state x) as Hs;
      destruct (publish_actuators x) as [s1 o1]; set (z := x) in *; clearbody z
    end.
    cbn [fst snd] in *. split.
    + apply no_element. intros u Hu. apply in_ude_messages in Hu.
      apply Ho in Hu. discriminate.
    + intros m Hm. split; [ | reflexivity]. rewrite (Ho m Hm), Hs. reflexivity.
  - split; [reflexivity | intros m []].
Qed.

End Clock.

Section IterationExtras.

Context {L : Lib}.
Local Notation "'state'" := (MulticopterAttitudeControl L).

(** The state before the flight termination of an iteration. *)
Lemma before_terminate_control fresh fresh_rates dt (s : state) :
  let s3 := fst (publish_ude_status dt
                   (fst (control_branch fresh fresh_rates dt (rattitude_override s)))) in
  s3 = keep_control s s3.
Proof.
  cbv zeta.
  eapply keep_control_trans; [ | apply keep_branch_control; reflexivity].
  eapply keep_control_trans; [ | apply keep_branch_control, control_branch_frame].
  apply rattitude_override_control.
Qed.

(** The state before the estimate of the loop rate. *)
Lemma before_loop_rate_control fresh fresh_rates dt (s : state) :
  let s4 := fst (terminate
                   (fst (publish_ude_status dt
                           (fst (control_branch fresh fresh_rates dt
                                   (rattitude_override s)))))) in
  s4 = keep_control s s4.
Proof.
  cbv zeta.
  eapply keep_control_trans; [ | apply keep_branch_control, terminate_branch].
  apply before_terminate_control.
Qed.

Lemma keep_control_loop_rate (s0 s1 s2 : state) :
  s1 = keep_control s0 s1 -> s2 = keep_loop_rate s1 s2 -> s2 = keep_iteration s0 s2.
Proof. intros H1 H2. rewrite H2, H1. reflexivity. Qed.

(** An iteration of [run], once its subscriptions are refreshed, writes
    the state of the controllers, their setpoints (the two setpoint topics
    it polls included), logs and filters, the publication handles, the
    flag that the rattitude mode clears and the estimate of the loop rate,
    and nothing else: the gains, limits, switches and thresholds, the
    circuit breaker, the topic ids and the other topics it received are as
    they were. *)
Theorem run_iteration_frame dt_raw startup fresh fresh_rates (s : state) :
  let s' := fst (run_iteration dt_raw startup fresh fresh_rates s) in
  s' = keep_iteration s s'.
Proof.
  cbv zeta. rewrite run_iteration_stages. cbv zeta. cbn [fst].
  pose proof (before_loop_rate_control fresh fresh_rates (guard_dt dt_raw) s) as H4.
  cbv zeta in H4.
  set (s4 := fst (terminate _)) in *. clearbody s4.
  exact (keep_control_loop_rate _ _ _ H4 (update_loop_rate_state _ _ s4)).
Qed.

(** With the circuit breaker of the rate controller engaged, an
    iteration publishes nothing on the actuator topic, flight termination
    included. *)
Theorem circuit_breaker_silences_actuators dt_raw startup fresh fresh_rates (s : state) :
  _actuators_0_circuit_breaker_enabled s = true ->
  actuator_messages (snd (run_iteration dt_raw startup fresh fresh_rates s)) = [].
Proof.
  intros Hb. rewrite run_iteration_stages. cbv zeta. cbn [snd].
  rewrite !actuator_messages_app.
  pose proof (before_terminate_control fresh fresh_rates (guard_dt dt_raw) s) as H3.
  cbv zeta in H3.
  rewrite (branch_output_breaker (rattitude_override s));
    [ | rewrite rattitude_override_control; exact Hb | apply control_branch_output ].
  set (s3 := fst (publish_ude_status _ _)) in *.
  assert (Hb3 : _actuators_0_circuit_breaker_enabled s3 = true)
    by (rewrite H3; exact Hb).
  clearbody s3. cbn [app].
  unfold terminate. destruct (_ && _); [ | reflexivity]. cbv zeta.
  rewrite publish_actuators_breaker; [reflexivity | exact Hb3].
Qed.

Lemma terminating_control (s s' : state) :
  s' = keep_control s s' -> terminating s' = terminating s.
Proof. intros H. rewrite H. reflexivity. Qed.

Lemma publishing_control (s s' : state) :
  s' = keep_control s s' ->
  _actuators_0_circuit_breaker_enabled s' = _actuators_0_circuit_breaker_enabled s
  /\ _actuators_id s' = _actuators_id s.
Proof. intros H. rewrite H. split; reflexivity. Qed.

(** Flight termination on a vehicle that is not a VTOL: the iteration
    ends with the rate setpoint, both integrals, the thrust setpoint, the
    torque command and the four torque and thrust channels at zero,
    whatever the controller computed before; and unless the circuit
    breaker is engaged or the actuator topic is not yet known, the last
    message it publishes is these actuator controls. *)
Theorem termination_zeroes dt_raw startup fresh fresh_rates (s : state) :
  terminating s = true ->
  let s' := fst (run_iteration dt_raw startup fresh fresh_rates s) in
  (_rates_sp s' = Vector3f.zero /\ _rates_int s' = Vector3f.zero
   /\ integral_ude s' = Vector3f.zero /\ _thrust_sp s' = F32.zero
   /\ _att_control s' = Vector3f.zero /\ channels_zero (_actuators s'))
  /\ (_actuators_0_circuit_breaker_enabled s = false -> _actuators_id s = true ->
      exists out,
        snd (run_iteration dt_raw startup fresh fresh_rates s)
        = out ++ [pub_actuators (_actuators s')]).
Proof.
  intros Ht. cbv zeta. rewrite run_iteration_stages. cbv zeta. cbn [fst snd].
  pose proof (before_terminate_control fresh fresh_rates (guard_dt dt_raw) s) as H3.
  cbv zeta in H3.
  set (o2 := snd (control_branch _ _ _ _)). clearbody o2.
  set (s3 := fst (publish_ude_status _ _)) in *.
  set (o3 := snd (publish_ude_status _ _)). clearbody o3.
  pose proof (terminating_control _ _ H3) as Ht3. rewrite Ht in Ht3.
  destruct (publishing_control _ _ H3) as [Hb3 Hi3].
  clearbody s3.
  unfold terminate. unfold terminating in Ht3. rewrite Ht3. cbv zeta.
  match goal with |- context [publish_actuators ?x] =>
    pose proof (publish_actuators_state x) as Hs;
    assert (Hz : (_rates_sp x = Vector3f.zero /\ _rates_int x = Vector3f.zero
                  /\ integral_ude x = Vector3f.zero /\ _thrust_sp x = F32.zero
                  /\ _att_control x = Vector3f.zero /\ channels_zero (_actuators x)))
      by (split; [reflexivity | ]; split; [reflexivity | ]; split; [reflexivity | ];
          split; [reflexivity | ]; split; [reflexivity | ];
          intros i [<- | [<- | [<- | [<- | []]]]]; reflexivity);
    assert (Ho : _actuators_0_circuit_breaker_enabled s = false -> _actuators_id s = true ->
                 snd (publish_actuators x) = [pub_actuators (_actuators x)])
      by (intros Hb Hi; rewrite <- Hb3 in Hb; rewrite <- Hi3 in Hi;
          unfold publish_actuators;
          change (_actuators_0_circuit_breaker_enabled x)
            with (_actuators_0_circuit_breaker_enabled s3);
          change (_actuators_id x) with (_actuators_id s3);
          rewrite Hb, Hi; destruct (_actuators_0_pub x); reflexivity);
    destruct (publish_actuators x) as [s4 o4]; set (z := x) in *; clearbody z
  end.
  cbn [fst snd] in *.
  assert (E : update_loop_rate startup (guard_dt dt_raw) s4
              = keep_loop_rate (z <| _actuators_0_pub := _actuators_0_pub s4 |>)
                  (update_loop_rate startup (guard_dt dt_raw) s4)).
  { rewrite <- Hs. apply update_loop_rate_state. }
  rewrite E. split; [exact Hz | ].
  intros Hb Hi. exists (o2 ++ o3). rewrite (Ho Hb Hi), app_assoc. reflexivity.
Qed.

(** Every iteration publishes the UDE status exactly once, whichever
    controller ran and whether or not the flight is terminated: the log as
    the iteration leaves it, its clock [start_time] advanced by the guarded
    time step. *)
Theorem ude_status_once dt_raw startup fresh fresh_rates (s : state) :
  let s' := fst (run_iteration dt_raw startup fresh fresh_rates s) in
  ude_messages (snd (run_iteration dt_raw startup fresh fresh_rates s)) = [_ude s']
  /\ ude_s.start_time (_ude s')
     = (ude_s.start_time (_ude s) + guard_dt dt_raw)%f32.
Proof.
  cbv zeta. rewrite run_iteration_stages. cbv zeta. cbn [fst snd].
  rewrite !ude_messages_app.
  rewrite (branch_output_ude (rattitude_override s)) by apply control_branch_output.
  pose proof (control_branch_clock fresh fresh_rates (guard_dt dt_raw)
                (rattitude_override s)) as Hc.
  assert (Hr : ude_s.start_time (_ude (rattitude_override s))
               = ude_s.start_time (_ude s))
    by (unfold rattitude_override;
        destruct (vehicle_control_mode_s.flag_control_rattitude_enabled _); [ | reflexivity];
        destruct (_ || _); reflexivity).
  rewrite Hr in Hc.
  set (s2 := fst (control_branch _ _ _ _)) in *. clearbody s2.
  unfold publish_ude_status. cbv zeta. cbn [fst snd].
  match goal with |- context [terminate ?x] =>
    destruct (terminate_output x) as [Ho _];
    pose proof (terminate_ude x) as Hu;
    assert (Hx : ude_s.start_time (_ude x)
                 = (ude_s.start_time (_ude s2) + guard_dt dt_raw)%f32) by reflexivity;
    assert (Hm : ude_messages [pub_ude (_ude x)] = [_ude x]) by reflexivity;
    set (s3 := x) in *; clearbody s3
  end.
  rewrite Ho, Hm. cbn [app].
  assert (E : _ude (update_loop_rate startup (guard_dt dt_raw) (fst (terminate s3)))
              = _ude s3)
    by (rewrite update_loop_rate_state; exact Hu).
  rewrite E. split; [reflexivity | ]. rewrite Hx, Hc. reflexivity.
Qed.

Lemma control_keeps (s s' : state) :
  s' = keep_control s s' ->
  dt_accumulator s' = dt_accumulator s /\ loop_counter s' = loop_counter s
  /\ _loop_update_rate_hz s' = _loop_update_rate_hz s
  /\ vehicle_control_mode_s.flag_armed (_v_control_mode s')
     = vehicle_control_mode_s.flag_armed (_v_control_mode s).
Proof. intros H. rewrite H. repeat split; reflexivity. Qed.

(** The estimate of the loop rate.  While the vehicle is disarmed or the
    task has just started, an iteration counts itself and adds its
    guarded time step to the accumulator, and when more than a second has
    accumulated it starts both again from zero, so that the accumulator it
    leaves does not exceed a second; otherwise it leaves the counter, the
    accumulator and the estimate alone. *)
Theorem loop_rate_estimate dt_raw startup fresh fresh_rates (s : state) :
  let s' := fst (run_iteration dt_raw startup fresh fresh_rates s) in
  if estimating startup s then
    (dt_accumulator s' >? F32.one)%f32 = false
    /\ ((loop_counter s' = 0 /\ dt_accumulator s' = F32.zero)
        \/ (loop_counter s' = loop_counter s + 1
            /\ dt_accumulator s' = (dt_accumulator s + guard_dt dt_raw)%f32
            /\ _loop_update_rate_hz s' = _loop_update_rate_hz s))
  else
    loop_counter s' = loop_counter s /\ dt_accumulator s' = dt_accumulator s
    /\ _loop_update_rate_hz s' = _loop_update_rate_hz s.
Proof.
  cbv zeta. rewrite run_iteration_stages. cbv zeta. cbn [fst].
  pose proof (before_loop_rate_control fresh fresh_rates (guard_dt dt_raw) s) as H4.
  cbv zeta in H4.
  set (s4 := fst (terminate _)) in *.
  destruct (control_keeps _ _ H4) as (Ha & Hc & Hr & Hf).
  clearbody s4.
  unfold estimating, update_loop_rate. rewrite Hf.
  destruct (negb _ || startup); [ | auto].
  cbv zeta.
  match goal with |- context [if ?c then _ else _] => destruct c eqn:Hgt end.
  - split; [reflexivity | left; split; reflexivity].
  - split; [exact Hgt | right].
    split; [exact (f_equal (fun z => z + 1) Hc) | ].
    split; [exact (f_equal (fun x => (x + guard_dt dt_raw)%f32) Ha) | exact Hr].
Qed.





Lemma scaling_branch (s s' : state) :
  s' = keep_branch s s' ->
  battery_scaling s' = battery_scaling s /\ _battery_status s' = _battery_status s.
Proof. intros H. rewrite H. split; reflexivity. Qed.

Lemma scaled_zero_channel (s : state) (i : nat) :
  In i [0%nat; 1%nat; 2%nat; 3%nat] ->
  (battery_scaling s = true ->
   F32.PX4_ISFINITE (battery_status_s.scale (_battery_status s)) = true) ->
  actuator_controls_s.get (_actuators s) i = F32.zero ->
  actuator_controls_s.get (_actuators (battery_scale s)) i = F32.zero.
Proof.
  intros Hi Hf Hz. rewrite battery_scale_channel by exact Hi.
  destruct (battery_scaling s) eqn:Hb; [ | exact Hz].
  rewrite Hz. apply zero_scaled; [ | auto].
  unfold battery_scaling in Hb. apply andb_prop in Hb. apply Hb.
Qed.

(** On the test bench ([use_platform == 1]) every message an iteration
    publishes on the actuator topic has its roll and yaw channels at zero,
    whichever controller ran: only pitch and thrust are actuated.  (A
    battery scale that is not finite is excluded.) *)
Theorem platform_actuates_pitch_only dt_raw startup fresh fresh_rates (s : state) :
  use_platform s = 1 ->
  (battery_scaling s = true ->
   F32.PX4_ISFINITE (battery_status_s.scale (_battery_status s)) = true) ->
  forall a,
    In a (actuator_messages (snd (run_iteration dt_raw startup fresh fresh_rates s))) ->
    actuator_controls_s.get a 0 = F32.zero /\ actuator_controls_s.get a 2 = F32.zero.
Proof.
  intros Hp Hf a Ha. apply in_actuator_messages in Ha.
  rewrite run_iteration_stages in Ha. cbv zeta in Ha. cbn [snd] in Ha.
  apply in_app_or in Ha. destruct Ha as [Ha | Ha].
  - destruct (control_branch_output fresh fresh_rates (guard_dt dt_raw)
                (rattitude_override s) _ Ha)
      as [[] | (c0 & c1 & c2 & c3 & x & Hx & Hc & Hm)].
    assert (Hx' : x = keep_control s x).
    { eapply keep_control_trans; [apply rattitude_override_control | ].
      apply keep_branch_control, Hx. }
    assert (Hu : (use_platform (rattitude_override s) =? 1) = true).
    { rewrite rattitude_override_control. apply Z.eqb_eq, Hp. }
    destruct (Hc Hu) as [-> ->].
    apply publish_actuators_out, pub_actuators_inj in Hm. rewrite Hm.
    assert (Hw : battery_scaling (write_actuators F32.zero c1 F32.zero c3 x) = true ->
                 F32.PX4_ISFINITE
                   (battery_status_s.scale
                      (_battery_status (write_actuators F32.zero c1 F32.zero c3 x)))
                 = true).
    { rewrite write_actuators_state. rewrite Hx'. exact Hf. }
    split; apply scaled_zero_channel; try exact Hw; cbn; auto.
  - apply in_app_or in Ha. destruct Ha as [Ha | Ha].
    + unfold publish_ude_status in Ha. cbn in Ha. destruct Ha as [Ha | []]. discriminate.
    + match type of Ha with In _ (snd (terminate ?x)) =>
        destruct (terminate_output x) as [_ Ho]; destruct (Ho _ Ha) as [Hm Ht];
        unfold terminate in Hm; unfold terminating in Ht; rewrite Ht in Hm;
        cbv zeta in Hm; rewrite publish_actuators_state in Hm
      end.
      apply pub_actuators_inj in Hm. rewrite Hm. split; reflexivity.
Qed.

End IterationExtras.

Lemma termination_zeroes_witness :
  let s := Ref.init <| _v_control_mode ->
                         vehicle_control_mode_s.flag_control_termination_enabled := true |>
                    <| _rates_int := Ref.ones |> in
  _rates_int (fst (run_iteration Examples.dt false None None s)) = Vector3f.zero.
Proof.
  cbv zeta.
  match goal with |- _rates_int (fst (run_iteration _ _ _ _ ?s)) = _ =>
    destruct (termination_zeroes Examples.dt false None None s eq_refl) as [(_ & H & _) _]
  end.
  exact H.
Defined.

Lemma platform_actuates_pitch_only_witness :
  let a := _actuators (fst (run_iteration Examples.dt false None None Examples.platform_ude)) in
  actuator_controls_s.get a 0 = F32.zero /\ actuator_controls_s.get a 2 = F32.zero.
Proof.
  cbv zeta.
  apply (platform_actuates_pitch_only Examples.dt false None None Examples.platform_ude);
    [reflexivity | discriminate | vm_compute; auto].
Defined.

Lemma circuit_breaker_silences_actuators_witness :
  actuator_messages
    (snd (run_iteration Examples.dt false None None
            (Ref.init <| _actuators_0_circuit_breaker_enabled := true |>))) = [].
Proof.
  apply (circuit_breaker_silences_actuators Examples.dt false None None
           (Ref.init <| _actuators_0_circuit_breaker_enabled := true |>)).
  reflexivity.
Defined.

(* ================================================================== *)
(** ** The mixer: mirror symmetry of the motor thrusts *)

Lemma round_aux_opp (s : bool) (m e : Z) (l : location) :
  SFopp (binary_round_aux F32.prec F32.emax s m e l)
  = binary_round_aux F32.prec F32.emax (negb s) m e l.
Proof.
  unfold binary_round_aux.
  destruct (shr_fexp F32.prec F32.emax m e l) as [r1 e1].
  destruct (shr_fexp F32.prec F32.emax _ e1 loc_Exact) as [r2 e2].
  destruct (shr_m r2); [reflexivity | | reflexivity].
  destruct (e2 <=? F32.emax - F32.prec); reflexivity.
Qed.

Lemma mul_opp_l (x y : float) : (- x * y)%f32 = (- (x * y))%f32.
Proof.
  unfold F32.mul, F32.opp.
  destruct x as [sx | sx | | sx mx ex], y as [sy | sy | | sy my ey]; cbn [SFmul SFopp];
    try reflexivity; try (destruct sx, sy; reflexivity).
  rewrite round_aux_opp. destruct sx, sy; reflexivity.
Qed.

Lemma mul_opp_r (x y : float) : (x * - y)%f32 = (- (x * y))%f32.
Proof.
  unfold F32.mul, F32.opp.
  destruct x as [sx | sx | | sx mx ex], y as [sy | sy | | sy my ey]; cbn [SFmul SFopp];
    try reflexivity; try (destruct sx, sy; reflexivity).
  rewrite round_aux_opp. destruct sx, sy; reflexivity.
Qed.

Lemma sub_add_opp (x y : float) : (x - y)%f32 = (x + - y)%f32.
Proof.
  unfold F32.sub, F32.add, F32.opp.
  destruct x as [sx | sx | | sx mx ex], y as [sy | sy | | sy my ey]; cbn [SFsub SFadd SFopp];
    try reflexivity; destruct sx, sy; reflexivity.
Qed.

Lemma opp_opp (x : float) : (- - x)%f32 = x.
Proof. unfold F32.opp. destruct x as [[] | [] | | [] m e]; reflexivity. Qed.

Section MixerExtras.

Context {L : Lib}.
Local Notation "'state'" := (MulticopterAttitudeControl L).

(** The mixer is mirror symmetric: with the roll and the pitch torque
    negated, at the same yaw torque and throttle, the thrusts [F1] and [F2]
    change places and so do [F3] and [F4], exactly, and with them the four
    motor throttles. *)
Theorem mixer_mirror (roll pitch yaw throttle : float) (s : state) :
  let m := _mixer (fst (mixer roll pitch yaw throttle s)) in
  let m' := _mixer (fst (mixer (- roll)%f32 (- pitch)%f32 yaw throttle s)) in
  (mixer_s.F1 m' = mixer_s.F2 m /\ mixer_s.F2 m' = mixer_s.F1 m
   /\ mixer_s.F3 m' = mixer_s.F4 m /\ mixer_s.F4 m' = mixer_s.F3 m)
  /\ (mixer_s.throttle1 m' = mixer_s.throttle2 m
      /\ mixer_s.throttle2 m' = mixer_s.throttle1 m
      /\ mixer_s.throttle3 m' = mixer_s.throttle4 m
      /\ mixer_s.throttle4 m' = mixer_s.throttle3 m).
Proof.
  cbv zeta.
  assert (H : let m := _mixer (fst (mixer roll pitch yaw throttle s)) in
              let m' := _mixer (fst (mixer (- roll)%f32 (- pitch)%f32 yaw throttle s)) in
              mixer_s.F1 m' = mixer_s.F2 m /\ mixer_s.F2 m' = mixer_s.F1 m
              /\ mixer_s.F3 m' = mixer_s.F4 m /\ mixer_s.F4 m' = mixer_s.F3 m).
  { cbv zeta. unfold mixer. cbv zeta. cbn [fst].
    change (_mixer (?x <| _mixer := ?m |>)) with m.
    cbn [mixer_s.F1 mixer_s.F2 mixer_s.F3 mixer_s.F4].
    rewrite !mul_opp_l, !mul_opp_r, !sub_add_opp, !opp_opp. repeat split; reflexivity. }
  cbv zeta in H. destruct H as (H1 & H2 & H3 & H4).
  split; [repeat split; assumption | ].
  change (thrust_to_throttle
            (mixer_s.F1 (_mixer (fst (mixer (- roll)%f32 (- pitch)%f32 yaw throttle s))))
          = thrust_to_throttle (mixer_s.F2 (_mixer (fst (mixer roll pitch yaw throttle s))))
          /\ thrust_to_throttle
               (mixer_s.F2 (_mixer (fst (mixer (- roll)%f32 (- pitch)%f32 yaw throttle s))))
             = thrust_to_throttle
                 (mixer_s.F1 (_mixer (fst (mixer roll pitch yaw throttle s))))
          /\ thrust_to_throttle
               (mixer_s.F3 (_mixer (fst (mixer (- roll)%f32 (- pitch)%f32 yaw throttle s))))
             = thrust_to_throttle
                 (mixer_s.F4 (_mixer (fst (mixer roll pitch yaw throttle s))))
          /\ thrust_to_throttle
               (mixer_s.F4 (_mixer (fst (mixer (- roll)%f32 (- pitch)%f32 yaw throttle s))))
             = thrust_to_throttle
                 (mixer_s.F3 (_mixer (fst (mixer roll pitch yaw throttle s))))).
  rewrite H1, H2, H3, H4. repeat split; reflexivity.
Qed.

End MixerExtras.
